(** * YT-Docker-Data-Processor: the per-record pipeline, embedded and verified

    Shallow embedding of [src/Final Code/youtube_download_portable.py]
    (flat output, one face per video), of
    [src/youtube_download_portable.py] (nested output, up to ten faces per
    video) and of [src/Final Code/config.py].

    The Python functions act on the file system, on the failure log and on
    external tools (yt-dlp, ffmpeg, OpenCV).  A [World] value carries the
    observable state; an [Env] value gives the answers of the external
    tools, each as a function of the call's arguments and of the world at
    the time of the call.  Python code that may raise is a computation in
    the monad [Py]: it returns the new world and either a value or the text
    of the exception.

    What is taken from the libraries: [ydl.extract_info], [ffmpeg.run],
    [cv2.VideoCapture], [os.remove] and [os.makedirs] may raise, as [Env]
    says; [cv2.imwrite], the append to [LOG_FILE], frame decoding and the
    cascade detector are taken to succeed.  The one-face script calls
    [os.makedirs] only while the module is loaded, before any of the
    functions embedded here runs.  Console output ([print]) is not
    modelled.  Strings are byte strings and [str.lower] acts on the ASCII
    letters; offsets and clock readings are IEEE doubles ([float]);
    counters are unbounded integers. *)

From Stdlib Require Import String Ascii List ZArith Lia Bool Floats.
From stdpp Require Import gmap strings pretty.
From Equations Require Import Equations.
Import ListNotations.

Local Open Scope string_scope.
Local Open Scope list_scope.
Local Open Scope nat_scope.

(** ** Python values used by the scripts *)

(** A detection returned by [detectMultiScale]: the tuple [(x, y, w, h)]. *)
Definition rect : Type := (Z * Z * Z * Z)%type.

(** The stream handed to [ffmpeg.run]: [ffmpeg.input(video_path, ss=...)]
    piped into [ffmpeg.output(..., audio_path, acodec=..., ar=..., t=...)].
    A keyword that the call does not pass is [None]. *)
Record stream : Type := mkStream {
  input_path : string;
  input_ss : option float;
  output_path : string;
  acodec : string;
  ar : Z;
  output_t : option float
}.

(** ** The world *)

Inductive event : Type :=
| EvExtractInfo (url outtmpl : string)
| EvSleep (seconds : nat)
| EvFfmpegRun (s : stream)
| EvDetect (frame_count : nat)
| EvImwrite (path : string) (w h : Z)
| EvRemove (path : string).

(** [fs] is the set of paths that exist, [log] the strings written to
    [LOG_FILE] (oldest first), [trace] the external calls made so far
    (oldest first). *)
Record World : Type := mkWorld {
  fs : gset string;
  log : list string;
  trace : list event
}.

Definition emit (e : event) (w : World) : World :=
  mkWorld (fs w) (log w) (trace w ++ [e]).

Definition create (p : string) (w : World) : World :=
  mkWorld ({[ p ]} ∪ fs w) (log w) (trace w).

Definition unlink (p : string) (w : World) : World :=
  mkWorld (fs w ∖ {[ p ]}) (log w) (trace w).

Definition append_log (line : string) (w : World) : World :=
  mkWorld (fs w) (log w ++ [line]) (trace w).

(** ** The external tools *)

(** What one call of [ydl.extract_info(url, download=True)] does: it raises,
    or returns [None] (the option ["ignoreerrors": True] turns most errors
    into that), or returns the info dictionary; in the last case [wrote]
    tells whether the file named by ["outtmpl"] was written. *)
Inductive dl_outcome : Type :=
| DlRaise (msg : string)
| DlNone
| DlInfo (wrote : bool).

(** What [ffmpeg.run(stream, overwrite_output=True, quiet=True)] does: it
    raises [ffmpeg.Error], or returns, having written the output or not. *)
Inductive ff_outcome : Type :=
| FfRaise (msg : string)
| FfDone (wrote : bool).

(** What [cv2.VideoCapture(video_path)] gives: an exception, a capture that
    is not opened, or an opened capture.  An opened capture is the list of
    its decoded frames; a frame is given by what the cascade detector
    [detectMultiScale(gray, 1.1, 4)] returns on it. *)
Inductive cap_outcome : Type :=
| CapRaise (msg : string)
| CapClosed
| CapOpened (frames : list (list rect)).

Record Env : Type := mkEnv {
  ydl_extract_info : string -> string -> World -> dl_outcome;
  ffmpeg_run : stream -> World -> ff_outcome;
  cv2_VideoCapture : string -> World -> cap_outcome;
  (** [os.remove(path)]: [None] when the file is removed, the text of the
      [OSError] otherwise. *)
  os_remove_error : string -> World -> option string;
  (** [time.time()] *)
  time_time : World -> float;
  (** [os.makedirs(path, exist_ok=True)]: [None] when the directory is
      there afterwards, the text of the [OSError] otherwise. *)
  os_makedirs_error : string -> World -> option string
}.

(** ** The monad of Python computations *)

Inductive result (A : Type) : Type :=
| Ok (a : A)
| Raise (e : string).
Arguments Ok {A} a.
Arguments Raise {A} e.

Definition Py (A : Type) : Type := World -> World * result A.

Definition ret {A} (a : A) : Py A := fun w => (w, Ok a).

Definition raise {A} (e : string) : Py A := fun w => (w, Raise e).

Definition bind {A B} (m : Py A) (k : A -> Py B) : Py B :=
  fun w => match m w with
           | (w1, Ok a) => k a w1
           | (w1, Raise e) => (w1, Raise e)
           end.

(** [try: m  except Exception as e: h e] *)
Definition try_except {A} (m : Py A) (h : string -> Py A) : Py A :=
  fun w => match m w with
           | (w1, Ok a) => (w1, Ok a)
           | (w1, Raise e) => h e w1
           end.

(** A statement that acts on the world and cannot raise. *)
Definition act (f : World -> World) : Py unit := fun w => (f w, Ok tt).

(** Reading the world. *)
Definition ask {A} (f : World -> A) : Py A := fun w => (w, Ok (f w)).

Declare Scope py_scope.
Delimit Scope py_scope with py.
Notation "x <- m ;; k" := (bind m (fun x => k))
  (at level 100, m at next level, right associativity) : py_scope.
Notation "m ;; k" := (bind m (fun _ => k))
  (at level 100, right associativity) : py_scope.
Local Open Scope py_scope.

(** ** Strings and paths *)

(** The newline character. *)
Definition nl : string := String (ascii_of_nat 10) EmptyString.

(** [str.lower], on the ASCII letters. *)
Definition lower_ascii (c : ascii) : ascii :=
  let n := nat_of_ascii c in
  if (65 <=? n)%nat && (n <=? 90)%nat then ascii_of_nat (n + 32) else c.

Fixpoint lower (s : string) : string :=
  match s with
  | EmptyString => EmptyString
  | String c s' => String (lower_ascii c) (lower s')
  end.

(** [s.startswith(p)] *)
Fixpoint startswith (p s : string) : bool :=
  match p, s with
  | EmptyString, _ => true
  | String a p', String b s' => if Ascii.eqb a b then startswith p' s' else false
  | String _ _, EmptyString => false
  end.

(** [x in s] for strings. *)
Fixpoint contains (x s : string) : bool :=
  startswith x s ||
  match s with
  | EmptyString => false
  | String _ s' => contains x s'
  end.

(** The last character of a string, if any. *)
Fixpoint last_char (s : string) : option ascii :=
  match s with
  | EmptyString => None
  | String c EmptyString => Some c
  | String _ s' => last_char s'
  end.

(** [os.path.join(a, b)] on POSIX: an absolute [b] discards [a]; otherwise
    the two are joined by one separator unless [a] is empty or already
    ends with one. *)
Definition os_path_join (a b : string) : string :=
  if startswith "/" b then b
  else match last_char a with
       | None => b
       | Some c => if Ascii.eqb c "/" then a +:+ b else a +:+ "/" +:+ b
       end.

(** [os.path.exists(path)] *)
Definition os_path_exists (p : string) : Py bool :=
  ask (fun w => bool_decide (p ∈ fs w)).

(** ** config.py *)

Inductive Mode : Type := TEST | PRODUCTION.

Record Config : Type := mkConfig {
  MODE : Mode;
  CSV_PATH : string;
  OUTPUT_DIR : string;
  MAX_RETRIES : nat;
  AUDIO_DIR : string;
  FACE_DIR : string;
  LOG_FILE : string
}.

Definition mode_name (m : Mode) : string :=
  match m with TEST => "TEST" | PRODUCTION => "PRODUCTION" end.

Definition config (m : Mode) : Config :=
  let csv := match m with
             | TEST => "avspeech_test_100.csv"
             | PRODUCTION => "datacsv.csv"
             end in
  let out := match m with
             | TEST => "dataset_test"
             | PRODUCTION => "dataset_production"
             end in
  let retries := match m with TEST => 2%nat | PRODUCTION => 3%nat end in
  mkConfig m csv out retries
           (os_path_join out "audio")
           (os_path_join out "faces")
           ("failed_downloads_" +:+ lower (mode_name m) +:+ ".log").

(** ** Code shared by the two scripts *)

Section Shared.

Variable cfg : Config.
Variable env : Env.

(** [f"{youtube_id},{reason},{details}\n"] *)
Definition failure_line (youtube_id reason details : string) : string :=
  youtube_id +:+ "," +:+ reason +:+ "," +:+ details +:+ nl.

(** [log_failure(youtube_id, reason, details)]: one [f.write] of the line
    on [LOG_FILE], opened for appending. *)
Definition log_failure (youtube_id reason details : string) : Py unit :=
  act (append_log (failure_line youtube_id reason details)).

(** [time.sleep(seconds)] *)
Definition time_sleep (seconds : nat) : Py unit := act (emit (EvSleep seconds)).

(** [f"https://www.youtube.com/watch?v={youtube_id}"] *)
Definition watch_url (youtube_id : string) : string :=
  "https://www.youtube.com/watch?v=" +:+ youtube_id.

(** The [try] body of [download_video]. *)
Definition download_attempt (youtube_id output_path : string) : Py bool :=
  let url := watch_url youtube_id in
  info <- (fun w =>
             let w1 := emit (EvExtractInfo url output_path) w in
             match ydl_extract_info env url output_path w with
             | DlRaise msg => (w1, Raise msg)
             | DlNone => (w1, Ok false)
             | DlInfo wrote => ((if wrote then create output_path w1 else w1), Ok true)
             end) ;;
  (if negb info then raise "Video info not available" else ret tt) ;;
  os_path_exists output_path.

(** [any(x in error_str for x in ["age", "inappropriate", "sign in"])] *)
Definition age_restricted (error_str : string) : bool :=
  existsb (fun x => contains x error_str) ["age"; "inappropriate"; "sign in"].

(** The two branches under [if retry < MAX_RETRIES]; [again] is the
    recursive call [download_video(youtube_id, output_path, retry + 1)]. *)
Definition retry_age_restricted (retry : nat) (again : Py bool) : Py bool :=
  time_sleep (2 ^ retry) ;; again.

Definition retry_generic (retry : nat) (again : Py bool) : Py bool :=
  time_sleep (2 ^ retry) ;; again.

(** [download_video(youtube_id, output_path, retry)] *)
Equations? download_video (youtube_id output_path : string) (retry : nat) : Py bool
  by wf (MAX_RETRIES cfg - retry)%nat lt :=
download_video youtube_id output_path retry :=
  try_except (download_attempt youtube_id output_path)
    (fun e =>
       let error_str := lower e in
       match lt_dec retry (MAX_RETRIES cfg) with
       | left _ =>
           if age_restricted error_str
           then retry_age_restricted retry (download_video youtube_id output_path (retry + 1))
           else retry_generic retry (download_video youtube_id output_path (retry + 1))
       | right _ =>
           log_failure youtube_id "Download failed" e ;;
           ret false
       end).
Proof. all: lia. Qed.

(** [ffmpeg.run(stream, overwrite_output=True, quiet=True)] *)
Definition ffmpeg_run_quiet (s : stream) : Py unit :=
  fun w =>
    let w1 := emit (EvFfmpegRun s) w in
    match ffmpeg_run env s w with
    | FfRaise msg => (w1, Raise msg)
    | FfDone wrote => ((if wrote then create (output_path s) w1 else w1), Ok tt)
    end.

(** [cv2.imwrite(path, frame[y:y+h, x:x+w])]: the crop is written. *)
Definition cv2_imwrite (path : string) (r : rect) : Py unit :=
  let '(_, _, w, h) := r in
  act (fun wd => create path (emit (EvImwrite path w h) wd)).

(** [cvtColor] followed by [face_cascade.detectMultiScale(gray, 1.1, 4)] on
    the frame numbered [frame_count]. *)
Definition detectMultiScale (frame_count : nat) (frame : list rect) : Py (list rect) :=
  act (emit (EvDetect frame_count)) ;; ret frame.

(** [os.remove(path)] *)
Definition os_remove (path : string) : Py unit :=
  fun w =>
    let w1 := emit (EvRemove path) w in
    match os_remove_error env path w with
    | None => (unlink path w1, Ok tt)
    | Some msg => (w1, Raise msg)
    end.

(** [os.makedirs(path, exist_ok=True)] *)
Definition os_makedirs (path : string) : Py unit :=
  fun w =>
    match os_makedirs_error env path w with
    | None => (create path w, Ok tt)
    | Some msg => (w, Raise msg)
    end.

End Shared.

(** ** src/Final Code/youtube_download_portable.py: flat output, one face *)

Module Flat.

(** *** [ProgressTracker] *)

Record ProgressTracker : Type := mkProgressTracker {
  total_items : Z;
  completed : Z;
  failed : Z;
  start_time : float;
  current_item : Z;
  last_update_time : float;
  current_youtube_id : string
}.

(** [ProgressTracker(total_items)]; [now] is what [time.time()] returns. *)
Definition init (total : Z) (now : float) : ProgressTracker :=
  mkProgressTracker total 0 0 now 0 now EmptyString.

(** [_show_row_progress] only prints. *)
Definition _show_row_progress (self : ProgressTracker) (row_number : Z) (success : bool)
  : result unit := Ok tt.

(** [_show_detailed_update] only prints, after the division
    [self.current_item / self.total_items], which raises on a zero
    divisor. *)
Definition _show_detailed_update (self : ProgressTracker) : result unit :=
  if (total_items self =? 0)%Z then Raise "division by zero" else Ok tt.

(** [update(success, youtube_id, row_number)]; [current_time] is what
    [time.time()] returns in the body.  The tracker returned is the object
    as the call leaves it, also when the call raises. *)
Definition update (self : ProgressTracker) (success : bool) (youtube_id : string)
    (row_number : Z) (current_time : float) : ProgressTracker * result unit :=
  let self := mkProgressTracker (total_items self) (completed self) (failed self)
                (start_time self) (current_item self + 1) (last_update_time self)
                youtube_id in
  let self :=
    if success
    then mkProgressTracker (total_items self) (completed self + 1) (failed self)
           (start_time self) (current_item self) (last_update_time self)
           (current_youtube_id self)
    else mkProgressTracker (total_items self) (completed self) (failed self + 1)
           (start_time self) (current_item self) (last_update_time self)
           (current_youtube_id self) in
  match _show_row_progress self row_number success with
  | Raise e => (self, Raise e)
  | Ok _ =>
      if (current_item self mod 10 =? 0)%Z
         || (30 <? current_time - last_update_time self)%float
      then match _show_detailed_update self with
           | Raise e => (self, Raise e)
           | Ok _ =>
               (mkProgressTracker (total_items self) (completed self) (failed self)
                  (start_time self) (current_item self) current_time
                  (current_youtube_id self), Ok tt)
           end
      else (self, Ok tt)
  end.

Section WithConfig.

Variable cfg : Config.
Variable env : Env.

(** *** [extract_audio] *)

(** The stream that [extract_audio] builds before it calls [ffmpeg.run]. *)
Definition audio_stream (video_path audio_path : string)
    (start_time end_time : option float) : stream :=
  let start := match start_time with Some t => t | None => 0%float end in
  let end_ := match end_time with Some t => t | None => 0%float end in
  let '(start, duration) :=
    if (0 <? end_)%float && (start <? end_)%float
    then (start, Some (end_ - start)%float)
    else (0%float, None) in
  match duration with
  | Some d => mkStream video_path (Some start) audio_path "pcm_s16le" 16000 (Some d)
  | None => mkStream video_path None audio_path "pcm_s16le" 16000 None
  end.

Definition extract_audio (video_path audio_path : string)
    (start_time end_time : option float) : Py bool :=
  try_except
    (ffmpeg_run_quiet env (audio_stream video_path audio_path start_time end_time) ;;
     os_path_exists audio_path)
    (fun e => ret false).

(** *** [extract_faces] *)

(** The [for (x, y, w, h) in faces] loop; it returns [face_found]. *)
Fixpoint for_faces (face_path : string) (faces : list rect) : Py bool :=
  match faces with
  | [] => ret false
  | (x, y, w, h) :: rest =>
      if (50 <=? w)%Z && (50 <=? h)%Z
      then cv2_imwrite face_path (x, y, w, h) ;; ret true
      else for_faces face_path rest
  end.

(** The [while cap.isOpened() and not face_found] loop over the frames that
    [cap.read()] still has to deliver; it returns [face_found]. *)
Fixpoint while_frames (face_path : string) (frames : list (list rect))
    (frame_count : nat) (face_found : bool) : Py bool :=
  if face_found then ret face_found
  else match frames with
       | [] => ret face_found
       | frame :: rest =>
           let frame_count := S frame_count in
           if negb (frame_count mod 30 =? 0)%nat
           then while_frames face_path rest frame_count face_found
           else
             faces <- detectMultiScale frame_count frame ;;
             face_found <- for_faces face_path faces ;;
             while_frames face_path rest frame_count face_found
       end.

Definition extract_faces (video_path face_path youtube_id : string) : Py bool :=
  try_except
    (fun w =>
       match cv2_VideoCapture env video_path w with
       | CapRaise msg => (w, Raise msg)
       | CapClosed => (w, Ok false)
       | CapOpened frames => while_frames face_path frames 0 false w
       end)
    (fun e => ret false).

(** *** [process_video] *)

Definition video_path (youtube_id : string) : string :=
  os_path_join (OUTPUT_DIR cfg) (youtube_id +:+ "_full.mp4").

Definition audio_path (youtube_id : string) : string :=
  os_path_join (AUDIO_DIR cfg) (youtube_id +:+ "_audio.wav").

Definition face_path (youtube_id : string) : string :=
  os_path_join (FACE_DIR cfg) (youtube_id +:+ "_face.jpg").

(** The [try] body of [process_video]. *)
Definition process_video_body (youtube_id : string) (start_time end_time : float)
  : Py bool :=
  ok <- download_video cfg env youtube_id (video_path youtube_id) 0 ;;
  if negb ok then ret false else
  ok <- extract_audio (video_path youtube_id) (audio_path youtube_id)
          (Some start_time) (Some end_time) ;;
  if negb ok then ret false else
  ok <- extract_faces (video_path youtube_id) (face_path youtube_id) youtube_id ;;
  if negb ok then ret false else
  there <- os_path_exists (video_path youtube_id) ;;
  (if there then os_remove env (video_path youtube_id) else ret tt) ;;
  ret true.

Definition process_video (args : string * float * float * Z) : Py bool :=
  let '(youtube_id, start_time, end_time, row_number) := args in
  try_except (process_video_body youtube_id start_time end_time)
    (fun e => log_failure youtube_id "Processing failed" e ;; ret false).

(** *** The processing loop of [main] *)

Fixpoint process_all (data : list (string * float * float * Z))
    (progress : ProgressTracker) : Py ProgressTracker :=
  match data with
  | [] => ret progress
  | video_data :: rest =>
      let '(youtube_id, _, _, row_number) := video_data in
      success <- process_video video_data ;;
      now <- ask (time_time env) ;;
      match update progress success youtube_id row_number now with
      | (progress, Ok _) => process_all rest progress
      | (_, Raise e) => raise e
      end
  end.

End WithConfig.

End Flat.

(** ** src/youtube_download_portable.py: nested output, up to ten faces *)

Module Nested.

(** *** [ProgressTracker] *)

Record ProgressTracker : Type := mkProgressTracker {
  total_items : Z;
  completed : Z;
  failed : Z;
  start_time : float;
  current_item : Z;
  last_update_time : float
}.

Definition init (total : Z) (now : float) : ProgressTracker :=
  mkProgressTracker total 0 0 now 0 now.

(** [_show_progress_update] only prints, after the division
    [self.current_item / self.total_items]. *)
Definition _show_progress_update (self : ProgressTracker) : result unit :=
  if (total_items self =? 0)%Z then Raise "division by zero" else Ok tt.

(** [update(success)]; [current_time] is what [time.time()] returns. *)
Definition update (self : ProgressTracker) (success : bool) (current_time : float)
  : ProgressTracker * result unit :=
  let self := mkProgressTracker (total_items self) (completed self) (failed self)
                (start_time self) (current_item self + 1) (last_update_time self) in
  let self :=
    if success
    then mkProgressTracker (total_items self) (completed self + 1) (failed self)
           (start_time self) (current_item self) (last_update_time self)
    else mkProgressTracker (total_items self) (completed self) (failed self + 1)
           (start_time self) (current_item self) (last_update_time self) in
  if (current_item self mod 10 =? 0)%Z
     || (30 <? current_time - last_update_time self)%float
  then match _show_progress_update self with
       | Raise e => (self, Raise e)
       | Ok _ =>
           (mkProgressTracker (total_items self) (completed self) (failed self)
              (start_time self) (current_item self) current_time, Ok tt)
       end
  else (self, Ok tt).

Section WithConfig.

Variable cfg : Config.
Variable env : Env.

(** *** [extract_audio] *)

Definition audio_stream (video_path audio_path : string) : stream :=
  mkStream video_path None audio_path "pcm_s16le" 16000 None.

Definition extract_audio (video_path audio_path : string) : Py bool :=
  try_except
    (ffmpeg_run_quiet env (audio_stream video_path audio_path) ;;
     os_path_exists audio_path)
    (fun e => ret false).

(** *** [extract_faces] *)

(** [os.path.join(face_dir, f"{youtube_id}_face_{faces_found}.jpg")] *)
Definition face_file (face_dir youtube_id : string) (faces_found : nat) : string :=
  os_path_join face_dir (youtube_id +:+ "_face_" +:+ pretty faces_found +:+ ".jpg").

(** The [for (x, y, w, h) in faces] loop; it returns [faces_found]. *)
Fixpoint for_faces (face_dir youtube_id : string) (faces : list rect)
    (faces_found : nat) : Py nat :=
  match faces with
  | [] => ret faces_found
  | r :: rest =>
      cv2_imwrite (face_file face_dir youtube_id faces_found) r ;;
      let faces_found := S faces_found in
      if (10 <=? faces_found)%nat then ret faces_found
      else for_faces face_dir youtube_id rest faces_found
  end.

(** The [while cap.isOpened() and faces_found < 10] loop over the frames
    that [cap.read()] still has to deliver; it returns [faces_found]. *)
Fixpoint while_frames (face_dir youtube_id : string) (frames : list (list rect))
    (frame_count faces_found : nat) : Py nat :=
  if negb (faces_found <? 10)%nat then ret faces_found
  else match frames with
       | [] => ret faces_found
       | frame :: rest =>
           let frame_count := S frame_count in
           if negb (frame_count mod 30 =? 0)%nat
           then while_frames face_dir youtube_id rest frame_count faces_found
           else
             faces <- detectMultiScale frame_count frame ;;
             faces_found <- for_faces face_dir youtube_id faces faces_found ;;
             while_frames face_dir youtube_id rest frame_count faces_found
       end.

Definition extract_faces (video_path face_dir youtube_id : string) : Py bool :=
  try_except
    (fun w =>
       match cv2_VideoCapture env video_path w with
       | CapRaise msg => (w, Raise msg)
       | CapClosed => (w, Ok false)
       | CapOpened frames =>
           (faces_found <- while_frames face_dir youtube_id frames 0 0 ;;
            ret (0 <? faces_found)%nat) w
       end)
    (fun e => ret false).

(** *** [process_video] *)

Definition video_path (youtube_id : string) : string :=
  os_path_join (OUTPUT_DIR cfg) (youtube_id +:+ "_full.mp4").

Definition audio_path (youtube_id : string) : string :=
  os_path_join (AUDIO_DIR cfg) (youtube_id +:+ "_audio.wav").

Definition face_dir (youtube_id : string) : string :=
  os_path_join (FACE_DIR cfg) youtube_id.

(** The [try] body of [process_video]. *)
Definition process_video_body (youtube_id : string) : Py bool :=
  ok <- download_video cfg env youtube_id (video_path youtube_id) 0 ;;
  if negb ok then ret false else
  ok <- extract_audio (video_path youtube_id) (audio_path youtube_id) ;;
  if negb ok then ret false else
  ok <- extract_faces (video_path youtube_id) (face_dir youtube_id) youtube_id ;;
  if negb ok then ret false else
  there <- os_path_exists (video_path youtube_id) ;;
  (if there then os_remove env (video_path youtube_id) else ret tt) ;;
  ret true.

Definition process_video (args : string * float * float) : Py bool :=
  let '(youtube_id, start_time, end_time) := args in
  os_makedirs env (face_dir youtube_id) ;;
  try_except (process_video_body youtube_id)
    (fun e => log_failure youtube_id "Processing failed" e ;; ret false).

End WithConfig.

End Nested.

(** ** [main] of the one-face script *)

Module FlatMain.

Section WithConfig.

Variable cfg : Config.
Variable env : Env.

(** What loading the records gives: [pd.read_csv] with the clean-up that
    follows it and the list [data] built from [df.iterrows()], or the
    exception of [pd.read_csv]. *)
Variable load : World -> result (list (string * float * float * Z)).

(** [main()].  [total_videos] is [len(df)], which is the length of [data].
    After the loop the summary lists [AUDIO_DIR] and [FACE_DIR], which
    the module created when it was loaded (the listing is taken to
    succeed), and prints [progress.completed/total_videos*100], a division
    that raises on a zero divisor. *)
Definition main : Py unit :=
  there <- os_path_exists (CSV_PATH cfg) ;;
  if negb there then ret tt else
  loaded <- (fun w => (w, Ok (load w))) ;;
  match loaded with
  | Raise e => ret tt
  | Ok data =>
      let total_videos := Z.of_nat (length data) in
      now <- ask (time_time env) ;;
      progress <- Flat.process_all cfg env data (Flat.init total_videos now) ;;
      if (total_videos =? 0)%Z then raise "division by zero" else ret tt
  end.

End WithConfig.

End FlatMain.

(** ** src/Final Code/setup_portable.py *)

(** The setup script runs other programs and touches the working
    directory.  A [Machine] carries what the script can observe: the files
    of the working directory (a CSV file by its rows), the [PATH] of the
    process, and the command lines run so far (oldest first).  A [Host]
    gives what the script cannot decide: the interpreter, the platform and
    the outcome of every external step.  Console output is not modelled. *)

Module Setup.

(** The exception classes that the script tells apart; all of them derive
    from [Exception]. *)
Inductive exn : Type :=
| CalledProcessError (returncode : Z)
| TimeoutExpired
| FileNotFoundError
| ImportError
| OtherException (msg : string).

Record Machine : Type := mkMachine {
  files : gmap string (list string);
  PATH : string;
  runs : list (list string)
}.

(** How a child process ends: with a return code, by exceeding the
    timeout, because the program is not found, or with another
    [OSError]. *)
Inductive proc_outcome : Type :=
| Exited (returncode : Z)
| TimedOut
| NotFound
| Failed (msg : string).

Record Host : Type := mkHost {
  (** [sys.version_info]: major, minor, micro. *)
  version_info : Z * Z * Z;
  (** [sys.executable] *)
  executable : string;
  (** [platform.system()] *)
  system : string;
  (** What running a command line does. *)
  spawn : list string -> Machine -> proc_outcome;
  (** [urllib.request.urlretrieve(url, path)]: [None] when the file is
      saved, the exception otherwise. *)
  urlretrieve_error : string -> string -> Machine -> option exn;
  (** [zipfile.ZipFile(path).extractall(".")]: the names it creates in the
      working directory, or the exception. *)
  extractall : string -> Machine -> exn + list string;
  (** [os.listdir(".")], in the order the system gives. *)
  listdir : Machine -> list string;
  (** [os.getcwd()], [os.pathsep] and [os.path.join] of the platform. *)
  getcwd : string;
  pathsep : string;
  path_join : string -> string -> string;
  (** [pd.read_csv(path)]: [None] when the file parses. *)
  read_csv_error : string -> Machine -> option exn;
  (** The imports of [verify_environment]: [None] when all succeed. *)
  import_error : Machine -> option exn
}.

Inductive result (A : Type) : Type :=
| Ok (a : A)
| Raise (e : exn).
Arguments Ok {A} a.
Arguments Raise {A} e.

Definition Py (A : Type) : Type := Machine -> Machine * result A.

Definition ret {A} (a : A) : Py A := fun m => (m, Ok a).

Definition raise {A} (e : exn) : Py A := fun m => (m, Raise e).

Definition bind {A B} (c : Py A) (k : A -> Py B) : Py B :=
  fun m => match c m with
           | (m1, Ok a) => k a m1
           | (m1, Raise e) => (m1, Raise e)
           end.

(** [try: c  except <classes> as e: h e], where [caught] tells the classes
    of the [except] clause; another exception goes on. *)
Definition try_except {A} (c : Py A) (caught : exn -> bool) (h : exn -> Py A) : Py A :=
  fun m => match c m with
           | (m1, Ok a) => (m1, Ok a)
           | (m1, Raise e) => if caught e then h e m1 else (m1, Raise e)
           end.

Declare Scope setup_scope.
Delimit Scope setup_scope with setup.
Notation "x <- c ;; k" := (bind c (fun x => k))
  (at level 100, c at next level, right associativity) : setup_scope.
Notation "c ;; k" := (bind c (fun _ => k))
  (at level 100, right associativity) : setup_scope.
Local Open Scope setup_scope.

(** [except subprocess.CalledProcessError] *)
Definition is_CalledProcessError (e : exn) : bool :=
  match e with CalledProcessError _ => true | _ => false end.

(** [except (subprocess.CalledProcessError, subprocess.TimeoutExpired)] *)
Definition is_CalledProcessError_or_TimeoutExpired (e : exn) : bool :=
  match e with CalledProcessError _ | TimeoutExpired => true | _ => false end.

(** [except (subprocess.TimeoutExpired, FileNotFoundError)] *)
Definition is_TimeoutExpired_or_FileNotFoundError (e : exn) : bool :=
  match e with TimeoutExpired | FileNotFoundError => true | _ => false end.

(** [except subprocess.TimeoutExpired] *)
Definition is_TimeoutExpired (e : exn) : bool :=
  match e with TimeoutExpired => true | _ => false end.

(** [except FileNotFoundError] *)
Definition is_FileNotFoundError (e : exn) : bool :=
  match e with FileNotFoundError => true | _ => false end.

(** [except ImportError] *)
Definition is_ImportError (e : exn) : bool :=
  match e with ImportError => true | _ => false end.

(** [except Exception] *)
Definition is_Exception (e : exn) : bool := true.

Section WithHost.

Variable host : Host.

(** [subprocess.run(cmd, capture_output=True, text=True, timeout=...)]: the
    return code of the child. *)
Definition subprocess_run (cmd : list string) : Py Z :=
  fun m =>
    let m1 := mkMachine (files m) (PATH m) (runs m ++ [cmd]) in
    match spawn host cmd m with
    | Exited returncode => (m1, Ok returncode)
    | TimedOut => (m1, Raise TimeoutExpired)
    | NotFound => (m1, Raise FileNotFoundError)
    | Failed msg => (m1, Raise (OtherException msg))
    end.

(** [subprocess.check_call(cmd, ...)] *)
Definition subprocess_check_call (cmd : list string) : Py unit :=
  returncode <- subprocess_run cmd ;;
  if (returncode =? 0)%Z then ret tt else raise (CalledProcessError returncode).

(** [os.path.exists(path)] *)
Definition os_path_exists (path : string) : Py bool :=
  fun m => (m, Ok (bool_decide (is_Some (files m !! path)))).

(** [check_python_version()] *)
Definition check_python_version : bool :=
  let '(major, minor, micro) := version_info host in
  if (major <? 3)%Z || ((major =? 3)%Z && (minor <? 8)%Z) then false else true.

(** The [packages] list of [install_pip_packages]. *)
Definition packages : list string :=
  ["yt-dlp>=2023.12.30"; "opencv-python>=4.8.0"; "pandas>=2.0.0";
   "ffmpeg-python>=0.2.0"; "tqdm>=4.65.0"; "numpy>=1.24.0"; "Pillow>=10.0.0"].

(** [[sys.executable, "-m", "pip", "install", package]] *)
Definition pip_install (package : string) : list string :=
  [executable host; "-m"; "pip"; "install"; package].

(** The [for package in packages] loop of [install_pip_packages] and the
    [return True] after it. *)
Fixpoint install_each (todo : list string) : Py bool :=
  match todo with
  | [] => ret true
  | package :: rest =>
      installed <- try_except
                     (subprocess_check_call (pip_install package) ;; ret true)
                     is_CalledProcessError
                     (fun e => ret false) ;;
      if installed then install_each rest else ret false
  end.

(** [install_pip_packages()] *)
Definition install_pip_packages : Py bool := install_each packages.

(** The [package_managers] list of [install_ffmpeg_linux]. *)
Definition package_managers : list (list string) :=
  [["apt-get"; "update"; "&&"; "apt-get"; "install"; "-y"; "ffmpeg"];
   ["yum"; "install"; "-y"; "ffmpeg"];
   ["dnf"; "install"; "-y"; "ffmpeg"];
   ["pacman"; "-S"; "--noconfirm"; "ffmpeg"]].

(** The command line that the loop runs for a manager:
    [['bash', '-c', ' '.join(manager)]] for [apt-get], the manager's own
    line otherwise. *)
Definition manager_command (manager : list string) : list string :=
  if String.eqb (hd EmptyString manager) "apt-get"
  then ["bash"; "-c"; String.concat " " manager]
  else manager.

(** The [for manager in package_managers] loop of [install_ffmpeg_linux]
    and the [return False] after it. *)
Fixpoint try_managers (todo : list (list string)) : Py bool :=
  match todo with
  | [] => ret false
  | manager :: rest =>
      installed <- try_except
                     (subprocess_check_call (manager_command manager) ;; ret true)
                     is_CalledProcessError_or_TimeoutExpired
                     (fun e => ret false) ;;
      if installed then ret true else try_managers rest
  end.

(** [install_ffmpeg_linux()] *)
Definition install_ffmpeg_linux : Py bool :=
  try_except (try_managers package_managers) is_Exception (fun e => ret false).

(** [install_ffmpeg_macos()] *)
Definition install_ffmpeg_macos : Py bool :=
  try_except
    (try_except
       (subprocess_check_call ["brew"; "install"; "ffmpeg"] ;; ret true)
       is_CalledProcessError_or_TimeoutExpired
       (fun e => ret false))
    is_FileNotFoundError
    (fun e => ret false).

(** The name that [install_ffmpeg_windows] saves the archive under. *)
Definition zip_path : string := "ffmpeg.zip".

Definition ffmpeg_url : string :=
  "https://github.com/BtbN/FFmpeg-Builds/releases/download/latest/ffmpeg-master-latest-win64-gpl.zip".

(** [urllib.request.urlretrieve(ffmpeg_url, zip_path)] *)
Definition urlretrieve (url path : string) : Py unit :=
  fun m =>
    match urlretrieve_error host url path m with
    | Some e => (m, Raise e)
    | None => (mkMachine (<[ path := [] ]> (files m)) (PATH m) (runs m), Ok tt)
    end.

(** [with zipfile.ZipFile(path, 'r') as zip_ref: zip_ref.extractall(".")] *)
Definition zip_extractall (path : string) : Py unit :=
  fun m =>
    match extractall host path m with
    | inl e => (m, Raise e)
    | inr names =>
        (mkMachine (foldr (fun name fm => <[ name := [] ]> fm) (files m) names)
                   (PATH m) (runs m), Ok tt)
    end.

(** The search for the extracted directory: the first item of
    [os.listdir(".")] whose name starts with the archive's stem. *)
Definition find_extracted_dir : Py (option string) :=
  fun m => (m, Ok (List.find (startswith "ffmpeg-master-latest-win64-gpl") (listdir host m))).

(** [os.environ['PATH'] = bin_path + os.pathsep + os.environ.get('PATH', '')] *)
Definition prepend_to_PATH (bin_path : string) : Py unit :=
  fun m => (mkMachine (files m) (bin_path +:+ pathsep host +:+ PATH m) (runs m), Ok tt).

(** [os.remove(path)] *)
Definition os_remove (path : string) : Py unit :=
  fun m => (mkMachine (delete path (files m)) (PATH m) (runs m), Ok tt).

(** The manual download of [install_ffmpeg_windows], from
    [ffmpeg_url = ...] to the [return False] that ends the [try] body. *)
Definition manual_download : Py bool :=
  urlretrieve ffmpeg_url zip_path ;;
  zip_extractall zip_path ;;
  extracted_dir <- find_extracted_dir ;;
  works <- match extracted_dir with
           | Some dir =>
               let bin_path := path_join host (path_join host (getcwd host) dir) "bin" in
               prepend_to_PATH bin_path ;;
               try_except
                 (returncode <- subprocess_run ["ffmpeg"; "-version"] ;;
                  ret (returncode =? 0)%Z)
                 is_TimeoutExpired
                 (fun e => ret false)
           | None => ret false
           end ;;
  if works then ret true else
  there <- os_path_exists zip_path ;;
  (if there then os_remove zip_path else ret tt) ;;
  ret false.

(** The body of the outer [try] of [install_ffmpeg_windows]. *)
Definition install_ffmpeg_windows_body : Py bool :=
  by_winget <- try_except
                 (subprocess_check_call ["winget"; "install"; "FFmpeg"] ;; ret true)
                 is_CalledProcessError_or_TimeoutExpired
                 (fun e => ret false) ;;
  if by_winget then ret true else manual_download.

(** [install_ffmpeg_windows()] *)
Definition install_ffmpeg_windows : Py bool :=
  try_except install_ffmpeg_windows_body is_Exception (fun e => ret false).

(** [install_ffmpeg()] *)
Definition install_ffmpeg : Py bool :=
  let system := lower (system host) in
  if String.eqb system "windows" then install_ffmpeg_windows
  else if String.eqb system "linux" then install_ffmpeg_linux
  else if String.eqb system "darwin" then install_ffmpeg_macos
  else ret false.

(** [check_ffmpeg()] *)
Definition check_ffmpeg : Py bool :=
  found <- try_except
             (returncode <- subprocess_run ["ffmpeg"; "-version"] ;;
              ret (returncode =? 0)%Z)
             is_TimeoutExpired_or_FileNotFoundError
             (fun e => ret false) ;;
  if found then ret true else install_ffmpeg.

(** [create_test_csv()]: [df.head(100)] keeps the first 100 rows. *)
Definition create_test_csv : Py bool :=
  let test_csv_path := "avspeech_test_100.csv" in
  let main_csv_path := "avspeech_test.csv" in
  there <- os_path_exists test_csv_path ;;
  if there then ret true else
  there <- os_path_exists main_csv_path ;;
  if negb there then ret false else
  try_except
    (fun m =>
       match read_csv_error host main_csv_path m with
       | Some e => (m, Raise e)
       | None =>
           let df := default [] (files m !! main_csv_path) in
           let test_df := take 100 df in
           (mkMachine (<[ test_csv_path := test_df ]> (files m)) (PATH m) (runs m),
            Ok true)
       end)
    is_Exception
    (fun e => ret false).

(** [verify_environment()] *)
Definition verify_environment : Py bool :=
  imported <- try_except
                (fun m => match import_error host m with
                          | Some e => (m, Raise e)
                          | None => (m, Ok true)
                          end)
                is_ImportError
                (fun e => ret false) ;;
  if negb imported then ret false else
  try_except
    (returncode <- subprocess_run ["ffmpeg"; "-version"] ;;
     if (returncode =? 0)%Z then ret true else ret false)
    is_Exception
    (fun e => ret false).

(** [main()] *)
Definition main : Py bool :=
  if negb check_python_version then ret false else
  ok <- install_pip_packages ;;
  if negb ok then ret false else
  ok <- check_ffmpeg ;;
  if negb ok then ret false else
  create_test_csv ;;
  ok <- verify_environment ;;
  if negb ok then ret false else
  ret true.

End WithHost.

End Setup.

(** ** Observations used in the statements *)

(** The number of [ydl.extract_info] calls in a trace. *)
Fixpoint attempts (evs : list event) : nat :=
  match evs with
  | [] => 0
  | EvExtractInfo _ _ :: evs' => S (attempts evs')
  | _ :: evs' => attempts evs'
  end.

(** The delays slept in a trace, in order. *)
Fixpoint sleeps (evs : list event) : list nat :=
  match evs with
  | [] => []
  | EvSleep n :: evs' => n :: sleeps evs'
  | _ :: evs' => sleeps evs'
  end.

(** The streams run by ffmpeg in a trace, in order. *)
Fixpoint ffmpeg_runs (evs : list event) : list stream :=
  match evs with
  | [] => []
  | EvFfmpegRun s :: evs' => s :: ffmpeg_runs evs'
  | _ :: evs' => ffmpeg_runs evs'
  end.

(** The crops written in a trace, in order: path, width, height. *)
Fixpoint imwrites (evs : list event) : list (string * Z * Z) :=
  match evs with
  | [] => []
  | EvImwrite p w h :: evs' => (p, w, h) :: imwrites evs'
  | _ :: evs' => imwrites evs'
  end.

(** The numbers of the frames handed to the detector in a trace. *)
Fixpoint detections (evs : list event) : list nat :=
  match evs with
  | [] => []
  | EvDetect n :: evs' => n :: detections evs'
  | _ :: evs' => detections evs'
  end.

(** [ydl.extract_info] ends in an exception of [download_video]'s [try]
    body: it raises, or it returns [None] and the body raises. *)
Definition attempt_raises (o : dl_outcome) : bool :=
  match o with
  | DlRaise _ | DlNone => true
  | DlInfo _ => false
  end.

(** A detection that the one-face script accepts. *)
Definition big_enough (r : rect) : bool :=
  let '(_, _, w, h) := r in (50 <=? w)%Z && (50 <=? h)%Z.

(** The frames that the scripts hand to the detector: those whose 1-based
    number is a multiple of 30; [frame_count] frames were read before. *)
Fixpoint sampled {A} (frame_count : nat) (frames : list A) : list A :=
  match frames with
  | [] => []
  | f :: rest =>
      if (S frame_count mod 30 =? 0)%nat
      then f :: sampled (S frame_count) rest
      else sampled (S frame_count) rest
  end.

(** The detections on the sampled frames of the video at [path], in scan
    order; none when the capture raises or is not opened. *)
Definition sampled_faces (env : Env) (path : string) (w : World) : list rect :=
  match cv2_VideoCapture env path w with
  | CapOpened frames => concat (sampled 0 frames)
  | _ => []
  end.

(** A sequence of [update] calls, each given by its arguments and by the
    clock reading in its body; a call that raises leaves the tracker as it
    is at that point, and the next call goes on from there. *)
Definition flat_updates (calls : list (bool * string * Z * float))
    (self : Flat.ProgressTracker) : Flat.ProgressTracker :=
  fold_left (fun t '(success, youtube_id, row_number, now) =>
               fst (Flat.update t success youtube_id row_number now))
            calls self.

Definition nested_updates (calls : list (bool * float))
    (self : Nested.ProgressTracker) : Nested.ProgressTracker :=
  fold_left (fun t '(success, now) => fst (Nested.update t success now))
            calls self.

(** The events of a download whose attempts all raise, from attempt
    [retry] on, with [k] retries left. *)
Definition backoff_schedule (url output_path : string) (retry k : nat) : list event :=
  flat_map (fun i => [EvExtractInfo url output_path; EvSleep (2 ^ i)]) (seq retry k)
  ++ [EvExtractInfo url output_path].

(** The crop that [cv2.imwrite] writes for a detection. *)
Definition crop_of (path : string) (r : rect) : string * Z * Z :=
  let '(_, _, w, h) := r in (path, w, h).

(** The crops written for the detections [rs] when [n] crops were written
    before: the files are numbered from [n] on. *)
Fixpoint crops_from (face_dir youtube_id : string) (n : nat) (rs : list rect)
  : list (string * Z * Z) :=
  match rs with
  | [] => []
  | r :: rest =>
      crop_of (Nested.face_file face_dir youtube_id n) r
      :: crops_from face_dir youtube_id (S n) rest
  end.

(** The number of [True] in a list of outcomes. *)
Fixpoint successes (outcomes : list bool) : nat :=
  match outcomes with
  | [] => 0
  | true :: rest => S (successes rest)
  | false :: rest => successes rest
  end.

(** The files of the crops numbered [n], ..., [n + k - 1] of a record in
    the ten-face script. *)
Definition face_files (face_dir youtube_id : string) (n k : nat) : gset string :=
  list_to_set (Nested.face_file face_dir youtube_id <$> seq n k).

(** The machine after one more command line was run. *)
Definition ran (cmd : list string) (m : Setup.Machine) : Setup.Machine :=
  Setup.mkMachine (Setup.files m) (Setup.PATH m) (Setup.runs m ++ [cmd]).

(** What [subprocess.check_call] makes of the way a child ends. *)
Definition check_call_result (o : Setup.proc_outcome) : Setup.result unit :=
  match o with
  | Setup.Exited returncode =>
      if (returncode =? 0)%Z then Setup.Ok tt
      else Setup.Raise (Setup.CalledProcessError returncode)
  | Setup.TimedOut => Setup.Raise Setup.TimeoutExpired
  | Setup.NotFound => Setup.Raise Setup.FileNotFoundError
  | Setup.Failed msg => Setup.Raise (Setup.OtherException msg)
  end.

(** The machine after the command lines [cmds] have run, in order. *)
Definition ran_all (cmds : list (list string)) (m : Setup.Machine) : Setup.Machine :=
  foldl (fun m cmd => ran cmd m) m cmds.

(** What one guarded [check_call] gives: [try: check_call(cmd); True]
    with an [except] clause, for the classes [caught], that gives
    [False]. *)
Definition guarded_result (caught : Setup.exn -> bool) (o : Setup.proc_outcome)
  : Setup.result bool :=
  match check_call_result o with
  | Setup.Ok _ => Setup.Ok true
  | Setup.Raise e => if caught e then Setup.Ok false else Setup.Raise e
  end.

(** The command line [ffmpeg -version]. *)
Definition ffmpeg_version : list string := ["ffmpeg"; "-version"].

(** A computation of the setup script that only adds to the list of
    command lines run. *)
Definition grows {A} (c : Setup.Py A) : Prop :=
  ∀ m, ∃ rest, Setup.runs (fst (c m)) = Setup.runs m ++ rest.

(** How many sampled frames the one-face script hands to the detector:
    all of them up to and including the first that shows a detection of
    at least 50 by 50. *)
Fixpoint scanned (sampled_frames : list (list rect)) : nat :=
  match sampled_frames with
  | [] => 0
  | frame :: rest => if existsb big_enough frame then 1 else S (scanned rest)
  end.

(** The numbers of the sampled frames of a video of [n] frames, when
    [frame_count] frames were read before. *)
Definition sampled_numbers (frame_count n : nat) : list nat :=
  sampled frame_count (seq (S frame_count) n).

(** ** Concrete worlds and environments *)

(** The empty world: no file, an empty log, nothing done yet. *)
Definition empty_world : World := mkWorld ∅ [] [].

(** Three records in PRODUCTION mode.  Every download of [dlfail] raises;
    the video of [noface] has 60 frames and no detection; every other video
    downloads, transcodes, and shows one 64 by 64 face on its 30th frame. *)
Definition scenario_env : Env :=
  mkEnv
    (fun url _ _ =>
       if String.eqb url (watch_url "dlfail")
       then DlRaise "HTTP Error 403: Forbidden"
       else DlInfo true)
    (fun _ _ => FfDone true)
    (fun path _ =>
       if String.eqb path (Flat.video_path (config PRODUCTION) "noface")
       then CapOpened (repeat [] 60)
       else CapOpened (repeat [] 29 ++ [[(10, 20, 64, 64)%Z]]))
    (fun _ _ => None)
    (fun _ => 0%float)
    (fun _ _ => None).

Definition scenario_data : list (string * float * float * Z) :=
  [("dlfail", 0%float, 0%float, 1%Z);
   ("noface", 10%float, 15%float, 2%Z);
   ("good", 0%float, 0%float, 3%Z)].

(** Every video downloads, and ffmpeg raises on it. *)
Definition ffmpeg_fails_env : Env :=
  mkEnv (fun _ _ _ => DlInfo true)
        (fun _ _ => FfRaise "ffmpeg error (see stderr output for detail)")
        (fun _ _ => CapClosed)
        (fun _ _ => None)
        (fun _ => 0%float)
        (fun _ _ => None).

(** As [scenario_env], but [os.remove] raises. *)
Definition remove_fails_env : Env :=
  mkEnv (ydl_extract_info scenario_env) (ffmpeg_run scenario_env)
        (cv2_VideoCapture scenario_env)
        (fun _ _ => Some "[WinError 32] The process cannot access the file")
        (time_time scenario_env)
        (os_makedirs_error scenario_env).

(** Every download raises the sign-in error of an age-restricted video. *)
Definition sign_in_env : Env :=
  mkEnv (fun _ _ _ => DlRaise "Sign in to confirm your age")
        (fun _ _ => FfDone true)
        (fun _ _ => CapClosed)
        (fun _ _ => None)
        (fun _ => 0%float)
        (fun _ _ => None).

(** Every download returns the info dictionary and leaves no file. *)
Definition no_file_env : Env :=
  mkEnv (fun _ _ _ => DlInfo false)
        (fun _ _ => FfDone true)
        (fun _ _ => CapClosed)
        (fun _ _ => None)
        (fun _ => 0%float)
        (fun _ _ => None).

(** An identifier of 300 characters. *)
Definition long_id : string := String.concat EmptyString (repeat "a" 300).

(** The last component of a path: what follows its last [/]. *)
Fixpoint basename_from (acc path : string) : string :=
  match path with
  | EmptyString => acc
  | String c rest =>
      if Ascii.eqb c "/" then basename_from EmptyString rest
      else basename_from (acc +:+ String c EmptyString) rest
  end.

Definition basename (path : string) : string := basename_from EmptyString path.

(** As [scenario_env], on a file system whose names have at most 255
    bytes: [os.makedirs] raises the [OSError] of a longer name. *)
Definition name_limit_env : Env :=
  mkEnv (ydl_extract_info scenario_env) (ffmpeg_run scenario_env)
        (cv2_VideoCapture scenario_env)
        (os_remove_error scenario_env)
        (time_time scenario_env)
        (fun path _ =>
           if 255 <? String.length (basename path)
           then Some "[Errno 36] File name too long"
           else None).

(** A machine with an empty working directory, an empty [PATH] and no
    command run. *)
Definition empty_machine : Setup.Machine := Setup.mkMachine ∅ EmptyString [].

(** A Linux host with Python 3.11 where [pip] works and, of the programs
    that the script runs, only [bash] and [pacman] exist: [bash -c] of the
    [apt-get] line ends with code 127, [pacman] succeeds, and [yum], [dnf]
    and [ffmpeg] are not found. *)
Definition arch_host : Setup.Host :=
  Setup.mkHost (3, 11, 4)%Z "/usr/bin/python3" "Linux"
    (fun cmd _ =>
       if String.eqb (hd EmptyString cmd) "/usr/bin/python3" then Setup.Exited 0
       else if String.eqb (hd EmptyString cmd) "bash" then Setup.Exited 127
       else if String.eqb (hd EmptyString cmd) "pacman" then Setup.Exited 0
       else Setup.NotFound)
    (fun _ _ _ => None)
    (fun _ _ => inr [])
    (fun _ => [])
    "/home/user" ":" os_path_join
    (fun _ _ => None)
    (fun _ => None).

(** A host whose interpreter is Python 3.7. *)
Definition old_python_host : Setup.Host :=
  Setup.mkHost (3, 7, 9)%Z "/usr/bin/python3" "Linux"
    (fun _ _ => Setup.Exited 0)
    (fun _ _ _ => None)
    (fun _ _ => inr [])
    (fun _ => [])
    "/home/user" ":" os_path_join
    (fun _ _ => None)
    (fun _ => None).

(** A Windows host without [winget]. *)
Definition no_winget_host : Setup.Host :=
  Setup.mkHost (3, 11, 4)%Z "python.exe" "Windows"
    (fun _ _ => Setup.NotFound)
    (fun _ _ _ => None)
    (fun _ _ => inr ["ffmpeg-master-latest-win64-gpl"])
    (fun _ => ["ffmpeg-master-latest-win64-gpl"; "ffmpeg.zip"])
    "C:\work" ";" (fun a b => a +:+ "\" +:+ b)
    (fun _ _ => None)
    (fun _ => None).

(** A world that holds the CSV file of PRODUCTION mode and nothing else. *)
Definition csv_world : World := mkWorld {[ CSV_PATH (config PRODUCTION) ]} [] [].

(** A host with Python 3.11 where every command ends with code 0. *)
Definition ready_host : Setup.Host :=
  Setup.mkHost (3, 11, 4)%Z "/usr/bin/python3" "Linux"
    (fun _ _ => Setup.Exited 0)
    (fun _ _ _ => None)
    (fun _ _ => inr [])
    (fun _ => [])
    "/home/user" ":" os_path_join
    (fun _ _ => None)
    (fun _ => None).

(** A working directory that holds the main CSV file, of 150 rows. *)
Definition main_csv_machine : Setup.Machine :=
  Setup.mkMachine {[ "avspeech_test.csv" := repeat "id,0,1" 150 ]} EmptyString [].

(** * Properties *)

(** ** [ProgressTracker] *)

Lemma flat_update_counters self success youtube_id row_number now :
  let self' := fst (Flat.update self success youtube_id row_number now) in
  Flat.current_item self' = (Flat.current_item self + 1)%Z ∧
  Flat.completed self' = (Flat.completed self + if success then 1 else 0)%Z ∧
  Flat.failed self' = (Flat.failed self + if success then 0 else 1)%Z.
Proof.
  unfold Flat.update, Flat._show_row_progress, Flat._show_detailed_update.
  destruct success; cbn;
    repeat match goal with |- context [if ?b then _ else _] => destruct b end;
    cbn.
  all: lia.
Qed.

Lemma nested_update_counters self success now :
  let self' := fst (Nested.update self success now) in
  Nested.current_item self' = (Nested.current_item self + 1)%Z ∧
  Nested.completed self' = (Nested.completed self + if success then 1 else 0)%Z ∧
  Nested.failed self' = (Nested.failed self + if success then 0 else 1)%Z.
Proof.
  unfold Nested.update, Nested._show_progress_update.
  destruct success; cbn;
    repeat match goal with |- context [if ?b then _ else _] => destruct b end;
    cbn.
  all: lia.
Qed.

Lemma flat_updates_invariant calls self :
  Flat.current_item self = (Flat.completed self + Flat.failed self)%Z →
  let t := flat_updates calls self in
  Flat.current_item t = (Flat.completed t + Flat.failed t)%Z.
Proof.
  revert self. induction calls as [|[[[success youtube_id] row_number] now] calls IH];
    intros self Hinv; [exact Hinv|].
  change (flat_updates ((success, youtube_id, row_number, now) :: calls) self)
    with (flat_updates calls (fst (Flat.update self success youtube_id row_number now))).
  apply IH.
  pose proof (flat_update_counters self success youtube_id row_number now) as H.
  cbn zeta in H. destruct H as (H1 & H2 & H3). destruct success; lia.
Qed.

Lemma nested_updates_invariant calls self :
  Nested.current_item self = (Nested.completed self + Nested.failed self)%Z →
  let t := nested_updates calls self in
  Nested.current_item t = (Nested.completed t + Nested.failed t)%Z.
Proof.
  revert self. induction calls as [|[success now] calls IH];
    intros self Hinv; [exact Hinv|].
  change (nested_updates ((success, now) :: calls) self)
    with (nested_updates calls (fst (Nested.update self success now))).
  apply IH.
  pose proof (nested_update_counters self success now) as H.
  cbn zeta in H. destruct H as (H1 & H2 & H3). destruct success; lia.
Qed.

(** C10.  In both scripts, after any sequence of [update] calls on a fresh
    [ProgressTracker], [current_item = completed + failed]; and one
    [update] call adds exactly 1 to [current_item], 1 to [completed] and
    nothing to [failed] when [success] is true, 1 to [failed] and nothing
    to [completed] otherwise. *)
Theorem C10_progress_counters :
  (∀ total now calls,
     let t := flat_updates calls (Flat.init total now) in
     Flat.current_item t = (Flat.completed t + Flat.failed t)%Z) ∧
  (∀ self success youtube_id row_number now,
     let self' := fst (Flat.update self success youtube_id row_number now) in
     Flat.current_item self' = (Flat.current_item self + 1)%Z ∧
     Flat.completed self' = (Flat.completed self + if success then 1 else 0)%Z ∧
     Flat.failed self' = (Flat.failed self + if success then 0 else 1)%Z) ∧
  (∀ total now calls,
     let t := nested_updates calls (Nested.init total now) in
     Nested.current_item t = (Nested.completed t + Nested.failed t)%Z) ∧
  (∀ self success now,
     let self' := fst (Nested.update self success now) in
     Nested.current_item self' = (Nested.current_item self + 1)%Z ∧
     Nested.completed self' = (Nested.completed self + if success then 1 else 0)%Z ∧
     Nested.failed self' = (Nested.failed self + if success then 0 else 1)%Z).
Proof.
  split; [|split; [|split]].
  - intros. apply flat_updates_invariant. reflexivity.
  - apply flat_update_counters.
  - intros. apply nested_updates_invariant. reflexivity.
  - apply nested_update_counters.
Qed.

(** ** [extract_audio] *)

Lemma flat_extract_audio_runs env video_path audio_path start_time end_time w :
  ∃ w' b,
    Flat.extract_audio env video_path audio_path start_time end_time w = (w', Ok b) ∧
    trace w' = trace w ++ [EvFfmpegRun (Flat.audio_stream video_path audio_path
                                          start_time end_time)] ∧
    log w' = log w ∧
    fs w ⊆ fs w' ∧
    (b = true → audio_path ∈ fs w').
Proof.
  unfold Flat.extract_audio, try_except, bind, os_path_exists, ask, ret.
  unfold ffmpeg_run_quiet.
  destruct (ffmpeg_run env _ w) as [msg|[|]]; cbn;
    (eexists _, _; split; [reflexivity|]); cbn; repeat split;
    try done; try set_solver;
    intros H; apply bool_decide_eq_true in H; exact H.
Qed.

(** C5, as the script has it.  [extract_audio] runs ffmpeg once, on the
    stream [audio_stream]: from [video_path] to [audio_path], always with
    codec [pcm_s16le] at 16000 Hz.  When [end > 0] and [end > start] the
    input is sought to [start] and the output lasts [end - start]; in every
    other case there is neither seek nor duration, so the whole track is
    transcoded.  An offset that is not given counts as 0. *)
Theorem C5_extract_audio_stream :
  ∀ env video_path audio_path start_time end_time w,
    let start := default 0%float start_time in
    let end_ := default 0%float end_time in
    let s := Flat.audio_stream video_path audio_path start_time end_time in
    input_path s = video_path ∧
    output_path s = audio_path ∧
    acodec s = "pcm_s16le" ∧
    ar s = 16000%Z ∧
    (if (0 <? end_)%float && (start <? end_)%float
     then input_ss s = Some start ∧ output_t s = Some (end_ - start)%float
     else input_ss s = None ∧ output_t s = None) ∧
    ∃ w' b,
      Flat.extract_audio env video_path audio_path start_time end_time w = (w', Ok b) ∧
      trace w' = trace w ++ [EvFfmpegRun s].
Proof.
  intros env video_path audio_path start_time end_time w start end_ s.
  assert (Hex : ∃ w' b,
             Flat.extract_audio env video_path audio_path start_time end_time w
             = (w', Ok b) ∧ trace w' = trace w ++ [EvFfmpegRun s]).
  { destruct (flat_extract_audio_runs env video_path audio_path start_time end_time w)
      as (w' & b & Hrun & Htr & _).
    exists w', b. split; [exact Hrun | exact Htr]. }
  split; [|split; [|split; [|split; [|split; [|exact Hex]]]]]; clear Hex;
    subst s start end_; unfold Flat.audio_stream;
    destruct start_time as [t1|], end_time as [t2|]; cbn [default];
    destruct (_ && _); cbn; try reflexivity; split; reflexivity.
Qed.

(** ** [download_video] *)

Lemma download_video_step cfg env youtube_id output_path retry w :
  download_video cfg env youtube_id output_path retry w =
  match download_attempt env youtube_id output_path w with
  | (w1, Ok b) => (w1, Ok b)
  | (w1, Raise e) =>
      if decide (retry < MAX_RETRIES cfg)
      then download_video cfg env youtube_id output_path (retry + 1)
             (emit (EvSleep (2 ^ retry)) w1)
      else (append_log (failure_line youtube_id "Download failed" e) w1, Ok false)
  end.
Proof.
  rewrite download_video_equation_1. unfold try_except.
  destruct (download_attempt env youtube_id output_path w) as [w1 [b|e]];
    [reflexivity|].
  cbv zeta. destruct (lt_dec retry (MAX_RETRIES cfg)) as [Hlt|Hge].
  - rewrite decide_True by exact Hlt.
    destruct (age_restricted (lower e)); reflexivity.
  - rewrite decide_False by exact Hge. reflexivity.
Qed.

(** C9.  When an attempt of [download_video] raises [e] and retries are
    left, the call sleeps [2 ^ retry] seconds and goes on with attempt
    [retry + 1], whether [e] is classified as age-restricted or not: the
    two branches under the classification are the same function. *)
Theorem C9_age_restricted_same_as_generic :
  ∀ cfg env youtube_id output_path retry e w w1,
    retry < MAX_RETRIES cfg →
    download_attempt env youtube_id output_path w = (w1, Raise e) →
    let again := download_video cfg env youtube_id output_path (retry + 1) in
    retry_age_restricted retry again = retry_generic retry again ∧
    download_video cfg env youtube_id output_path retry w
      = (if age_restricted (lower e)
         then retry_age_restricted retry again
         else retry_generic retry again) w1 ∧
    download_video cfg env youtube_id output_path retry w
      = retry_generic retry again w1 ∧
    retry_generic retry again w1 = again (emit (EvSleep (2 ^ retry)) w1).
Proof.
  intros cfg env youtube_id output_path retry e w w1 Hlt Hatt again.
  assert (Hdv : download_video cfg env youtube_id output_path retry w
                = again (emit (EvSleep (2 ^ retry)) w1)).
  { rewrite download_video_step, Hatt, decide_True by exact Hlt. reflexivity. }
  split; [reflexivity|]. split; [|split].
  - rewrite Hdv. destruct (age_restricted (lower e)); reflexivity.
  - rewrite Hdv. reflexivity.
  - reflexivity.
Qed.

Lemma attempts_app evs1 evs2 : attempts (evs1 ++ evs2) = attempts evs1 + attempts evs2.
Proof. induction evs1 as [|[] evs1 IH]; cbn; rewrite ?IH; reflexivity. Qed.

Lemma sleeps_app evs1 evs2 : sleeps (evs1 ++ evs2) = sleeps evs1 ++ sleeps evs2.
Proof. induction evs1 as [|[] evs1 IH]; cbn; rewrite ?IH; reflexivity. Qed.

Lemma ffmpeg_runs_app evs1 evs2 :
  ffmpeg_runs (evs1 ++ evs2) = ffmpeg_runs evs1 ++ ffmpeg_runs evs2.
Proof. induction evs1 as [|[] evs1 IH]; cbn; rewrite ?IH; reflexivity. Qed.

Lemma imwrites_app evs1 evs2 : imwrites (evs1 ++ evs2) = imwrites evs1 ++ imwrites evs2.
Proof. induction evs1 as [|[] evs1 IH]; cbn; rewrite ?IH; reflexivity. Qed.

Lemma detections_app evs1 evs2 :
  detections (evs1 ++ evs2) = detections evs1 ++ detections evs2.
Proof. induction evs1 as [|[] evs1 IH]; cbn; rewrite ?IH; reflexivity. Qed.

(** What one attempt does to the world. *)
Lemma download_attempt_effect env youtube_id output_path w :
  ∃ w1 r,
    download_attempt env youtube_id output_path w = (w1, r) ∧
    trace w1 = trace w ++ [EvExtractInfo (watch_url youtube_id) output_path] ∧
    log w1 = log w ∧
    fs w ⊆ fs w1 ∧
    (r = Ok true → output_path ∈ fs w1) ∧
    (attempt_raises (ydl_extract_info env (watch_url youtube_id) output_path w) = true →
     fs w1 = fs w ∧ ∃ e, r = Raise e).
Proof.
  unfold download_attempt, bind, os_path_exists, ask, ret, raise, watch_url.
  destruct (ydl_extract_info env _ output_path w) as [msg| |[|]]; cbn;
    (eexists _, _; split; [reflexivity|]); cbn; repeat split;
    try done; try set_solver; eauto.
  all: intros H; injection H as H; apply bool_decide_eq_true in H; exact H.
Qed.

Lemma attempts_backoff_schedule url output_path retry k :
  attempts (backoff_schedule url output_path retry k) = k + 1.
Proof.
  unfold backoff_schedule. revert retry.
  induction k as [|k IH]; intros retry; cbn; [reflexivity|].
  rewrite IH. reflexivity.
Qed.

Lemma sleeps_backoff_schedule url output_path retry k :
  sleeps (backoff_schedule url output_path retry k) = (fun i => 2 ^ i) <$> seq retry k.
Proof.
  unfold backoff_schedule. revert retry.
  induction k as [|k IH]; intros retry; cbn; [reflexivity|].
  rewrite IH. reflexivity.
Qed.

Lemma download_video_always_raising cfg env youtube_id output_path :
  (∀ w0, attempt_raises (ydl_extract_info env (watch_url youtube_id) output_path w0)
         = true) →
  ∀ k retry w,
    MAX_RETRIES cfg - retry = k →
    ∃ w' e,
      download_video cfg env youtube_id output_path retry w = (w', Ok false) ∧
      fs w' = fs w ∧
      log w' = log w ++ [failure_line youtube_id "Download failed" e] ∧
      trace w' = trace w ++ backoff_schedule (watch_url youtube_id) output_path retry k.
Proof.
  intros Hraise. induction k as [|k IH]; intros retry w Hk;
    rewrite download_video_step;
    destruct (download_attempt_effect env youtube_id output_path w)
      as (w1 & r & -> & Htr & Hlog & _ & _ & Hr);
    destruct (Hr (Hraise w)) as (Hfs & e & ->).
  - rewrite decide_False by lia. eexists _, e. split; [reflexivity|]. cbn.
    rewrite Hlog. repeat split; [exact Hfs | exact Htr].
  - rewrite decide_True by lia.
    destruct (IH (retry + 1) (emit (EvSleep (2 ^ retry)) w1) ltac:(lia))
      as (w' & e' & -> & Hfs' & Hlog' & Htr').
    exists w', e'. split; [reflexivity|]. cbn in *.
    rewrite Hfs', Hlog', Htr', Htr, Hlog. repeat split; [exact Hfs|].
    unfold backoff_schedule. cbn. rewrite <- !app_assoc. cbn.
    replace (retry + 1) with (S retry) by lia. reflexivity.
Qed.

(** C3.  When every attempt of a download ends in an exception,
    [download_video] returns [False] after exactly [MAX_RETRIES + 1] calls
    of [ydl.extract_info] (attempts 0 to [MAX_RETRIES]); between attempt
    [i] and attempt [i + 1] it sleeps [2 ^ i] seconds, and the delays never
    decrease. *)
Theorem C3_retry_count_and_backoff :
  ∀ cfg env youtube_id output_path w,
    (∀ w0, attempt_raises (ydl_extract_info env (watch_url youtube_id) output_path w0)
           = true) →
    ∃ w' evs,
      download_video cfg env youtube_id output_path 0 w = (w', Ok false) ∧
      trace w' = trace w ++ evs ∧
      evs = flat_map (fun i => [EvExtractInfo (watch_url youtube_id) output_path;
                                EvSleep (2 ^ i)])
                     (seq 0 (MAX_RETRIES cfg))
            ++ [EvExtractInfo (watch_url youtube_id) output_path] ∧
      attempts evs = MAX_RETRIES cfg + 1 ∧
      sleeps evs = (fun i => 2 ^ i) <$> seq 0 (MAX_RETRIES cfg) ∧
      (∀ i : nat, i < MAX_RETRIES cfg → sleeps evs !! i = Some (2 ^ i)) ∧
      (∀ i j di dj : nat,
         (i ≤ j)%nat → sleeps evs !! i = Some di → sleeps evs !! j = Some dj →
         (di ≤ dj)%nat).
Proof.
  intros cfg env youtube_id output_path w Hraise.
  destruct (download_video_always_raising cfg env youtube_id output_path Hraise
              (MAX_RETRIES cfg) 0 w ltac:(lia)) as (w' & e & Hrun & _ & _ & Htr).
  exists w', (backoff_schedule (watch_url youtube_id) output_path 0 (MAX_RETRIES cfg)).
  pose proof (sleeps_backoff_schedule (watch_url youtube_id) output_path 0
                (MAX_RETRIES cfg)) as Hsl.
  assert (Hlook : ∀ i d : nat,
             sleeps (backoff_schedule (watch_url youtube_id) output_path 0
                       (MAX_RETRIES cfg)) !! i = Some d →
             d = 2 ^ i ∧ i < MAX_RETRIES cfg).
  { intros i d. rewrite Hsl, list_lookup_fmap.
    destruct (seq 0 (MAX_RETRIES cfg) !! i) as [n|] eqn:Hn; [|discriminate].
    apply lookup_seq in Hn as [-> Hi]. cbn. intros [= <-]. split; [reflexivity|lia]. }
  split; [exact Hrun|]. split; [exact Htr|]. split; [reflexivity|].
  split; [apply attempts_backoff_schedule|]. split; [exact Hsl|]. split.
  - intros i Hi. rewrite Hsl, list_lookup_fmap, lookup_seq_lt by lia. reflexivity.
  - intros i j di dj Hij Hi Hj.
    apply Hlook in Hi as [-> _]. apply Hlook in Hj as [-> _].
    apply Nat.pow_le_mono_r; lia.
Qed.

(** [download_video] never raises; it runs neither ffmpeg nor the
    detector, deletes nothing, logs at most one line, and none when it
    returns [True]. *)
Lemma download_video_effect cfg env youtube_id output_path :
  ∀ k retry w,
    MAX_RETRIES cfg - retry = k →
    ∃ w' b evs lines,
      download_video cfg env youtube_id output_path retry w = (w', Ok b) ∧
      trace w' = trace w ++ evs ∧
      log w' = log w ++ lines ∧
      fs w ⊆ fs w' ∧
      ffmpeg_runs evs = [] ∧ imwrites evs = [] ∧ detections evs = [] ∧
      (b = true → lines = [] ∧ output_path ∈ fs w') ∧
      (lines = [] ∨ ∃ e, lines = [failure_line youtube_id "Download failed" e]).
Proof.
  induction k as [|k IH]; intros retry w Hk;
    rewrite download_video_step;
    destruct (download_attempt_effect env youtube_id output_path w)
      as (w1 & r & -> & Htr & Hlog & Hfs & Hin & _);
    destruct r as [b|e].
  - exists w1, b, [EvExtractInfo (watch_url youtube_id) output_path], [].
    rewrite app_nil_r. repeat split; try done; [subst b; auto | left; reflexivity].
  - rewrite decide_False by lia.
    eexists _, false, [EvExtractInfo (watch_url youtube_id) output_path], [_].
    split; [reflexivity|]. cbn. rewrite Hlog. repeat split; try done.
    right. eexists. reflexivity.
  - exists w1, b, [EvExtractInfo (watch_url youtube_id) output_path], [].
    rewrite app_nil_r. repeat split; try done; [subst b; auto | left; reflexivity].
  - rewrite decide_True by lia.
    destruct (IH (retry + 1) (emit (EvSleep (2 ^ retry)) w1) ltac:(lia))
      as (w' & b & evs & lines & -> & Htr' & Hlog' & Hfs' & Hff & Him & Hdet & Hb & Hl).
    exists w', b,
      (EvExtractInfo (watch_url youtube_id) output_path :: EvSleep (2 ^ retry) :: evs),
      lines.
    split; [reflexivity|]. cbn in *.
    rewrite Htr', Htr, Hlog', Hlog, <- !app_assoc.
    split; [reflexivity|]. split; [reflexivity|].
    split; [etransitivity; [exact Hfs | exact Hfs']|].
    repeat (split; [assumption|]). exact Hl.
Qed.

(** ** [extract_faces], one face per video *)

Lemma find_app {A} (p : A → bool) (l1 l2 : list A) :
  List.find p (l1 ++ l2) =
  match List.find p l1 with Some x => Some x | None => List.find p l2 end.
Proof. induction l1 as [|a l1 IH]; cbn; [reflexivity|]. destruct (p a); auto. Qed.

Lemma find_none_Forall {A} (p : A → bool) (l : list A) :
  List.find p l = None ↔ Forall (fun x => p x = false) l.
Proof.
  induction l as [|a l IH]; cbn.
  - split; [constructor | reflexivity].
  - destruct (p a) eqn:E.
    + split; [discriminate|]. intros H. inversion H; congruence.
    + rewrite IH. split; [constructor; assumption | intros H; inversion H; assumption].
Qed.

Lemma find_some_holds {A} (p : A → bool) (l : list A) x :
  List.find p l = Some x → p x = true.
Proof.
  induction l as [|a l IH]; cbn; [discriminate|].
  destruct (p a) eqn:E; [intros [= <-]; exact E | exact IH].
Qed.

Lemma cv2_imwrite_effect path r w :
  ∃ w', cv2_imwrite path r w = (w', Ok tt) ∧
        trace w' = trace w ++ [EvImwrite path r.1.2 r.2] ∧
        imwrites [EvImwrite path r.1.2 r.2] = [crop_of path r] ∧
        log w' = log w ∧ fs w' = {[ path ]} ∪ fs w.
Proof. destruct r as [[[x y] wd] h]. eexists. repeat split. Qed.

Lemma flat_for_faces_effect face_path faces w :
  Flat.for_faces face_path faces w =
  match List.find big_enough faces with
  | Some r => (fst (cv2_imwrite face_path r w), Ok true)
  | None => (w, Ok false)
  end.
Proof.
  induction faces as [|[[[x y] wd] h] faces IH]; [reflexivity|].
  cbn [Flat.for_faces List.find big_enough].
  destruct ((50 <=? wd)%Z && (50 <=? h)%Z); [reflexivity | exact IH].
Qed.

Lemma flat_while_frames_cons face_path frame rest frame_count :
  Flat.while_frames face_path (frame :: rest) frame_count false =
  if negb (S frame_count mod 30 =? 0)%nat
  then Flat.while_frames face_path rest (S frame_count) false
  else (faces <- detectMultiScale (S frame_count) frame ;;
        face_found <- Flat.for_faces face_path faces ;;
        Flat.while_frames face_path rest (S frame_count) face_found).
Proof. reflexivity. Qed.

Lemma flat_while_frames_found face_path frames frame_count w :
  Flat.while_frames face_path frames frame_count true w = (w, Ok true).
Proof. destruct frames; reflexivity. Qed.

Lemma sampled_cons {A} frame_count (f : A) rest :
  sampled frame_count (f :: rest) =
  if (S frame_count mod 30 =? 0)%nat
  then f :: sampled (S frame_count) rest
  else sampled (S frame_count) rest.
Proof. reflexivity. Qed.

Lemma flat_while_frames_effect face_path :
  ∀ frames frame_count w,
    ∃ w' b evs,
      Flat.while_frames face_path frames frame_count false w = (w', Ok b) ∧
      trace w' = trace w ++ evs ∧
      log w' = log w ∧
      fs w ⊆ fs w' ∧
      (b = true → face_path ∈ fs w') ∧
      imwrites evs = match List.find big_enough (concat (sampled frame_count frames)) with
                     | Some r => [crop_of face_path r]
                     | None => []
                     end ∧
      b = match List.find big_enough (concat (sampled frame_count frames)) with
          | Some _ => true
          | None => false
          end ∧
      Forall (fun n => n mod 30 = 0) (detections evs) ∧
      ffmpeg_runs evs = [].
Proof.
  induction frames as [|frame rest IH]; intros frame_count w.
  - exists w, false, []. rewrite app_nil_r. cbn. repeat split; try done.
  - rewrite flat_while_frames_cons, sampled_cons.
    destruct (S frame_count mod 30 =? 0)%nat eqn:E; cbn [negb].
    + apply Nat.eqb_eq in E.
      unfold bind at 1. unfold detectMultiScale, bind, act, ret.
      rewrite flat_for_faces_effect. cbn [concat]. rewrite find_app.
      destruct (List.find big_enough frame) as [r|].
      * destruct (cv2_imwrite_effect face_path r (emit (EvDetect (S frame_count)) w))
          as (w2 & Hw & Htr & Him & Hlog & Hfs).
        rewrite Hw. cbn [fst]. rewrite flat_while_frames_found.
        exists w2, true, [EvDetect (S frame_count); EvImwrite face_path r.1.2 r.2].
        split; [reflexivity|]. rewrite Htr, Hlog, Hfs. cbn [emit trace log fs].
        rewrite <- app_assoc.
        repeat split.
        -- apply union_subseteq_r.
        -- intros _. apply elem_of_union_l, elem_of_singleton. reflexivity.
        -- exact Him.
        -- constructor; [exact E | constructor].
      * destruct (IH (S frame_count) (emit (EvDetect (S frame_count)) w))
          as (w' & b & evs & Hrun & Htr & Hlog & Hfs & Hb & Him & Hbb & Hdet & Hff).
        exists w', b, (EvDetect (S frame_count) :: evs).
        split; [exact Hrun|]. cbn [emit trace log fs] in *.
        rewrite Htr, <- app_assoc.
        repeat split; try done. constructor; [exact E | exact Hdet].
    + apply IH.
Qed.

Lemma flat_extract_faces_effect env video_path face_path youtube_id w :
  ∃ w' b evs,
    Flat.extract_faces env video_path face_path youtube_id w = (w', Ok b) ∧
    trace w' = trace w ++ evs ∧
    log w' = log w ∧
    fs w ⊆ fs w' ∧
    (b = true → face_path ∈ fs w') ∧
    imwrites evs = match List.find big_enough (sampled_faces env video_path w) with
                   | Some r => [crop_of face_path r]
                   | None => []
                   end ∧
    b = match List.find big_enough (sampled_faces env video_path w) with
        | Some _ => true
        | None => false
        end ∧
    Forall (fun n => n mod 30 = 0) (detections evs) ∧
    ffmpeg_runs evs = [].
Proof.
  unfold Flat.extract_faces, try_except, sampled_faces.
  destruct (cv2_VideoCapture env video_path w) as [msg| |frames].
  - exists w, false, []. rewrite app_nil_r. cbn. repeat split; try done.
  - exists w, false, []. rewrite app_nil_r. cbn. repeat split; try done.
  - destruct (flat_while_frames_effect face_path frames 0 w)
      as (w' & b & evs & Hrun & H).
    rewrite Hrun. exists w', b, evs. split; [reflexivity | exact H].
Qed.

(** C6.  In the one-face script, [extract_faces] never raises; the crops
    it writes are those of the first detection, in scan order over the
    sampled frames, whose width and height are both at least 50: so every
    crop written is at least 50 by 50, at most one crop is written, and
    the function returns [False] exactly when no detection on the sampled
    frames is that large.  Only frames whose number is a multiple of 30
    reach the detector. *)
Theorem C6_single_face_policy :
  ∀ env video_path face_path youtube_id w,
    ∃ w' b evs,
      Flat.extract_faces env video_path face_path youtube_id w = (w', Ok b) ∧
      trace w' = trace w ++ evs ∧
      Forall (fun '(_, wd, h) => (50 ≤ wd)%Z ∧ (50 ≤ h)%Z) (imwrites evs) ∧
      length (imwrites evs) ≤ 1 ∧
      imwrites evs = match List.find big_enough (sampled_faces env video_path w) with
                     | Some r => [crop_of face_path r]
                     | None => []
                     end ∧
      (b = false ↔
       Forall (fun r => big_enough r = false) (sampled_faces env video_path w)) ∧
      (b = true ↔ length (imwrites evs) = 1) ∧
      Forall (fun n => n mod 30 = 0) (detections evs).
Proof.
  intros env video_path face_path youtube_id w.
  destruct (flat_extract_faces_effect env video_path face_path youtube_id w)
    as (w' & b & evs & Hrun & Htr & _ & _ & _ & Him & Hb & Hdet & _).
  exists w', b, evs. split; [exact Hrun|]. split; [exact Htr|].
  rewrite <- find_none_Forall, Him, Hb.
  destruct (List.find big_enough (sampled_faces env video_path w)) as [r|] eqn:Hfind.
  - apply find_some_holds in Hfind. destruct r as [[[x y] wd] h].
    unfold big_enough in Hfind. apply andb_true_iff in Hfind as [Hw Hh].
    apply Z.leb_le in Hw, Hh. cbn.
    repeat split; try done; try lia.
    constructor; [split; assumption | constructor].
  - cbn. repeat split; try done; try lia.
Qed.

(** ** [extract_faces], up to ten faces per video *)

Lemma crops_from_app face_dir youtube_id n rs1 rs2 :
  crops_from face_dir youtube_id n (rs1 ++ rs2) =
  crops_from face_dir youtube_id n rs1
  ++ crops_from face_dir youtube_id (n + length rs1) rs2.
Proof.
  revert n. induction rs1 as [|r rs1 IH]; intros n; cbn.
  - rewrite Nat.add_0_r. reflexivity.
  - rewrite IH. replace (S n + length rs1) with (n + S (length rs1)) by lia. reflexivity.
Qed.

Lemma length_crops_from face_dir youtube_id n rs :
  length (crops_from face_dir youtube_id n rs) = length rs.
Proof. revert n. induction rs as [|r rs IH]; intros n; cbn; [|rewrite IH]; reflexivity. Qed.

Lemma nested_for_faces_effect face_dir youtube_id :
  ∀ faces n w,
    n < 10 →
    ∃ w' evs,
      Nested.for_faces face_dir youtube_id faces n w
      = (w', Ok (n + length (take (10 - n) faces))) ∧
      trace w' = trace w ++ evs ∧
      log w' = log w ∧
      fs w ⊆ fs w' ∧
      imwrites evs = crops_from face_dir youtube_id n (take (10 - n) faces) ∧
      detections evs = [] ∧
      ffmpeg_runs evs = [].
Proof.
  induction faces as [|r rest IH]; intros n w Hn.
  - exists w, []. rewrite take_nil, app_nil_r, Nat.add_0_r. cbn. repeat split; done.
  - cbn [Nested.for_faces]. unfold bind at 1.
    destruct (cv2_imwrite_effect (Nested.face_file face_dir youtube_id n) r w)
      as (w1 & -> & Htr & Him & Hlog & Hfs).
    replace (10 - n) with (S (10 - S n)) by lia.
    rewrite firstn_cons. cbn [length crops_from].
    destruct (10 <=? S n) eqn:E.
    + apply Nat.leb_le in E. replace (10 - S n) with 0 by lia.
      rewrite take_0. cbn [length crops_from].
      exists w1, [EvImwrite (Nested.face_file face_dir youtube_id n) r.1.2 r.2].
      replace (n + 1) with (S n) by lia.
      repeat split; try done. rewrite Hfs. apply union_subseteq_r.
    + apply Nat.leb_gt in E.
      destruct (IH (S n) w1 ltac:(lia)) as (w' & evs & -> & Htr' & Hlog' & Hfs' & Him' & Hd & Hf).
      exists w', (EvImwrite (Nested.face_file face_dir youtube_id n) r.1.2 r.2 :: evs).
      replace (n + S (length (take (10 - S n) rest)))
        with (S n + length (take (10 - S n) rest)) by lia.
      split; [reflexivity|]. rewrite Htr', Htr, <- app_assoc, Hlog', Hlog.
      repeat split; try done.
      * etransitivity; [|exact Hfs']. rewrite Hfs. apply union_subseteq_r.
      * change (imwrites (?e :: evs)) with (imwrites [e] ++ imwrites evs).
        rewrite Him, Him'. reflexivity.
Qed.

Lemma nested_while_frames_unfold face_dir youtube_id frames frame_count faces_found :
  Nested.while_frames face_dir youtube_id frames frame_count faces_found =
  if negb (faces_found <? 10) then ret faces_found
  else match frames with
       | [] => ret faces_found
       | frame :: rest =>
           if negb (S frame_count mod 30 =? 0)
           then Nested.while_frames face_dir youtube_id rest (S frame_count) faces_found
           else (faces <- detectMultiScale (S frame_count) frame ;;
                 faces_found <- Nested.for_faces face_dir youtube_id faces faces_found ;;
                 Nested.while_frames face_dir youtube_id rest (S frame_count) faces_found)
       end.
Proof. destruct frames; reflexivity. Qed.

Lemma nested_while_frames_effect face_dir youtube_id :
  ∀ frames frame_count n w,
    n ≤ 10 →
    ∃ w' evs,
      Nested.while_frames face_dir youtube_id frames frame_count n w
      = (w', Ok (n + length (take (10 - n) (concat (sampled frame_count frames))))) ∧
      trace w' = trace w ++ evs ∧
      log w' = log w ∧
      fs w ⊆ fs w' ∧
      imwrites evs = crops_from face_dir youtube_id n
                       (take (10 - n) (concat (sampled frame_count frames))) ∧
      Forall (fun k => k mod 30 = 0) (detections evs) ∧
      ffmpeg_runs evs = [].
Proof.
  induction frames as [|frame rest IH]; intros frame_count n w Hn;
    rewrite nested_while_frames_unfold;
    destruct (n <? 10) eqn:Elt; cbn [negb].
  - exists w, []. cbn [sampled concat].
    rewrite take_nil, app_nil_r, Nat.add_0_r. cbn. repeat split; done.
  - exists w, []. cbn [sampled concat].
    rewrite take_nil, app_nil_r, Nat.add_0_r. cbn. repeat split; done.
  - apply Nat.ltb_lt in Elt. rewrite sampled_cons.
    destruct (S frame_count mod 30 =? 0) eqn:E; cbn [negb]; [|apply IH; exact Hn].
    apply Nat.eqb_eq in E.
    unfold bind at 1. unfold detectMultiScale, bind, act, ret.
    destruct (nested_for_faces_effect face_dir youtube_id frame n
                (emit (EvDetect (S frame_count)) w) Elt)
      as (w1 & evs1 & Hrun1 & Htr1 & Hlog1 & Hfs1 & Him1 & Hd1 & Hf1).
    rewrite Hrun1.
    set (n1 := n + length (take (10 - n) frame)) in *.
    assert (Hlen : length (take (10 - n) frame) = Nat.min (10 - n) (length frame))
      by apply length_take.
    destruct (IH (S frame_count) n1 w1 ltac:(subst n1; lia))
      as (w' & evs & Hrun & Htr & Hlog & Hfs & Him & Hd & Hf).
    rewrite Hrun. cbn [concat]. rewrite take_app, crops_from_app, length_app.
    replace (10 - n - length frame) with (10 - n1) by (subst n1; lia).
    exists w', (EvDetect (S frame_count) :: evs1 ++ evs).
    split; [f_equal; f_equal; subst n1; lia|].
    rewrite Htr, Htr1, Hlog, Hlog1. cbn [emit trace log fs] in *.
    rewrite <- !app_assoc. repeat split; try done.
    + etransitivity; [exact Hfs1 | exact Hfs].
    + cbn [imwrites]. rewrite imwrites_app, Him1, Him. reflexivity.
    + cbn [detections]. rewrite detections_app, Hd1. constructor; [exact E | exact Hd].
    + cbn [ffmpeg_runs]. rewrite ffmpeg_runs_app, Hf1, Hf. reflexivity.
  - exists w, []. apply Nat.ltb_ge in Elt. replace (10 - n) with 0 by lia.
    rewrite take_0, app_nil_r, Nat.add_0_r. cbn. repeat split; done.
Qed.

Lemma nested_extract_faces_effect env video_path face_dir youtube_id w :
  ∃ w' b evs,
    Nested.extract_faces env video_path face_dir youtube_id w = (w', Ok b) ∧
    trace w' = trace w ++ evs ∧
    log w' = log w ∧
    fs w ⊆ fs w' ∧
    imwrites evs = crops_from face_dir youtube_id 0
                     (take 10 (sampled_faces env video_path w)) ∧
    b = negb (length (imwrites evs) =? 0) ∧
    Forall (fun k => k mod 30 = 0) (detections evs) ∧
    ffmpeg_runs evs = [].
Proof.
  unfold Nested.extract_faces, try_except, sampled_faces.
  destruct (cv2_VideoCapture env video_path w) as [msg| |frames].
  - exists w, false, []. rewrite app_nil_r. cbn. repeat split; done.
  - exists w, false, []. rewrite app_nil_r. cbn. repeat split; done.
  - destruct (nested_while_frames_effect face_dir youtube_id frames 0 0 w ltac:(lia))
      as (w' & evs & Hrun & Htr & Hlog & Hfs & Him & Hd & Hf).
    unfold bind. rewrite Hrun. change (10 - 0) with 10 in *. cbn [Nat.add] in *.
    eexists w', _, evs. split; [reflexivity|].
    rewrite Him, length_crops_from.
    repeat split; try done.
    destruct (length (take 10 (concat (sampled 0 frames)))); reflexivity.
Qed.

(** C7.  In the ten-face script, [extract_faces] never raises; the crops it
    writes are those of the first ten detections, in scan order over the
    sampled frames, whatever their size, numbered from 0: so at most ten
    crops are written, and the function returns [False] exactly when it
    wrote none.  Only frames whose number is a multiple of 30 reach the
    detector. *)
Theorem C7_multi_face_policy :
  ∀ env video_path face_dir youtube_id w,
    ∃ w' b evs,
      Nested.extract_faces env video_path face_dir youtube_id w = (w', Ok b) ∧
      trace w' = trace w ++ evs ∧
      length (imwrites evs) ≤ 10 ∧
      imwrites evs = crops_from face_dir youtube_id 0
                       (take 10 (sampled_faces env video_path w)) ∧
      length (imwrites evs) = Nat.min 10 (length (sampled_faces env video_path w)) ∧
      (b = false ↔ imwrites evs = []) ∧
      Forall (fun k => k mod 30 = 0) (detections evs).
Proof.
  intros env video_path face_dir youtube_id w.
  destruct (nested_extract_faces_effect env video_path face_dir youtube_id w)
    as (w' & b & evs & Hrun & Htr & _ & _ & Him & Hb & Hdet & _).
  exists w', b, evs. split; [exact Hrun|]. split; [exact Htr|].
  assert (Hlen : length (imwrites evs)
                 = Nat.min 10 (length (sampled_faces env video_path w))).
  { rewrite Him, length_crops_from, length_take. reflexivity. }
  split; [lia|]. split; [exact Him|]. split; [exact Hlen|]. split; [|exact Hdet].
  rewrite Hb. destruct (imwrites evs) as [|c cs]; cbn; split; done.
Qed.

(** ** Paths *)

Lemma append_nonempty a b : b ≠ EmptyString → a +:+ b ≠ EmptyString.
Proof. destruct a; cbn; [auto | discriminate]. Qed.

Lemma last_char_cons c s :
  s ≠ EmptyString → last_char (String c s) = last_char s.
Proof. destruct s; [contradiction | reflexivity]. Qed.

Lemma last_char_app a b :
  b ≠ EmptyString → last_char (a +:+ b) = last_char b.
Proof.
  intros Hb. induction a as [|c a IH]; [reflexivity|].
  change (String c a +:+ b) with (String c (a +:+ b)).
  rewrite last_char_cons by (apply append_nonempty, Hb). exact IH.
Qed.

Lemma last_char_join a b :
  b ≠ EmptyString → last_char (os_path_join a b) = last_char b.
Proof.
  intros Hb. unfold os_path_join.
  destruct (startswith "/" b); [reflexivity|].
  destruct (last_char a) as [c|]; [|reflexivity].
  destruct (Ascii.eqb c "/").
  - apply last_char_app, Hb.
  - rewrite last_char_app by (apply append_nonempty, Hb).
    apply (last_char_app "/"), Hb.
Qed.

Lemma last_char_file dir stem suffix :
  suffix ≠ EmptyString →
  last_char (os_path_join dir (stem +:+ suffix)) = last_char suffix.
Proof.
  intros Hs. rewrite last_char_join by (apply append_nonempty, Hs).
  apply last_char_app, Hs.
Qed.

Lemma flat_audio_path_not_video cfg youtube_id :
  Flat.audio_path cfg youtube_id ≠ Flat.video_path cfg youtube_id.
Proof.
  intros H. apply (f_equal last_char) in H.
  unfold Flat.audio_path, Flat.video_path in H.
  rewrite !last_char_file in H by discriminate. discriminate H.
Qed.

Lemma flat_face_path_not_video cfg youtube_id :
  Flat.face_path cfg youtube_id ≠ Flat.video_path cfg youtube_id.
Proof.
  intros H. apply (f_equal last_char) in H.
  unfold Flat.face_path, Flat.video_path in H.
  rewrite !last_char_file in H by discriminate. discriminate H.
Qed.

(** ** [process_video], one face per video *)

Lemma os_remove_effect env path w :
  (∃ e, os_remove env path w = (emit (EvRemove path) w, Raise e)) ∨
  os_remove env path w = (unlink path (emit (EvRemove path) w), Ok tt).
Proof.
  unfold os_remove. destruct (os_remove_error env path w) as [e|]; eauto.
Qed.

Lemma flat_process_video_effect cfg env youtube_id start_time end_time row_number w :
  ∃ w' b evs lines,
    Flat.process_video cfg env (youtube_id, start_time, end_time, row_number) w
    = (w', Ok b) ∧
    trace w' = trace w ++ evs ∧
    log w' = log w ++ lines ∧
    (b = true →
     lines = [] ∧
     Flat.audio_path cfg youtube_id ∈ fs w' ∧
     Flat.face_path cfg youtube_id ∈ fs w' ∧
     (Flat.video_path cfg youtube_id ∉ fs w') ∧
     ffmpeg_runs evs = [Flat.audio_stream (Flat.video_path cfg youtube_id)
                          (Flat.audio_path cfg youtube_id)
                          (Some start_time) (Some end_time)] ∧
     ∃ r, big_enough r = true ∧
          imwrites evs = [crop_of (Flat.face_path cfg youtube_id) r]) ∧
    (lines = [] ∨
     ∃ e, lines = [failure_line youtube_id "Download failed" e] ∨
          lines = [failure_line youtube_id "Processing failed" e]).
Proof.
  unfold Flat.process_video, try_except, Flat.process_video_body.
  unfold bind at 1.
  destruct (download_video_effect cfg env youtube_id (Flat.video_path cfg youtube_id)
              (MAX_RETRIES cfg) 0 w ltac:(lia))
    as (w1 & b1 & evs1 & lines1 & -> & Htr1 & Hlog1 & Hfs1 & Hff1 & Him1 & _ & Hb1 & Hl1).
  destruct b1; cbn [negb].
  2:{ exists w1, false, evs1, lines1. repeat split; try done.
      destruct Hl1 as [->|[e ->]]; [left; reflexivity | right; exists e; left; reflexivity]. }
  destruct (Hb1 eq_refl) as [-> Hv1]. rewrite app_nil_r in Hlog1.
  unfold bind at 1.
  destruct (flat_extract_audio_runs env (Flat.video_path cfg youtube_id)
              (Flat.audio_path cfg youtube_id) (Some start_time) (Some end_time) w1)
    as (w2 & b2 & -> & Htr2 & Hlog2 & Hfs2 & Hb2).
  destruct b2; cbn [negb].
  2:{ exists w2, false, (evs1 ++ [EvFfmpegRun
                                    (Flat.audio_stream (Flat.video_path cfg youtube_id)
                                       (Flat.audio_path cfg youtube_id)
                                       (Some start_time) (Some end_time))]), [].
      rewrite Htr2, Htr1, Hlog2, Hlog1, app_nil_r, app_assoc.
      repeat split; try done. left; reflexivity. }
  unfold bind at 1.
  destruct (flat_extract_faces_effect env (Flat.video_path cfg youtube_id)
              (Flat.face_path cfg youtube_id) youtube_id w2)
    as (w3 & b3 & evs3 & -> & Htr3 & Hlog3 & Hfs3 & Hb3 & Him3 & Hbb3 & _ & Hff3).
  set (s := Flat.audio_stream (Flat.video_path cfg youtube_id)
              (Flat.audio_path cfg youtube_id) (Some start_time) (Some end_time)) in *.
  assert (Htr : trace w3 = trace w ++ (evs1 ++ [EvFfmpegRun s] ++ evs3)).
  { rewrite Htr3, Htr2, Htr1, <- !app_assoc. reflexivity. }
  assert (Hlog : log w3 = log w) by (rewrite Hlog3, Hlog2; exact Hlog1).
  destruct b3; cbn [negb].
  2:{ exists w3, false, (evs1 ++ [EvFfmpegRun s] ++ evs3), [].
      rewrite app_nil_r. repeat split; try done. left; reflexivity. }
  assert (Hruns : ffmpeg_runs (evs1 ++ [EvFfmpegRun s] ++ evs3) = [s]).
  { rewrite !ffmpeg_runs_app, Hff1, Hff3. reflexivity. }
  assert (Hcrop : ∃ r, big_enough r = true ∧
                       imwrites (evs1 ++ [EvFfmpegRun s] ++ evs3)
                       = [crop_of (Flat.face_path cfg youtube_id) r]).
  { rewrite !imwrites_app, Him1, Him3. cbn.
    destruct (List.find big_enough (sampled_faces env _ w2)) as [r|] eqn:Hfind;
      [|discriminate Hbb3].
    exists r. split; [exact (find_some_holds _ _ _ Hfind) | reflexivity]. }
  remember (evs1 ++ [EvFfmpegRun s] ++ evs3) as evs eqn:Hevs. clear Hevs.
  assert (Ha3 : Flat.audio_path cfg youtube_id ∈ fs w3) by (apply Hfs3, Hb2; reflexivity).
  assert (Hf3 : Flat.face_path cfg youtube_id ∈ fs w3) by (apply Hb3; reflexivity).
  unfold bind at 1. unfold os_path_exists, ask.
  destruct (bool_decide (Flat.video_path cfg youtube_id ∈ fs w3)) eqn:Hthere.
  - unfold bind at 1.
    destruct (os_remove_effect env (Flat.video_path cfg youtube_id) w3) as [[e ->] | ->].
    + eexists _, false, (evs ++ [EvRemove (Flat.video_path cfg youtube_id)]), [_].
      split; [reflexivity|]. cbn. rewrite Htr, Hlog, <- app_assoc.
      repeat split; try done. right. exists e. right. reflexivity.
    + exists (unlink (Flat.video_path cfg youtube_id)
                (emit (EvRemove (Flat.video_path cfg youtube_id)) w3)),
        true, (evs ++ [EvRemove (Flat.video_path cfg youtube_id)]), [].
      split; [reflexivity|]. cbn. rewrite Htr, Hlog, app_nil_r, <- app_assoc.
      split; [reflexivity|]. split; [reflexivity|]. split; [|left; reflexivity].
      intros _. split; [reflexivity|].
      pose proof (flat_audio_path_not_video cfg youtube_id).
      pose proof (flat_face_path_not_video cfg youtube_id).
      split; [apply elem_of_difference; rewrite elem_of_singleton; auto|].
      split; [apply elem_of_difference; rewrite elem_of_singleton; auto|].
      split; [rewrite elem_of_difference, elem_of_singleton; tauto|].
      rewrite ffmpeg_runs_app, imwrites_app, Hruns, !app_nil_r. split; [reflexivity|].
      exact Hcrop.
  - apply bool_decide_eq_false in Hthere.
    exists w3, true, evs, [].
    rewrite app_nil_r. repeat split; try done. left; reflexivity.
Qed.

(** The stages of the one-face script never raise. *)
Lemma flat_stages_total cfg env :
  (∀ youtube_id output_path w,
     ∃ w' b, download_video cfg env youtube_id output_path 0 w = (w', Ok b)) ∧
  (∀ video_path audio_path start_time end_time w,
     ∃ w' b, Flat.extract_audio env video_path audio_path start_time end_time w
             = (w', Ok b)) ∧
  (∀ video_path face_path youtube_id w,
     ∃ w' b, Flat.extract_faces env video_path face_path youtube_id w = (w', Ok b)).
Proof.
  split; [|split].
  - intros youtube_id output_path w.
    destruct (download_video_effect cfg env youtube_id output_path
                (MAX_RETRIES cfg) 0 w ltac:(lia)) as (w' & b & _ & _ & H & _).
    eauto.
  - intros video_path audio_path start_time end_time w.
    destruct (flat_extract_audio_runs env video_path audio_path start_time end_time w)
      as (w' & b & H & _). eauto.
  - intros video_path face_path youtube_id w.
    destruct (flat_extract_faces_effect env video_path face_path youtube_id w)
      as (w' & b & _ & H & _). eauto.
Qed.

(** ** [process_video], up to ten faces per video *)

Lemma nested_extract_audio_total env video_path audio_path w :
  ∃ w' b, Nested.extract_audio env video_path audio_path w = (w', Ok b).
Proof.
  unfold Nested.extract_audio, try_except, bind, ffmpeg_run_quiet.
  destruct (ffmpeg_run env _ w) as [msg|wrote]; cbn; eauto.
Qed.

Lemma nested_stages_total cfg env :
  (∀ youtube_id output_path w,
     ∃ w' b, download_video cfg env youtube_id output_path 0 w = (w', Ok b)) ∧
  (∀ video_path audio_path w,
     ∃ w' b, Nested.extract_audio env video_path audio_path w = (w', Ok b)) ∧
  (∀ video_path face_dir youtube_id w,
     ∃ w' b, Nested.extract_faces env video_path face_dir youtube_id w = (w', Ok b)).
Proof.
  split; [|split].
  - apply (flat_stages_total cfg env).
  - apply nested_extract_audio_total.
  - intros video_path face_dir youtube_id w.
    destruct (nested_extract_faces_effect env video_path face_dir youtube_id w)
      as (w' & b & _ & H & _). eauto.
Qed.

Lemma nested_process_video_makedirs cfg env youtube_id start_time end_time w :
  Nested.process_video cfg env (youtube_id, start_time, end_time) w
  = match os_makedirs_error env (Nested.face_dir cfg youtube_id) w with
    | None =>
        try_except (Nested.process_video_body cfg env youtube_id)
          (fun e => log_failure youtube_id "Processing failed" e ;; ret false)%py
          (create (Nested.face_dir cfg youtube_id) w)
    | Some e => (w, Raise e)
    end.
Proof.
  unfold Nested.process_video, os_makedirs. unfold bind at 1.
  destruct (os_makedirs_error env (Nested.face_dir cfg youtube_id) w); reflexivity.
Qed.

Lemma nested_process_video_total cfg env youtube_id start_time end_time w :
  os_makedirs_error env (Nested.face_dir cfg youtube_id) w = None →
  ∃ w' b, Nested.process_video cfg env (youtube_id, start_time, end_time) w = (w', Ok b).
Proof.
  intros Hdir.
  destruct (nested_stages_total cfg env) as (Hdl & Hau & Hfa).
  rewrite nested_process_video_makedirs, Hdir.
  unfold try_except, Nested.process_video_body.
  unfold bind at 1.
  destruct (Hdl youtube_id (Nested.video_path cfg youtube_id)
              (create (Nested.face_dir cfg youtube_id) w)) as (w1 & b1 & ->).
  destruct b1; cbn [negb]; [|eauto].
  unfold bind at 1.
  destruct (Hau (Nested.video_path cfg youtube_id) (Nested.audio_path cfg youtube_id) w1)
    as (w2 & b2 & ->).
  destruct b2; cbn [negb]; [|eauto].
  unfold bind at 1.
  destruct (Hfa (Nested.video_path cfg youtube_id) (Nested.face_dir cfg youtube_id)
              youtube_id w2) as (w3 & b3 & ->).
  destruct b3; cbn [negb]; [|eauto].
  unfold bind at 1. unfold os_path_exists, ask.
  destruct (bool_decide _).
  - unfold bind at 1.
    destruct (os_remove_effect env (Nested.video_path cfg youtube_id) w3) as [[e ->] | ->];
      cbn; eauto.
  - cbn. eauto.
Qed.

(** C8.  Exceptions and [process_video].  In the one-face script
    [process_video] returns a boolean on every record and in every world,
    and never raises: each stage ([download_video], [extract_audio],
    [extract_faces]) returns a boolean and never raises, and an exception
    raised in the [try] body of [process_video] is logged with the reason
    [Processing failed] and turned into [False].  The stages and the [try]
    body of the ten-face script do the same, but its [process_video] calls
    [os.makedirs] before the [try]: an exception of that call leaves
    [process_video], with nothing logged and no boolean returned.  That
    happens for a record whose identifier has 300 characters on a file
    system whose names have at most 255 bytes. *)
Theorem C8_process_video_exceptions :
  ∀ cfg env,
    (∀ args w, ∃ w' b, Flat.process_video cfg env args w = (w', Ok b)) ∧
    (∀ youtube_id start_time end_time w,
       os_makedirs_error env (Nested.face_dir cfg youtube_id) w = None →
       ∃ w' b, Nested.process_video cfg env (youtube_id, start_time, end_time) w
               = (w', Ok b)) ∧
    (∀ youtube_id output_path w,
       ∃ w' b, download_video cfg env youtube_id output_path 0 w = (w', Ok b)) ∧
    (∀ video_path audio_path start_time end_time w,
       ∃ w' b, Flat.extract_audio env video_path audio_path start_time end_time w
               = (w', Ok b)) ∧
    (∀ video_path face_path youtube_id w,
       ∃ w' b, Flat.extract_faces env video_path face_path youtube_id w = (w', Ok b)) ∧
    (∀ video_path audio_path w,
       ∃ w' b, Nested.extract_audio env video_path audio_path w = (w', Ok b)) ∧
    (∀ video_path face_dir youtube_id w,
       ∃ w' b, Nested.extract_faces env video_path face_dir youtube_id w = (w', Ok b)) ∧
    (∀ youtube_id start_time end_time row_number w w1 e,
       Flat.process_video_body cfg env youtube_id start_time end_time w = (w1, Raise e) →
       Flat.process_video cfg env (youtube_id, start_time, end_time, row_number) w
       = (append_log (failure_line youtube_id "Processing failed" e) w1, Ok false)) ∧
    (∀ youtube_id start_time end_time w w1 e,
       os_makedirs_error env (Nested.face_dir cfg youtube_id) w = None →
       Nested.process_video_body cfg env youtube_id
         (create (Nested.face_dir cfg youtube_id) w) = (w1, Raise e) →
       Nested.process_video cfg env (youtube_id, start_time, end_time) w
       = (append_log (failure_line youtube_id "Processing failed" e) w1, Ok false)) ∧
    (∀ youtube_id start_time end_time w e,
       os_makedirs_error env (Nested.face_dir cfg youtube_id) w = Some e →
       Nested.process_video cfg env (youtube_id, start_time, end_time) w
       = (w, Raise e)) ∧
    String.length long_id = 300 ∧
    Nested.process_video (config PRODUCTION) name_limit_env
      (long_id, 0%float, 0%float) empty_world
    = (empty_world, Raise "[Errno 36] File name too long").
Proof.
  intros cfg env.
  destruct (flat_stages_total cfg env) as (Hdl & Hau & Hfa).
  destruct (nested_stages_total cfg env) as (_ & Hau' & Hfa').
  split.
  { intros [[[youtube_id start_time] end_time] row_number] w.
    destruct (flat_process_video_effect cfg env youtube_id start_time end_time
                row_number w) as (w' & b & _ & _ & H & _).
    eauto. }
  split; [intros; apply nested_process_video_total; assumption|].
  repeat (split; [assumption|]).
  split.
  { intros youtube_id start_time end_time row_number w w1 e Hbody.
    unfold Flat.process_video, try_except. rewrite Hbody. reflexivity. }
  split.
  { intros youtube_id start_time end_time w w1 e Hdir Hbody.
    rewrite nested_process_video_makedirs, Hdir.
    unfold try_except. rewrite Hbody. reflexivity. }
  split.
  { intros youtube_id start_time end_time w e Hdir.
    rewrite nested_process_video_makedirs, Hdir. reflexivity. }
  split; [reflexivity|].
  rewrite nested_process_video_makedirs.
  replace (os_makedirs_error name_limit_env
             (Nested.face_dir (config PRODUCTION) long_id) empty_world)
    with (Some "[Errno 36] File name too long") by (vm_compute; reflexivity).
  reflexivity.
Qed.

(** C2.  When [process_video] of the one-face script returns [True], the
    audio file [{youtube_id}_audio.wav] and the face file
    [{youtube_id}_face.jpg] exist, the video file [{youtube_id}_full.mp4]
    does not, and the run wrote exactly one audio file (one ffmpeg run, to
    the audio path) and exactly one face crop (to the face path). *)
Theorem C2_success_leaves_audio_and_face :
  ∀ cfg env youtube_id start_time end_time row_number w w',
    Flat.process_video cfg env (youtube_id, start_time, end_time, row_number) w
    = (w', Ok true) →
    Flat.audio_path cfg youtube_id ∈ fs w' ∧
    Flat.face_path cfg youtube_id ∈ fs w' ∧
    (Flat.video_path cfg youtube_id ∉ fs w') ∧
    ∃ evs s r,
      trace w' = trace w ++ evs ∧
      ffmpeg_runs evs = [s] ∧
      output_path s = Flat.audio_path cfg youtube_id ∧
      imwrites evs = [crop_of (Flat.face_path cfg youtube_id) r].
Proof.
  intros cfg env youtube_id start_time end_time row_number w w' Hrun.
  destruct (flat_process_video_effect cfg env youtube_id start_time end_time
              row_number w) as (w2 & b & evs & lines & Hrun' & Htr & _ & Hb & _).
  rewrite Hrun in Hrun'. injection Hrun' as <- <-.
  destruct (Hb eq_refl) as (_ & Ha & Hf & Hv & Hff & r & _ & Him).
  repeat (split; [assumption|]).
  eexists evs, _, r. split; [exact Htr|]. split; [exact Hff|]. split; [|exact Him].
  unfold Flat.audio_stream. destruct (_ && _); reflexivity.
Qed.

Lemma flat_failure_log_lines cfg env youtube_id start_time end_time row_number w :
  let args := (youtube_id, start_time, end_time, row_number) in
  let video := Flat.video_path cfg youtube_id in
  let audio := Flat.audio_path cfg youtube_id in
  let face := Flat.face_path cfg youtube_id in
  (∃ w' b lines,
     Flat.process_video cfg env args w = (w', Ok b) ∧
     log w' = log w ++ lines ∧
     (b = true → lines = []) ∧
     (lines = [] ∨
      ∃ e, lines = [failure_line youtube_id "Download failed" e] ∨
           lines = [failure_line youtube_id "Processing failed" e])) ∧
  ((∀ w0, attempt_raises (ydl_extract_info env (watch_url youtube_id) video w0) = true) →
   ∃ w' e,
     Flat.process_video cfg env args w = (w', Ok false) ∧
     log w' = log w ++ [failure_line youtube_id "Download failed" e]) ∧
  (∀ w1 e,
     Flat.process_video_body cfg env youtube_id start_time end_time w = (w1, Raise e) →
     ∃ w',
       Flat.process_video cfg env args w = (w', Ok false) ∧
       log w' = log w1 ++ [failure_line youtube_id "Processing failed" e]) ∧
  (∀ w1,
     download_attempt env youtube_id video w = (w1, Ok false) →
     Flat.process_video cfg env args w = (w1, Ok false) ∧ log w1 = log w) ∧
  (∀ w1 w2,
     download_video cfg env youtube_id video 0 w = (w1, Ok true) →
     Flat.extract_audio env video audio (Some start_time) (Some end_time) w1
     = (w2, Ok false) →
     Flat.process_video cfg env args w = (w2, Ok false) ∧ log w2 = log w) ∧
  (∀ w1 w2 w3,
     download_video cfg env youtube_id video 0 w = (w1, Ok true) →
     Flat.extract_audio env video audio (Some start_time) (Some end_time) w1
     = (w2, Ok true) →
     Flat.extract_faces env video face youtube_id w2 = (w3, Ok false) →
     Flat.process_video cfg env args w = (w3, Ok false) ∧ log w3 = log w).
Proof.
  intros args video audio face.
  assert (Hdl_log : ∀ w1, download_video cfg env youtube_id video 0 w = (w1, Ok true) →
                          log w1 = log w).
  { intros w1 H1.
    destruct (download_video_effect cfg env youtube_id video (MAX_RETRIES cfg) 0 w
                ltac:(lia)) as (w1' & b & evs & lines & H1' & _ & Hlog & _ & _ & _ & _ & Hb & _).
    rewrite H1 in H1'. injection H1' as <- <-.
    destruct (Hb eq_refl) as [-> _]. rewrite app_nil_r in Hlog. exact Hlog. }
  split; [|split; [|split; [|split; [|split]]]].
  - destruct (flat_process_video_effect cfg env youtube_id start_time end_time
                row_number w) as (w' & b & evs & lines & Hrun & _ & Hlog & Hb & Hl).
    exists w', b, lines. split; [exact Hrun|]. split; [exact Hlog|].
    split; [intros Ht; apply (Hb Ht) | exact Hl].
  - intros Hraise.
    destruct (download_video_always_raising cfg env youtube_id video Hraise
                (MAX_RETRIES cfg) 0 w ltac:(lia)) as (w' & e & Hrun & _ & Hlog & _).
    exists w', e. split; [|exact Hlog].
    unfold args, Flat.process_video, try_except, Flat.process_video_body.
    unfold bind at 1. fold video. rewrite Hrun. reflexivity.
  - intros w1 e Hbody. eexists. split.
    + unfold args, Flat.process_video, try_except. rewrite Hbody. reflexivity.
    + reflexivity.
  - intros w1 Hatt.
    assert (Hrun : download_video cfg env youtube_id video 0 w = (w1, Ok false))
      by (rewrite download_video_step, Hatt; reflexivity).
    split.
    + unfold args, Flat.process_video, try_except, Flat.process_video_body.
      unfold bind at 1. fold video. rewrite Hrun. reflexivity.
    + destruct (download_attempt_effect env youtube_id video w)
        as (w1' & r & Hatt' & _ & Hlog & _).
      rewrite Hatt in Hatt'. injection Hatt' as <- _. exact Hlog.
  - intros w1 w2 Hdl Hau. split.
    + unfold args, Flat.process_video, try_except, Flat.process_video_body.
      unfold bind at 1. fold video. rewrite Hdl. cbn [negb].
      unfold bind at 1. fold audio. rewrite Hau. reflexivity.
    + destruct (flat_extract_audio_runs env video audio (Some start_time)
                  (Some end_time) w1) as (w2' & b & Hau' & _ & Hlog & _).
      rewrite Hau in Hau'. injection Hau' as <- _.
      rewrite Hlog. apply Hdl_log, Hdl.
  - intros w1 w2 w3 Hdl Hau Hfa. split.
    + unfold args, Flat.process_video, try_except, Flat.process_video_body.
      unfold bind at 1. fold video. rewrite Hdl. cbn [negb].
      unfold bind at 1. fold audio. rewrite Hau. cbn [negb].
      unfold bind at 1. fold face. rewrite Hfa. reflexivity.
    + destruct (flat_extract_audio_runs env video audio (Some start_time)
                  (Some end_time) w1) as (w2' & b & Hau' & _ & Hlog2 & _).
      rewrite Hau in Hau'. injection Hau' as <- _.
      destruct (flat_extract_faces_effect env video face youtube_id w2)
        as (w3' & b3 & evs & Hfa' & _ & Hlog3 & _).
      rewrite Hfa in Hfa'. injection Hfa' as <- _.
      rewrite Hlog3, Hlog2. apply Hdl_log, Hdl.
Qed.

(** C4, as the script has it.  [process_video] of the one-face script
    appends at most one line to the failure log, and none when it returns
    [True].  The line is [youtube_id,Download failed,details] or
    [youtube_id,Processing failed,details]: a download whose attempts all
    raise gets the first, an exception raised in the [try] body of
    [process_video] gets the second.  A record that fails because the
    download ends without the file, because audio extraction returns
    [False] or because face extraction returns [False] gets no line.  So
    in the scenario of three records (a download that always raises, a
    video without a face, a full success) the failure log ends with exactly
    one line, that of the download. *)
Theorem C4_failure_log_lines :
  (∀ cfg env youtube_id start_time end_time row_number w,
     let args := (youtube_id, start_time, end_time, row_number) in
     let video := Flat.video_path cfg youtube_id in
     let audio := Flat.audio_path cfg youtube_id in
     let face := Flat.face_path cfg youtube_id in
     (∃ w' b lines,
        Flat.process_video cfg env args w = (w', Ok b) ∧
        log w' = log w ++ lines ∧
        (b = true → lines = []) ∧
        (lines = [] ∨
         ∃ e, lines = [failure_line youtube_id "Download failed" e] ∨
              lines = [failure_line youtube_id "Processing failed" e])) ∧
     ((∀ w0, attempt_raises (ydl_extract_info env (watch_url youtube_id) video w0)
             = true) →
      ∃ w' e,
        Flat.process_video cfg env args w = (w', Ok false) ∧
        log w' = log w ++ [failure_line youtube_id "Download failed" e]) ∧
     (∀ w1 e,
        Flat.process_video_body cfg env youtube_id start_time end_time w
        = (w1, Raise e) →
        ∃ w',
          Flat.process_video cfg env args w = (w', Ok false) ∧
          log w' = log w1 ++ [failure_line youtube_id "Processing failed" e]) ∧
     (∀ w1,
        download_attempt env youtube_id video w = (w1, Ok false) →
        Flat.process_video cfg env args w = (w1, Ok false) ∧ log w1 = log w) ∧
     (∀ w1 w2,
        download_video cfg env youtube_id video 0 w = (w1, Ok true) →
        Flat.extract_audio env video audio (Some start_time) (Some end_time) w1
        = (w2, Ok false) →
        Flat.process_video cfg env args w = (w2, Ok false) ∧ log w2 = log w) ∧
     (∀ w1 w2 w3,
        download_video cfg env youtube_id video 0 w = (w1, Ok true) →
        Flat.extract_audio env video audio (Some start_time) (Some end_time) w1
        = (w2, Ok true) →
        Flat.extract_faces env video face youtube_id w2 = (w3, Ok false) →
        Flat.process_video cfg env args w = (w3, Ok false) ∧ log w3 = log w)) ∧
  log (fst (Flat.process_all (config PRODUCTION) scenario_env scenario_data
              (Flat.init 3 0%float) empty_world))
  = [failure_line "dlfail" "Download failed" "HTTP Error 403: Forbidden"].
Proof.
  split; [intros; apply flat_failure_log_lines | vm_compute; reflexivity].
Qed.

(** ** The claims on concrete runs *)

(** C1: the code leaves the video behind.  In PRODUCTION mode, a record
    whose download wrote the video and whose audio extraction fails ends
    with [process_video] returning [False] and the video file still there;
    so does a record whose face extraction fails; and so it is in the
    ten-face script. *)
Theorem C1_video_left_after_failure :
  (snd (Flat.process_video (config PRODUCTION) ffmpeg_fails_env
          ("abc", 0%float, 0%float, 1%Z) empty_world) = Ok false ∧
   Flat.video_path (config PRODUCTION) "abc"
   ∈ fs (fst (Flat.process_video (config PRODUCTION) ffmpeg_fails_env
                ("abc", 0%float, 0%float, 1%Z) empty_world))) ∧
  (snd (Flat.process_video (config PRODUCTION) scenario_env
          ("noface", 10%float, 15%float, 2%Z) empty_world) = Ok false ∧
   Flat.video_path (config PRODUCTION) "noface"
   ∈ fs (fst (Flat.process_video (config PRODUCTION) scenario_env
                ("noface", 10%float, 15%float, 2%Z) empty_world))) ∧
  (snd (Nested.process_video (config PRODUCTION) ffmpeg_fails_env
          ("abc", 0%float, 0%float) empty_world) = Ok false ∧
   Nested.video_path (config PRODUCTION) "abc"
   ∈ fs (fst (Nested.process_video (config PRODUCTION) ffmpeg_fails_env
                ("abc", 0%float, 0%float) empty_world))) ∧
  (snd (Nested.process_video (config PRODUCTION) scenario_env
          ("noface", 10%float, 15%float) empty_world) = Ok false ∧
   Nested.video_path (config PRODUCTION) "noface"
   ∈ fs (fst (Nested.process_video (config PRODUCTION) scenario_env
                ("noface", 10%float, 15%float) empty_world))).
Proof.
  repeat split; try (vm_compute; reflexivity);
    apply bool_decide_eq_true; vm_compute; reflexivity.
Qed.

(** C2 at the record [good] of the scenario. *)
Lemma C2_witness :
  Flat.audio_path (config PRODUCTION) "good"
  ∈ fs (fst (Flat.process_video (config PRODUCTION) scenario_env
               ("good", 0%float, 0%float, 3%Z) empty_world)) ∧
  Flat.face_path (config PRODUCTION) "good"
  ∈ fs (fst (Flat.process_video (config PRODUCTION) scenario_env
               ("good", 0%float, 0%float, 3%Z) empty_world)) ∧
  (Flat.video_path (config PRODUCTION) "good"
   ∉ fs (fst (Flat.process_video (config PRODUCTION) scenario_env
                ("good", 0%float, 0%float, 3%Z) empty_world))).
Proof.
  destruct (C2_success_leaves_audio_and_face (config PRODUCTION) scenario_env
              "good" 0%float 0%float 3%Z empty_world
              (fst (Flat.process_video (config PRODUCTION) scenario_env
                      ("good", 0%float, 0%float, 3%Z) empty_world)))
    as (Ha & Hf & Hv & _).
  - vm_compute. reflexivity.
  - exact (conj Ha (conj Hf Hv)).
Defined.

(** C3 at the record [dlfail] of the scenario: four attempts. *)
Lemma C3_witness :
  (∀ w0, attempt_raises
           (ydl_extract_info scenario_env (watch_url "dlfail")
              (Flat.video_path (config PRODUCTION) "dlfail") w0) = true) ∧
  ∃ w' evs,
    download_video (config PRODUCTION) scenario_env "dlfail"
      (Flat.video_path (config PRODUCTION) "dlfail") 0 empty_world = (w', Ok false) ∧
    trace w' = trace empty_world ++ evs ∧
    attempts evs = 4 ∧
    sleeps evs = [1; 2; 4].
Proof.
  split; [intros w0; reflexivity|].
  destruct (C3_retry_count_and_backoff (config PRODUCTION) scenario_env "dlfail"
              (Flat.video_path (config PRODUCTION) "dlfail") empty_world
              (fun _ => eq_refl))
    as (w' & evs & Hrun & Htr & _ & Hatt & Hsl & _).
  exists w', evs. exact (conj Hrun (conj Htr (conj Hatt Hsl))).
Defined.

(** C9 at a sign-in error on attempt 0. *)
Lemma C9_witness :
  age_restricted (lower "Sign in to confirm your age") = true ∧
  download_video (config PRODUCTION) sign_in_env "abc" "abc_full.mp4" 0 empty_world
  = retry_generic 0
      (download_video (config PRODUCTION) sign_in_env "abc" "abc_full.mp4" (0 + 1))
      (emit (EvExtractInfo (watch_url "abc") "abc_full.mp4") empty_world).
Proof.
  split; [reflexivity|].
  refine (proj1 (proj2 (proj2
            (C9_age_restricted_same_as_generic (config PRODUCTION) sign_in_env
               "abc" "abc_full.mp4" 0 "Sign in to confirm your age" empty_world
               (emit (EvExtractInfo (watch_url "abc") "abc_full.mp4") empty_world)
               _ _)))).
  - vm_compute. lia.
  - vm_compute. reflexivity.
Defined.

(** C4, as the claim has it, fails on the scenario: the three records are
    processed, one succeeds and two fail, and the failure log holds one
    line, not two; the record [noface], which fails face detection, adds no
    line. *)
Lemma C4_counterexample :
  (∃ t, snd (Flat.process_all (config PRODUCTION) scenario_env scenario_data
               (Flat.init 3 0%float) empty_world) = Ok t ∧
        Flat.current_item t = 3%Z ∧ Flat.completed t = 1%Z ∧ Flat.failed t = 2%Z) ∧
  log (fst (Flat.process_all (config PRODUCTION) scenario_env scenario_data
              (Flat.init 3 0%float) empty_world))
  = [failure_line "dlfail" "Download failed" "HTTP Error 403: Forbidden"] ∧
  length (log (fst (Flat.process_all (config PRODUCTION) scenario_env scenario_data
                      (Flat.init 3 0%float) empty_world))) ≠ 2 ∧
  snd (Flat.process_video (config PRODUCTION) scenario_env
         ("noface", 10%float, 15%float, 2%Z) empty_world) = Ok false ∧
  log (fst (Flat.process_video (config PRODUCTION) scenario_env
              ("noface", 10%float, 15%float, 2%Z) empty_world)) = [].
Proof.
  split; [eexists; split; [vm_compute; reflexivity | repeat split]|].
  split; [vm_compute; reflexivity|].
  split; [vm_compute; discriminate|].
  split; vm_compute; reflexivity.
Qed.

(** C5, as the claim has it, fails: with [start = -5] and [end = -2] the
    end offset exceeds the start offset, and yet the test [end > 0] sends
    the call to the branch that transcodes the whole track. *)
Lemma C5_counterexample :
  ((-5) <? (-2))%float = true ∧
  input_ss (Flat.audio_stream "v.mp4" "a.wav" (Some (-5)%float) (Some (-2)%float))
  = None ∧
  output_t (Flat.audio_stream "v.mp4" "a.wav" (Some (-5)%float) (Some (-2)%float))
  = None.
Proof. repeat split. Qed.

(** C4 at a record whose audio extraction fails: no line is logged. *)
Lemma C4_witness :
  Flat.process_video (config PRODUCTION) ffmpeg_fails_env
    ("abc", 0%float, 0%float, 1%Z) empty_world
  = (fst (Flat.process_video (config PRODUCTION) ffmpeg_fails_env
            ("abc", 0%float, 0%float, 1%Z) empty_world), Ok false) ∧
  log (fst (Flat.process_video (config PRODUCTION) ffmpeg_fails_env
              ("abc", 0%float, 0%float, 1%Z) empty_world)) = log empty_world.
Proof.
  refine (proj1 (proj2 (proj2 (proj2 (proj2
            (proj1 C4_failure_log_lines (config PRODUCTION) ffmpeg_fails_env
               "abc" 0%float 0%float 1%Z empty_world)))))
            (fst (download_video (config PRODUCTION) ffmpeg_fails_env "abc"
                    (Flat.video_path (config PRODUCTION) "abc") 0 empty_world))
            _ _ _).
  - vm_compute. reflexivity.
  - vm_compute. reflexivity.
Defined.

(** A record of the one-face script whose video cannot be removed: the
    [OSError] raised in the [try] body is logged and [process_video]
    returns [False]. *)
Lemma flat_remove_error_is_logged :
  snd (Flat.process_video_body (config PRODUCTION) remove_fails_env
         "good" 0%float 0%float empty_world)
  = Raise "[WinError 32] The process cannot access the file" ∧
  snd (Flat.process_video (config PRODUCTION) remove_fails_env
         ("good", 0%float, 0%float, 3%Z) empty_world) = Ok false ∧
  log (fst (Flat.process_video (config PRODUCTION) remove_fails_env
              ("good", 0%float, 0%float, 3%Z) empty_world))
  = [failure_line "good" "Processing failed"
       "[WinError 32] The process cannot access the file"].
Proof.
  split; [vm_compute; reflexivity|].
  split; vm_compute; reflexivity.
Qed.

(** * Further properties of the scripts *)

(** ** [download_video] in any environment *)

Lemma download_attempt_footprint env youtube_id output_path w :
  fs (fst (download_attempt env youtube_id output_path w)) ⊆ fs w ∪ {[ output_path ]}.
Proof.
  unfold download_attempt, bind, os_path_exists, ask, ret, raise.
  destruct (ydl_extract_info env _ output_path w) as [msg| |[|]]; cbn.
  - apply union_subseteq_l.
  - apply union_subseteq_l.
  - rewrite (comm_L (∪)). reflexivity.
  - apply union_subseteq_l.
Qed.

Lemma download_video_schedule cfg env youtube_id output_path :
  ∀ k retry w,
    MAX_RETRIES cfg - retry = k →
    ∃ w' b n lines,
      download_video cfg env youtube_id output_path retry w = (w', Ok b) ∧
      n ≤ k ∧
      trace w' = trace w ++ backoff_schedule (watch_url youtube_id) output_path retry n ∧
      log w' = log w ++ lines ∧
      fs w ⊆ fs w' ∧
      fs w' ⊆ fs w ∪ {[ output_path ]} ∧
      b = bool_decide (output_path ∈ fs w') && bool_decide (lines = []) ∧
      (lines = [] ∨
       n = k ∧ ∃ e, lines = [failure_line youtube_id "Download failed" e]).
Proof.
  induction k as [|k IH]; intros retry w Hk;
    rewrite download_video_step;
    pose proof (download_attempt_footprint env youtube_id output_path w) as Hup;
    destruct (download_attempt_effect env youtube_id output_path w)
      as (w1 & r & Hatt & Htr & Hlog & Hfs & Hin & _);
    rewrite Hatt in Hup |- *; cbn [fst] in Hup;
    destruct r as [b|e].
  - exists w1, b, 0, []. rewrite app_nil_r.
    split; [reflexivity|]. split; [lia|]. split; [exact Htr|].
    repeat (split; [assumption|]). split; [|left; reflexivity].
    rewrite andb_true_r. symmetry.
    unfold download_attempt, bind, os_path_exists, ask, ret, raise in Hatt.
    destruct (ydl_extract_info env _ output_path w) as [msg| |[|]]; cbn in Hatt;
      try discriminate; injection Hatt as <- <-; reflexivity.
  - rewrite decide_False by lia.
    eexists _, false, 0, [_]. split; [reflexivity|]. cbn [append_log fs log trace].
    rewrite Hlog. split; [lia|]. split; [exact Htr|]. split; [reflexivity|].
    repeat (split; [assumption|]). split; [rewrite andb_false_r; reflexivity|].
    right. split; [reflexivity|]. eexists; reflexivity.
  - exists w1, b, 0, []. rewrite app_nil_r.
    split; [reflexivity|]. split; [lia|]. split; [exact Htr|].
    repeat (split; [assumption|]). split; [|left; reflexivity].
    rewrite andb_true_r. symmetry.
    unfold download_attempt, bind, os_path_exists, ask, ret, raise in Hatt.
    destruct (ydl_extract_info env _ output_path w) as [msg| |[|]]; cbn in Hatt;
      try discriminate; injection Hatt as <- <-; reflexivity.
  - rewrite decide_True by lia.
    destruct (IH (retry + 1) (emit (EvSleep (2 ^ retry)) w1) ltac:(lia))
      as (w' & b & n & lines & -> & Hn & Htr' & Hlog' & Hfs' & Hup' & Hb & Hl).
    exists w', b, (S n), lines. split; [reflexivity|]. cbn [emit fs log trace] in *.
    split; [lia|]. split.
    { rewrite Htr', Htr, <- !app_assoc. unfold backoff_schedule. cbn.
      replace (retry + 1) with (S retry) by lia. reflexivity. }
    split; [rewrite Hlog', Hlog; reflexivity|].
    split; [etransitivity; [exact Hfs | exact Hfs']|].
    split; [etransitivity; [exact Hup'|]; apply union_least;
            [exact Hup | apply union_subseteq_r]|].
    split; [exact Hb|].
    destruct Hl as [->|[-> He]]; [left; reflexivity | right; split; [reflexivity | exact He]].
Qed.

(** X1.  In any environment [download_video] calls [ydl.extract_info] at
    most [MAX_RETRIES + 1] times; it sleeps exactly once between two
    consecutive attempts, [2 ^ i] seconds after attempt [i]; and it writes
    a line to the failure log only after attempt [MAX_RETRIES]. *)
Theorem X1_download_video_retry_schedule :
  ∀ cfg env youtube_id output_path w,
    ∃ w' b evs lines n,
      download_video cfg env youtube_id output_path 0 w = (w', Ok b) ∧
      trace w' = trace w ++ evs ∧
      log w' = log w ++ lines ∧
      n ≤ MAX_RETRIES cfg ∧
      attempts evs = n + 1 ∧
      sleeps evs = (fun i => 2 ^ i) <$> seq 0 n ∧
      ffmpeg_runs evs = [] ∧ imwrites evs = [] ∧
      (lines = [] ∨
       n = MAX_RETRIES cfg ∧ b = false ∧
       ∃ e, lines = [failure_line youtube_id "Download failed" e]).
Proof.
  intros cfg env youtube_id output_path w.
  destruct (download_video_schedule cfg env youtube_id output_path
              (MAX_RETRIES cfg) 0 w ltac:(lia))
    as (w' & b & n & lines & Hrun & Hn & Htr & Hlog & _ & _ & Hb & Hl).
  destruct (download_video_effect cfg env youtube_id output_path
              (MAX_RETRIES cfg) 0 w ltac:(lia))
    as (w2 & b2 & evs2 & lines2 & Hrun2 & Htr2 & _ & _ & Hff & Him & _).
  rewrite Hrun in Hrun2. injection Hrun2 as <- <-.
  rewrite Htr in Htr2. apply app_inv_head in Htr2. subst evs2.
  exists w', b, (backoff_schedule (watch_url youtube_id) output_path 0 n), lines, n.
  split; [exact Hrun|]. split; [exact Htr|]. split; [exact Hlog|]. split; [lia|].
  split; [apply attempts_backoff_schedule|].
  split; [apply sleeps_backoff_schedule|].
  split; [exact Hff|]. split; [exact Him|].
  destruct Hl as [->|[-> [e ->]]]; [left; reflexivity|].
  right. split; [reflexivity|]. split; [|eexists; reflexivity].
  rewrite Hb, andb_false_r. reflexivity.
Qed.

(** X2.  [download_video] returns [True] exactly when, as it returns, the
    output file exists and it has logged nothing; it deletes no file and
    creates no file other than the output file. *)
Theorem X2_download_video_result_and_footprint :
  ∀ cfg env youtube_id output_path w,
    ∃ w' b lines,
      download_video cfg env youtube_id output_path 0 w = (w', Ok b) ∧
      log w' = log w ++ lines ∧
      (b = true ↔ output_path ∈ fs w' ∧ lines = []) ∧
      fs w ⊆ fs w' ∧
      fs w' ⊆ fs w ∪ {[ output_path ]}.
Proof.
  intros cfg env youtube_id output_path w.
  destruct (download_video_schedule cfg env youtube_id output_path
              (MAX_RETRIES cfg) 0 w ltac:(lia))
    as (w' & b & n & lines & Hrun & _ & _ & Hlog & Hfs & Hup & Hb & _).
  exists w', b, lines. split; [exact Hrun|]. split; [exact Hlog|].
  split; [|split; assumption].
  rewrite Hb, andb_true_iff, !bool_decide_eq_true. reflexivity.
Qed.

(** X3.  When [ydl.extract_info] returns the info dictionary,
    [download_video] makes no further attempt, whatever the attempt
    counter: it neither sleeps nor logs, and returns whether the output
    file exists.  So a download that reports success and leaves no file
    fails at once, without a retry and without a line in the log. *)
Theorem X3_download_without_file_is_not_retried :
  ∀ cfg env youtube_id output_path retry w wrote,
    ydl_extract_info env (watch_url youtube_id) output_path w = DlInfo wrote →
    let w1 := emit (EvExtractInfo (watch_url youtube_id) output_path) w in
    download_video cfg env youtube_id output_path retry w
    = (if wrote then create output_path w1 else w1,
       Ok (wrote || bool_decide (output_path ∈ fs w))).
Proof.
  intros cfg env youtube_id output_path retry w wrote Hinfo w1.
  rewrite download_video_step.
  unfold download_attempt, bind, os_path_exists, ask, ret, raise.
  rewrite Hinfo. cbn. destruct wrote; cbn; [|reflexivity].
  rewrite bool_decide_eq_true_2; [reflexivity|].
  apply elem_of_union_l, elem_of_singleton. reflexivity.
Qed.

(** X3 at a download that returns info and writes nothing. *)
Lemma X3_witness :
  ydl_extract_info no_file_env (watch_url "abc") "abc_full.mp4" empty_world
  = DlInfo false ∧
  download_video (config PRODUCTION) no_file_env "abc" "abc_full.mp4" 0 empty_world
  = (emit (EvExtractInfo (watch_url "abc") "abc_full.mp4") empty_world, Ok false).
Proof.
  split; [reflexivity|].
  exact (X3_download_without_file_is_not_retried (config PRODUCTION) no_file_env
           "abc" "abc_full.mp4" 0 empty_world false eq_refl).
Defined.

(** ** [ProgressTracker] as a tally *)

Lemma flat_update_keeps self success youtube_id row_number now :
  let self' := fst (Flat.update self success youtube_id row_number now) in
  Flat.total_items self' = Flat.total_items self ∧
  Flat.start_time self' = Flat.start_time self.
Proof.
  unfold Flat.update, Flat._show_row_progress, Flat._show_detailed_update.
  destruct success; cbn;
    repeat match goal with |- context [if ?b then _ else _] => destruct b end;
    cbn; split; reflexivity.
Qed.

Lemma nested_update_keeps self success now :
  let self' := fst (Nested.update self success now) in
  Nested.total_items self' = Nested.total_items self ∧
  Nested.start_time self' = Nested.start_time self.
Proof.
  unfold Nested.update, Nested._show_progress_update.
  destruct success; cbn;
    repeat match goal with |- context [if ?b then _ else _] => destruct b end;
    cbn; split; reflexivity.
Qed.

Lemma successes_le outcomes : successes outcomes ≤ length outcomes.
Proof. induction outcomes as [|[] rest IH]; cbn; lia. Qed.

Lemma flat_updates_tally calls self :
  let t := flat_updates calls self in
  let outcomes := map (fun c => c.1.1.1) calls in
  Flat.current_item t = (Flat.current_item self + Z.of_nat (length calls))%Z ∧
  Flat.completed t = (Flat.completed self + Z.of_nat (successes outcomes))%Z ∧
  Flat.failed t
  = (Flat.failed self + Z.of_nat (length calls - successes outcomes))%Z ∧
  Flat.total_items t = Flat.total_items self ∧
  Flat.start_time t = Flat.start_time self.
Proof.
  revert self.
  induction calls as [|[[[success youtube_id] row_number] now] calls IH]; intros self.
  - cbn. repeat split; lia.
  - change (flat_updates ((success, youtube_id, row_number, now) :: calls) self)
      with (flat_updates calls (fst (Flat.update self success youtube_id row_number now))).
    destruct (IH (fst (Flat.update self success youtube_id row_number now)))
      as (H1 & H2 & H3 & H4 & H5).
    destruct (flat_update_counters self success youtube_id row_number now)
      as (U1 & U2 & U3).
    destruct (flat_update_keeps self success youtube_id row_number now) as (U4 & U5).
    cbv zeta in *. rewrite H1, H2, H3, H4, H5, U1, U2, U3, U4, U5.
    pose proof (successes_le (map (fun c => c.1.1.1) calls)) as Hle.
    rewrite length_map in Hle.
    cbn [map length successes fst snd]. destruct success; repeat split; lia.
Qed.

Lemma nested_updates_tally calls self :
  let t := nested_updates calls self in
  let outcomes := map fst calls in
  Nested.current_item t = (Nested.current_item self + Z.of_nat (length calls))%Z ∧
  Nested.completed t = (Nested.completed self + Z.of_nat (successes outcomes))%Z ∧
  Nested.failed t
  = (Nested.failed self + Z.of_nat (length calls - successes outcomes))%Z ∧
  Nested.total_items t = Nested.total_items self ∧
  Nested.start_time t = Nested.start_time self.
Proof.
  revert self. induction calls as [|[success now] calls IH]; intros self.
  - cbn. repeat split; lia.
  - change (nested_updates ((success, now) :: calls) self)
      with (nested_updates calls (fst (Nested.update self success now))).
    destruct (IH (fst (Nested.update self success now))) as (H1 & H2 & H3 & H4 & H5).
    destruct (nested_update_counters self success now) as (U1 & U2 & U3).
    destruct (nested_update_keeps self success now) as (U4 & U5).
    cbv zeta in *. rewrite H1, H2, H3, H4, H5, U1, U2, U3, U4, U5.
    pose proof (successes_le (map fst calls)) as Hle.
    rewrite length_map in Hle.
    cbn [map length successes fst snd]. destruct success; repeat split; lia.
Qed.

(** X4.  In both scripts, after any sequence of [update] calls on a fresh
    [ProgressTracker], [current_item] is the number of calls, [completed]
    the number of calls with [success] true, [failed] the number of the
    others, and [total_items] and [start_time] are as [__init__] set
    them. *)
Theorem X4_progress_tracker_tally :
  (∀ total now calls,
     let t := flat_updates calls (Flat.init total now) in
     let outcomes := map (fun c => c.1.1.1) calls in
     Flat.current_item t = Z.of_nat (length calls) ∧
     Flat.completed t = Z.of_nat (successes outcomes) ∧
     Flat.failed t = Z.of_nat (length calls - successes outcomes) ∧
     Flat.total_items t = total ∧
     Flat.start_time t = now) ∧
  (∀ total now calls,
     let t := nested_updates calls (Nested.init total now) in
     let outcomes := map fst calls in
     Nested.current_item t = Z.of_nat (length calls) ∧
     Nested.completed t = Z.of_nat (successes outcomes) ∧
     Nested.failed t = Z.of_nat (length calls - successes outcomes) ∧
     Nested.total_items t = total ∧
     Nested.start_time t = now).
Proof.
  split; intros total now calls.
  - apply (flat_updates_tally calls (Flat.init total now)).
  - apply (nested_updates_tally calls (Nested.init total now)).
Qed.

(** ** What [process_video] touches, one face per video *)

Lemma flat_extract_audio_footprint env video_path audio_path start_time end_time w :
  fs (fst (Flat.extract_audio env video_path audio_path start_time end_time w))
  ⊆ fs w ∪ {[ audio_path ]}.
Proof.
  assert (Hout : output_path (Flat.audio_stream video_path audio_path start_time end_time)
                 = audio_path).
  { unfold Flat.audio_stream. destruct (_ && _); reflexivity. }
  unfold Flat.extract_audio, try_except, bind, os_path_exists, ask, ret, ffmpeg_run_quiet.
  destruct (ffmpeg_run env _ w) as [msg|[|]]; cbn.
  - apply union_subseteq_l.
  - rewrite Hout, (comm_L (∪)). reflexivity.
  - apply union_subseteq_l.
Qed.

Lemma flat_while_frames_footprint face_path :
  ∀ frames frame_count face_found w,
    fs (fst (Flat.while_frames face_path frames frame_count face_found w))
    ⊆ fs w ∪ {[ face_path ]}.
Proof.
  induction frames as [|frame rest IH]; intros frame_count face_found w;
    (destruct face_found;
     [rewrite flat_while_frames_found; apply union_subseteq_l|]).
  - apply union_subseteq_l.
  - rewrite flat_while_frames_cons.
    destruct (negb _); [apply IH|].
    unfold bind at 1. unfold detectMultiScale, bind, act, ret.
    rewrite flat_for_faces_effect.
    destruct (List.find big_enough frame) as [r|].
    + destruct (cv2_imwrite_effect face_path r (emit (EvDetect (S frame_count)) w))
        as (w2 & -> & _ & _ & _ & Hfs).
      cbn [fst]. rewrite flat_while_frames_found. cbn [fst].
      rewrite Hfs, (comm_L (∪)). reflexivity.
    + apply (IH (S frame_count) false (emit (EvDetect (S frame_count)) w)).
Qed.

Lemma flat_extract_faces_footprint env video_path face_path youtube_id w :
  fs (fst (Flat.extract_faces env video_path face_path youtube_id w))
  ⊆ fs w ∪ {[ face_path ]}.
Proof.
  unfold Flat.extract_faces, try_except.
  destruct (cv2_VideoCapture env video_path w) as [msg| |frames];
    [apply union_subseteq_l | apply union_subseteq_l |].
  pose proof (flat_while_frames_footprint face_path frames 0 false w) as H.
  destruct (flat_while_frames_effect face_path frames 0 w) as (w' & b & evs & Hrun & _).
  rewrite Hrun in H |- *. exact H.
Qed.

Lemma flat_process_video_footprint cfg env youtube_id start_time end_time row_number w :
  let w' := fst (Flat.process_video cfg env
                   (youtube_id, start_time, end_time, row_number) w) in
  fs w' ⊆ fs w ∪ {[ Flat.video_path cfg youtube_id; Flat.audio_path cfg youtube_id;
                    Flat.face_path cfg youtube_id ]} ∧
  fs w ∖ {[ Flat.video_path cfg youtube_id ]} ⊆ fs w'.
Proof.
  intros w'.
  assert (Hw' : w' = fst (Flat.process_video cfg env
                           (youtube_id, start_time, end_time, row_number) w))
    by reflexivity.
  clearbody w'.
  unfold Flat.process_video, try_except, Flat.process_video_body in Hw'.
  unfold bind at 1 in Hw'.
  destruct (download_video_schedule cfg env youtube_id (Flat.video_path cfg youtube_id)
              (MAX_RETRIES cfg) 0 w ltac:(lia))
    as (w1 & b1 & n & lines1 & Hrun1 & _ & _ & _ & Hfs1 & Hup1 & _).
  rewrite Hrun1 in Hw'.
  destruct b1; cbn [negb] in Hw'; [|cbn in Hw'; subst w'; set_solver].
  unfold bind at 1 in Hw'.
  pose proof (flat_extract_audio_footprint env (Flat.video_path cfg youtube_id)
                (Flat.audio_path cfg youtube_id) (Some start_time) (Some end_time) w1)
    as Hup2.
  destruct (flat_extract_audio_runs env (Flat.video_path cfg youtube_id)
              (Flat.audio_path cfg youtube_id) (Some start_time) (Some end_time) w1)
    as (w2 & b2 & Hrun2 & _ & _ & Hfs2 & _).
  rewrite Hrun2 in Hup2, Hw'. cbn [fst] in Hup2.
  destruct b2; cbn [negb] in Hw'; [|cbn in Hw'; subst w'; set_solver].
  unfold bind at 1 in Hw'.
  pose proof (flat_extract_faces_footprint env (Flat.video_path cfg youtube_id)
                (Flat.face_path cfg youtube_id) youtube_id w2) as Hup3.
  destruct (flat_extract_faces_effect env (Flat.video_path cfg youtube_id)
              (Flat.face_path cfg youtube_id) youtube_id w2)
    as (w3 & b3 & evs3 & Hrun3 & _ & _ & Hfs3 & _).
  rewrite Hrun3 in Hup3, Hw'. cbn [fst] in Hup3.
  destruct b3; cbn [negb] in Hw'; [|cbn in Hw'; subst w'; set_solver].
  unfold bind at 1 in Hw'. unfold os_path_exists, ask in Hw'.
  destruct (bool_decide _).
  - unfold bind at 1 in Hw'.
    destruct (os_remove_effect env (Flat.video_path cfg youtube_id) w3) as [[e He] | He];
      rewrite He in Hw'; cbn in Hw'; subst w'; cbn; set_solver.
  - cbn in Hw'. subst w'. set_solver.
Qed.

(** X5.  [process_video] of the one-face script creates no file other
    than the video, audio and face files of its record and deletes no file
    other than that video; the failure log and the trace of external calls
    only grow. *)
Theorem X5_process_video_footprint :
  ∀ cfg env youtube_id start_time end_time row_number w,
    let w' := fst (Flat.process_video cfg env
                     (youtube_id, start_time, end_time, row_number) w) in
    fs w' ⊆ fs w ∪ {[ Flat.video_path cfg youtube_id; Flat.audio_path cfg youtube_id;
                      Flat.face_path cfg youtube_id ]} ∧
    fs w ∖ {[ Flat.video_path cfg youtube_id ]} ⊆ fs w' ∧
    (∃ lines, log w' = log w ++ lines) ∧
    (∃ evs, trace w' = trace w ++ evs).
Proof.
  intros cfg env youtube_id start_time end_time row_number w w'.
  destruct (flat_process_video_footprint cfg env youtube_id start_time end_time
              row_number w) as [Hup Hlow].
  destruct (flat_process_video_effect cfg env youtube_id start_time end_time
              row_number w) as (w2 & b & evs & lines & Hrun & Htr & Hlog & _).
  split; [exact Hup|]. split; [exact Hlow|].
  subst w'. rewrite Hrun. cbn [fst]. split; eauto.
Qed.

(** X6.  In the one-face script, a record whose download succeeded and
    whose audio extraction fails ends with the video file still there; a
    record whose face extraction fails ends with the video file and the
    audio file still there, the audio without a face to match. *)
Theorem X6_failure_leaves_video_and_audio :
  ∀ cfg env youtube_id start_time end_time row_number w,
    let args := (youtube_id, start_time, end_time, row_number) in
    let video := Flat.video_path cfg youtube_id in
    let audio := Flat.audio_path cfg youtube_id in
    let face := Flat.face_path cfg youtube_id in
    (∀ w1 w2,
       download_video cfg env youtube_id video 0 w = (w1, Ok true) →
       Flat.extract_audio env video audio (Some start_time) (Some end_time) w1
       = (w2, Ok false) →
       Flat.process_video cfg env args w = (w2, Ok false) ∧ video ∈ fs w2) ∧
    (∀ w1 w2 w3,
       download_video cfg env youtube_id video 0 w = (w1, Ok true) →
       Flat.extract_audio env video audio (Some start_time) (Some end_time) w1
       = (w2, Ok true) →
       Flat.extract_faces env video face youtube_id w2 = (w3, Ok false) →
       Flat.process_video cfg env args w = (w3, Ok false) ∧
       video ∈ fs w3 ∧ audio ∈ fs w3).
Proof.
  intros cfg env youtube_id start_time end_time row_number w args video audio face.
  destruct (flat_failure_log_lines cfg env youtube_id start_time end_time row_number w)
    as (_ & _ & _ & _ & Haudio & Hface).
  assert (Hv1 : ∀ w1, download_video cfg env youtube_id video 0 w = (w1, Ok true) →
                      video ∈ fs w1).
  { intros w1 H1.
    destruct (download_video_effect cfg env youtube_id video (MAX_RETRIES cfg) 0 w
                ltac:(lia)) as (w1' & b & evs & lines & H1' & _ & _ & _ & _ & _ & _ & Hb & _).
    rewrite H1 in H1'. injection H1' as <- <-. apply (Hb eq_refl). }
  split.
  - intros w1 w2 Hdl Hau. split; [apply (Haudio w1 w2 Hdl Hau)|].
    destruct (flat_extract_audio_runs env video audio (Some start_time)
                (Some end_time) w1) as (w2' & b & Hau' & _ & _ & Hfs & _).
    rewrite Hau in Hau'. injection Hau' as <- _. apply Hfs, Hv1, Hdl.
  - intros w1 w2 w3 Hdl Hau Hfa. split; [apply (Hface w1 w2 w3 Hdl Hau Hfa)|].
    destruct (flat_extract_audio_runs env video audio (Some start_time)
                (Some end_time) w1) as (w2' & b & Hau' & _ & _ & Hfs2 & Ha).
    rewrite Hau in Hau'. injection Hau' as <- <-.
    destruct (flat_extract_faces_effect env video face youtube_id w2)
      as (w3' & b3 & evs & Hfa' & _ & _ & Hfs3 & _).
    rewrite Hfa in Hfa'. injection Hfa' as <- _.
    split; [apply Hfs3, Hfs2, Hv1, Hdl | apply Hfs3, Ha; reflexivity].
Qed.

(** X6 at the record [noface] of the scenario. *)
Lemma X6_witness :
  snd (Flat.process_video (config PRODUCTION) scenario_env
         ("noface", 10%float, 15%float, 2%Z) empty_world) = Ok false ∧
  Flat.video_path (config PRODUCTION) "noface"
  ∈ fs (fst (Flat.process_video (config PRODUCTION) scenario_env
               ("noface", 10%float, 15%float, 2%Z) empty_world)) ∧
  Flat.audio_path (config PRODUCTION) "noface"
  ∈ fs (fst (Flat.process_video (config PRODUCTION) scenario_env
               ("noface", 10%float, 15%float, 2%Z) empty_world)).
Proof.
  pose (w1 := fst (download_video (config PRODUCTION) scenario_env "noface"
                     (Flat.video_path (config PRODUCTION) "noface") 0 empty_world)).
  pose (w2 := fst (Flat.extract_audio scenario_env
                     (Flat.video_path (config PRODUCTION) "noface")
                     (Flat.audio_path (config PRODUCTION) "noface")
                     (Some 10%float) (Some 15%float) w1)).
  pose (w3 := fst (Flat.extract_faces scenario_env
                     (Flat.video_path (config PRODUCTION) "noface")
                     (Flat.face_path (config PRODUCTION) "noface") "noface" w2)).
  destruct (proj2 (X6_failure_leaves_video_and_audio (config PRODUCTION) scenario_env
                     "noface" 10%float 15%float 2%Z empty_world) w1 w2 w3)
    as (Hrun & Hv & Ha).
  - vm_compute. reflexivity.
  - vm_compute. reflexivity.
  - vm_compute. reflexivity.
  - rewrite Hrun. exact (conj eq_refl (conj Hv Ha)).
Defined.

(** ** The processing loop of [main] *)

Lemma flat_update_ok self success youtube_id row_number now :
  Flat.total_items self ≠ 0%Z →
  snd (Flat.update self success youtube_id row_number now) = Ok tt.
Proof.
  intros Htotal.
  unfold Flat.update, Flat._show_row_progress, Flat._show_detailed_update.
  destruct success; cbn;
    (destruct (_ || _); [|reflexivity]);
    (destruct (Z.eqb_spec (Flat.total_items self) 0); [contradiction | reflexivity]).
Qed.

Lemma flat_process_all_effect cfg env :
  ∀ data progress w,
    (data ≠ [] → Flat.total_items progress ≠ 0%Z) →
    ∃ w' t lines evs,
      Flat.process_all cfg env data progress w = (w', Ok t) ∧
      Flat.current_item t = (Flat.current_item progress + Z.of_nat (length data))%Z ∧
      (Flat.completed t + Flat.failed t
       = Flat.completed progress + Flat.failed progress + Z.of_nat (length data))%Z ∧
      (Flat.completed progress ≤ Flat.completed t)%Z ∧
      (Flat.failed progress ≤ Flat.failed t)%Z ∧
      Flat.total_items t = Flat.total_items progress ∧
      log w' = log w ++ lines ∧
      (Z.of_nat (length lines) ≤ Flat.failed t - Flat.failed progress)%Z ∧
      trace w' = trace w ++ evs.
Proof.
  induction data as [|[[[youtube_id start_time] end_time] row_number] data IH];
    intros progress w Htotal.
  - exists w, progress, [], []. rewrite !app_nil_r. cbn. repeat split; lia.
  - specialize (Htotal ltac:(discriminate)).
    cbn [Flat.process_all]. unfold bind at 1.
    destruct (flat_process_video_effect cfg env youtube_id start_time end_time
                row_number w) as (w1 & b & evs1 & lines1 & -> & Htr1 & Hlog1 & Hb & Hl).
    unfold bind at 1. unfold ask.
    pose proof (flat_update_ok progress b youtube_id row_number (time_time env w1) Htotal)
      as Hok.
    destruct (flat_update_counters progress b youtube_id row_number (time_time env w1))
      as (U1 & U2 & U3).
    destruct (flat_update_keeps progress b youtube_id row_number (time_time env w1))
      as (U4 & _).
    destruct (Flat.update progress b youtube_id row_number (time_time env w1))
      as [progress1 r]. cbn [fst snd] in *. subst r.
    destruct (IH progress1 w1 ltac:(intros _; congruence))
      as (w' & t & lines & evs & -> & H1 & H2 & H3 & H4 & H5 & Hlog & Hlen & Htr).
    exists w', t, (lines1 ++ lines), (evs1 ++ evs).
    split; [reflexivity|].
    rewrite Hlog, Hlog1, Htr, Htr1, <- !app_assoc, length_app. cbn [length].
    assert (Hl1 : (Z.of_nat (length lines1) ≤ if b then 0 else 1)%Z).
    { destruct b.
      - destruct (Hb eq_refl) as [-> _]. cbn. lia.
      - destruct Hl as [->|[e [->| ->]]]; cbn; lia. }
    destruct b; repeat split; try reflexivity; lia.
Qed.

(** X7.  The processing loop of [main] in the one-face script, started as
    [main] starts it (a fresh tracker whose [total_items] is the number of
    records), never raises and stops at no record: it ends with
    [current_item] equal to the number of records and
    [completed + failed] equal to it too, and the failure log has gained at
    most one line per failed record. *)
Theorem X7_main_loop_processes_every_record :
  ∀ cfg env data now w,
    ∃ w' t lines,
      Flat.process_all cfg env data (Flat.init (Z.of_nat (length data)) now) w
      = (w', Ok t) ∧
      Flat.current_item t = Z.of_nat (length data) ∧
      Flat.current_item t = Flat.total_items t ∧
      (Flat.completed t + Flat.failed t)%Z = Z.of_nat (length data) ∧
      (0 ≤ Flat.completed t)%Z ∧
      log w' = log w ++ lines ∧
      (Z.of_nat (length lines) ≤ Flat.failed t)%Z.
Proof.
  intros cfg env data now w.
  destruct (flat_process_all_effect cfg env data
              (Flat.init (Z.of_nat (length data)) now) w)
    as (w' & t & lines & evs & Hrun & H1 & H2 & H3 & H4 & H5 & Hlog & Hlen & _).
  { intros Hne. cbn. destruct data; [contradiction | cbn; lia]. }
  cbn in H1, H2, H3, H4, H5, Hlen.
  exists w', t, lines. repeat split; try assumption; lia.
Qed.

(** ** The files of the ten-face script *)

Lemma face_files_0 face_dir youtube_id n : face_files face_dir youtube_id n 0 = ∅.
Proof. reflexivity. Qed.

Lemma face_files_S face_dir youtube_id n k :
  face_files face_dir youtube_id n (S k)
  = {[ Nested.face_file face_dir youtube_id n ]} ∪ face_files face_dir youtube_id (S n) k.
Proof. reflexivity. Qed.

Lemma face_files_add face_dir youtube_id n k1 k2 :
  face_files face_dir youtube_id n (k1 + k2)
  = face_files face_dir youtube_id n k1 ∪ face_files face_dir youtube_id (n + k1) k2.
Proof.
  unfold face_files. rewrite seq_app, fmap_app, list_to_set_app_L. reflexivity.
Qed.

Lemma elem_of_face_files face_dir youtube_id n k p :
  p ∈ face_files face_dir youtube_id n k ↔
  ∃ i, n ≤ i < n + k ∧ p = Nested.face_file face_dir youtube_id i.
Proof.
  unfold face_files. rewrite elem_of_list_to_set, list_elem_of_fmap.
  split.
  - intros (i & -> & Hi). apply elem_of_seq in Hi. exists i. split; [lia | reflexivity].
  - intros (i & Hi & ->). exists i. split; [reflexivity|]. apply elem_of_seq. lia.
Qed.

Lemma nested_for_faces_fs face_dir youtube_id :
  ∀ faces n w,
    n < 10 →
    fs (fst (Nested.for_faces face_dir youtube_id faces n w))
    = face_files face_dir youtube_id n (length (take (10 - n) faces)) ∪ fs w.
Proof.
  induction faces as [|r rest IH]; intros n w Hn.
  - rewrite take_nil. cbn [length]. rewrite face_files_0, (left_id_L ∅ (∪)). reflexivity.
  - cbn [Nested.for_faces]. unfold bind at 1.
    destruct (cv2_imwrite_effect (Nested.face_file face_dir youtube_id n) r w)
      as (w1 & -> & _ & _ & _ & Hfs).
    replace (10 - n) with (S (10 - S n)) by lia.
    rewrite firstn_cons. cbn [length]. rewrite face_files_S.
    destruct (10 <=? S n) eqn:E.
    + apply Nat.leb_le in E. replace (10 - S n) with 0 by lia.
      rewrite take_0. cbn [length fst ret]. rewrite face_files_0, Hfs.
      rewrite (right_id_L ∅ (∪)). reflexivity.
    + apply Nat.leb_gt in E. rewrite (IH (S n) w1) by lia. rewrite Hfs.
      rewrite (assoc_L (∪)), (comm_L (∪) (face_files _ _ _ _)). reflexivity.
Qed.

Lemma nested_while_frames_fs face_dir youtube_id :
  ∀ frames frame_count n w,
    n ≤ 10 →
    fs (fst (Nested.while_frames face_dir youtube_id frames frame_count n w))
    = face_files face_dir youtube_id n
        (length (take (10 - n) (concat (sampled frame_count frames)))) ∪ fs w.
Proof.
  induction frames as [|frame rest IH]; intros frame_count n w Hn;
    rewrite nested_while_frames_unfold;
    destruct (n <? 10) eqn:Elt; cbn [negb].
  - cbn [sampled concat]. rewrite take_nil. cbn [length fst ret].
    rewrite face_files_0, (left_id_L ∅ (∪)). reflexivity.
  - cbn [sampled concat]. rewrite take_nil. cbn [length fst ret].
    rewrite face_files_0, (left_id_L ∅ (∪)). reflexivity.
  - apply Nat.ltb_lt in Elt. rewrite sampled_cons.
    destruct (S frame_count mod 30 =? 0) eqn:E; cbn [negb]; [|apply IH; exact Hn].
    unfold bind at 1. unfold detectMultiScale, bind, act, ret.
    pose proof (nested_for_faces_fs face_dir youtube_id frame n
                  (emit (EvDetect (S frame_count)) w) Elt) as Hfs1.
    destruct (nested_for_faces_effect face_dir youtube_id frame n
                (emit (EvDetect (S frame_count)) w) Elt) as (w1 & evs1 & Hrun1 & _).
    rewrite Hrun1 in Hfs1 |- *. cbn [fst emit fs] in Hfs1.
    set (k1 := length (take (10 - n) frame)) in *.
    assert (Hk1 : k1 = Nat.min (10 - n) (length frame)) by apply length_take.
    rewrite (IH (S frame_count) (n + k1) w1) by lia.
    cbn [concat]. rewrite take_app, length_app. fold k1.
    replace (10 - n - length frame) with (10 - (n + k1)) by lia.
    rewrite face_files_add, Hfs1.
    rewrite (assoc_L (∪)), (comm_L (∪) (face_files _ _ (n + k1) _)). reflexivity.
  - apply Nat.ltb_ge in Elt. replace (10 - n) with 0 by lia.
    rewrite take_0. cbn [length fst ret].
    rewrite face_files_0, (left_id_L ∅ (∪)). reflexivity.
Qed.

Lemma nested_extract_faces_fs env video_path face_dir youtube_id w :
  fs (fst (Nested.extract_faces env video_path face_dir youtube_id w))
  = face_files face_dir youtube_id 0
      (Nat.min 10 (length (sampled_faces env video_path w))) ∪ fs w.
Proof.
  unfold Nested.extract_faces, try_except, sampled_faces.
  destruct (cv2_VideoCapture env video_path w) as [msg| |frames];
    [change (Nat.min 10 (length [])) with 0;
     rewrite face_files_0, (left_id_L ∅ (∪)); reflexivity ..|].
  pose proof (nested_while_frames_fs face_dir youtube_id frames 0 0 w ltac:(lia)) as Hfs.
  destruct (nested_while_frames_effect face_dir youtube_id frames 0 0 w ltac:(lia))
    as (w' & evs & Hrun & _).
  unfold bind. rewrite Hrun in Hfs |- *. cbn [fst ret] in *.
  rewrite Hfs, length_take. reflexivity.
Qed.

Lemma length_append s t : String.length (s +:+ t) = String.length s + String.length t.
Proof.
  induction s as [|c s IH]; [reflexivity|].
  change (String c s +:+ t) with (String c (s +:+ t)). cbn [String.length].
  rewrite IH. reflexivity.
Qed.

Lemma append_inv_tail s s' t : s +:+ t = s' +:+ t → s = s'.
Proof.
  revert s'. induction s as [|a s IH]; intros [|b s'] H.
  - reflexivity.
  - apply (f_equal String.length) in H. rewrite !length_append in H.
    cbn [String.length] in H. lia.
  - apply (f_equal String.length) in H. rewrite !length_append in H.
    cbn [String.length] in H. lia.
  - change (String a (s +:+ t) = String b (s' +:+ t)) in H.
    injection H as -> H. f_equal. apply IH, H.
Qed.

(** X8.  In the ten-face script the crops of one record go to different
    files: the file names of two crop numbers coincide only when the
    numbers do, so no crop overwrites another. *)
Theorem X8_face_files_are_distinct :
  ∀ face_dir youtube_id (i j : nat),
    Nested.face_file face_dir youtube_id i = Nested.face_file face_dir youtube_id j →
    i = j.
Proof.
  intros face_dir youtube_id i j H.
  unfold Nested.face_file, os_path_join in H.
  assert (Hsw : startswith "/" (youtube_id +:+ "_face_" +:+ pretty i +:+ ".jpg")
                = startswith "/" (youtube_id +:+ "_face_" +:+ pretty j +:+ ".jpg"))
    by (destruct youtube_id; reflexivity).
  rewrite Hsw in H.
  assert (Hfile : youtube_id +:+ "_face_" +:+ pretty i +:+ ".jpg"
                  = youtube_id +:+ "_face_" +:+ pretty j +:+ ".jpg").
  { destruct (startswith "/" _); [exact H|].
    destruct (last_char face_dir) as [c|]; [|exact H].
    destruct (Ascii.eqb c "/").
    - apply (inj (String.app face_dir)) in H. exact H.
    - apply (inj (String.app face_dir)), (inj (String.app "/")) in H. exact H. }
  apply (inj (String.app youtube_id)), (inj (String.app "_face_")) in Hfile.
  apply append_inv_tail in Hfile. apply (inj pretty) in Hfile. exact Hfile.
Qed.

(** X8 at the crops 3 and 3 of a record. *)
Lemma X8_witness :
  Nested.face_file "dataset_production/faces/abc" "abc" 3
  = "dataset_production/faces/abc/abc_face_3.jpg" ∧ 3 = 3.
Proof.
  split; [vm_compute; reflexivity|].
  exact (X8_face_files_are_distinct "dataset_production/faces/abc" "abc" 3 3 eq_refl).
Defined.

(** ** [process_video], up to ten faces per video: what success leaves *)

Lemma nested_audio_path_not_video cfg youtube_id :
  Nested.audio_path cfg youtube_id ≠ Nested.video_path cfg youtube_id.
Proof.
  intros H. apply (f_equal last_char) in H.
  unfold Nested.audio_path, Nested.video_path in H.
  rewrite !last_char_file in H by discriminate. discriminate H.
Qed.

Lemma nested_face_file_not_video cfg face_dir youtube_id i :
  Nested.face_file face_dir youtube_id i ≠ Nested.video_path cfg youtube_id.
Proof.
  intros H. apply (f_equal last_char) in H.
  unfold Nested.face_file, Nested.video_path in H.
  rewrite last_char_file in H by discriminate.
  rewrite last_char_join in H by (apply append_nonempty; discriminate).
  rewrite !last_char_app in H by (try apply append_nonempty; discriminate).
  discriminate H.
Qed.

Lemma nested_extract_audio_effect env video_path audio_path w :
  ∃ w' b,
    Nested.extract_audio env video_path audio_path w = (w', Ok b) ∧
    log w' = log w ∧
    fs w ⊆ fs w' ∧
    (b = true → audio_path ∈ fs w').
Proof.
  unfold Nested.extract_audio, try_except, bind, os_path_exists, ask, ret.
  unfold ffmpeg_run_quiet.
  destruct (ffmpeg_run env _ w) as [msg|[|]]; cbn;
    (eexists _, _; split; [reflexivity|]); cbn; split; try reflexivity;
    (split; [try reflexivity; try apply union_subseteq_r|]);
    try discriminate;
    intros H; apply bool_decide_eq_true in H; exact H.
Qed.

(** X9.  When [process_video] of the ten-face script returns [True], the
    audio file of the record exists, its video file does not, and between
    one and ten face crops exist, in the files numbered from 0 on. *)
Theorem X9_nested_success_leaves_audio_and_faces :
  ∀ cfg env youtube_id start_time end_time w w',
    Nested.process_video cfg env (youtube_id, start_time, end_time) w = (w', Ok true) →
    Nested.audio_path cfg youtube_id ∈ fs w' ∧
    (Nested.video_path cfg youtube_id ∉ fs w') ∧
    ∃ k, 1 ≤ k ≤ 10 ∧
         ∀ i, i < k →
              Nested.face_file (Nested.face_dir cfg youtube_id) youtube_id i ∈ fs w'.
Proof.
  intros cfg env youtube_id start_time end_time w w' Hrun.
  rewrite nested_process_video_makedirs in Hrun.
  destruct (os_makedirs_error env (Nested.face_dir cfg youtube_id) w);
    [discriminate Hrun|].
  unfold try_except, Nested.process_video_body in Hrun. unfold bind at 1 in Hrun.
  destruct (download_video_effect cfg env youtube_id (Nested.video_path cfg youtube_id)
              (MAX_RETRIES cfg) 0 (create (Nested.face_dir cfg youtube_id) w) ltac:(lia))
    as (w1 & b1 & evs1 & lines1 & Hrun1 & _).
  rewrite Hrun1 in Hrun.
  destruct b1; cbn [negb] in Hrun; [|discriminate Hrun].
  unfold bind at 1 in Hrun.
  destruct (nested_extract_audio_effect env (Nested.video_path cfg youtube_id)
              (Nested.audio_path cfg youtube_id) w1) as (w2 & b2 & Hrun2 & _ & _ & Ha2).
  rewrite Hrun2 in Hrun.
  destruct b2; cbn [negb] in Hrun; [|discriminate Hrun].
  unfold bind at 1 in Hrun.
  pose proof (nested_extract_faces_fs env (Nested.video_path cfg youtube_id)
                (Nested.face_dir cfg youtube_id) youtube_id w2) as Hfs3.
  destruct (nested_extract_faces_effect env (Nested.video_path cfg youtube_id)
              (Nested.face_dir cfg youtube_id) youtube_id w2)
    as (w3 & b3 & evs3 & Hrun3 & _ & _ & _ & Him & Hb3 & _).
  rewrite Hrun3 in Hrun, Hfs3. cbn [fst] in Hfs3.
  destruct b3; cbn [negb] in Hrun; [|discriminate Hrun].
  set (k := Nat.min 10 (length (sampled_faces env (Nested.video_path cfg youtube_id) w2)))
    in *.
  assert (Hk : 1 ≤ k ≤ 10).
  { assert (Hk10 : k ≤ 10) by (subst k; lia).
    rewrite Him, length_crops_from, length_take in Hb3. fold k in Hb3.
    destruct (k =? 0) eqn:E; [discriminate Hb3|]. apply Nat.eqb_neq in E. lia. }
  assert (Ha3 : Nested.audio_path cfg youtube_id ∈ fs w3).
  { rewrite Hfs3. apply elem_of_union_r, Ha2. reflexivity. }
  assert (Hf3 : ∀ i, i < k →
                     Nested.face_file (Nested.face_dir cfg youtube_id) youtube_id i
                     ∈ fs w3).
  { intros i Hi. rewrite Hfs3. apply elem_of_union_l, elem_of_face_files.
    exists i. split; [lia | reflexivity]. }
  pose proof (nested_audio_path_not_video cfg youtube_id) as Hav.
  unfold bind at 1 in Hrun. unfold os_path_exists, ask in Hrun.
  destruct (bool_decide (Nested.video_path cfg youtube_id ∈ fs w3)) eqn:Hthere.
  - unfold bind at 1 in Hrun.
    destruct (os_remove_effect env (Nested.video_path cfg youtube_id) w3) as [[e He] | He];
      rewrite He in Hrun; cbn in Hrun; [discriminate Hrun|].
    injection Hrun as <-. cbn [unlink emit fs].
    split; [apply elem_of_difference; rewrite elem_of_singleton; auto|].
    split; [rewrite elem_of_difference, elem_of_singleton; tauto|].
    exists k. split; [exact Hk|]. intros i Hi.
    apply elem_of_difference. rewrite elem_of_singleton. split; [apply Hf3, Hi|].
    apply nested_face_file_not_video.
  - apply bool_decide_eq_false in Hthere. cbn in Hrun. injection Hrun as <-.
    split; [exact Ha3|]. split; [exact Hthere|]. exists k. split; [exact Hk | exact Hf3].
Qed.

(** X9 at the record [good] of the scenario: one crop. *)
Lemma X9_witness :
  Nested.audio_path (config PRODUCTION) "good"
  ∈ fs (fst (Nested.process_video (config PRODUCTION) scenario_env
               ("good", 0%float, 0%float) empty_world)) ∧
  (Nested.video_path (config PRODUCTION) "good"
   ∉ fs (fst (Nested.process_video (config PRODUCTION) scenario_env
                ("good", 0%float, 0%float) empty_world))).
Proof.
  destruct (X9_nested_success_leaves_audio_and_faces (config PRODUCTION) scenario_env
              "good" 0%float 0%float empty_world
              (fst (Nested.process_video (config PRODUCTION) scenario_env
                      ("good", 0%float, 0%float) empty_world)))
    as (Ha & Hv & _).
  - vm_compute. reflexivity.
  - exact (conj Ha Hv).
Defined.

(** ** Where the artifacts go *)

Lemma startswith_append a b : startswith a (a +:+ b) = true.
Proof.
  induction a as [|c a IH]; [reflexivity|].
  change (String c a +:+ b) with (String c (a +:+ b)). cbn [startswith].
  rewrite Ascii.eqb_refl. exact IH.
Qed.

Lemma last_char_None s : last_char s = None → s = EmptyString.
Proof.
  induction s as [|c s IH]; [reflexivity|].
  intros H. destruct s as [|c' s]; [discriminate H|].
  change (last_char (String c' s) = None) in H. apply IH in H. discriminate H.
Qed.

Lemma os_path_join_relative dir name :
  startswith "/" name = false → startswith dir (os_path_join dir name) = true.
Proof.
  intros Hrel. unfold os_path_join. rewrite Hrel.
  destruct (last_char dir) as [c|] eqn:Hlast.
  - destruct (Ascii.eqb c "/"); apply startswith_append.
  - apply last_char_None in Hlast. subst dir. reflexivity.
Qed.

Lemma os_path_join_absolute dir name :
  startswith "/" name = true → os_path_join dir name = name.
Proof. intros Habs. unfold os_path_join. rewrite Habs. reflexivity. Qed.

Lemma startswith_slash_stem stem suffix :
  stem ≠ EmptyString → startswith "/" (stem +:+ suffix) = startswith "/" stem.
Proof. destruct stem as [|c stem]; [contradiction | reflexivity]. Qed.

(** X10.  The artifacts of a record whose identifier does not begin with
    [/] lie under the configured directories: the video under
    [OUTPUT_DIR], the audio under [AUDIO_DIR], the face under [FACE_DIR].
    An identifier that begins with [/] sends all three outside them, to
    the identifier itself followed by the artifact's suffix. *)
Theorem X10_artifacts_and_output_directories :
  ∀ cfg youtube_id,
    youtube_id ≠ EmptyString →
    (startswith "/" youtube_id = false →
     startswith (OUTPUT_DIR cfg) (Flat.video_path cfg youtube_id) = true ∧
     startswith (AUDIO_DIR cfg) (Flat.audio_path cfg youtube_id) = true ∧
     startswith (FACE_DIR cfg) (Flat.face_path cfg youtube_id) = true) ∧
    (startswith "/" youtube_id = true →
     Flat.video_path cfg youtube_id = youtube_id +:+ "_full.mp4" ∧
     Flat.audio_path cfg youtube_id = youtube_id +:+ "_audio.wav" ∧
     Flat.face_path cfg youtube_id = youtube_id +:+ "_face.jpg").
Proof.
  intros cfg youtube_id Hne.
  unfold Flat.video_path, Flat.audio_path, Flat.face_path.
  split; intros H.
  - repeat split; apply os_path_join_relative;
      rewrite startswith_slash_stem by exact Hne; exact H.
  - repeat split; apply os_path_join_absolute;
      rewrite startswith_slash_stem by exact Hne; exact H.
Qed.

(** X10 at an absolute identifier in PRODUCTION mode. *)
Lemma X10_witness :
  "/tmp/x" ≠ EmptyString ∧
  Flat.video_path (config PRODUCTION) "/tmp/x" = "/tmp/x_full.mp4" ∧
  Flat.audio_path (config PRODUCTION) "/tmp/x" = "/tmp/x_audio.wav" ∧
  Flat.face_path (config PRODUCTION) "/tmp/x" = "/tmp/x_face.jpg".
Proof.
  split; [discriminate|].
  exact (proj2 (X10_artifacts_and_output_directories (config PRODUCTION) "/tmp/x"
                  ltac:(discriminate)) eq_refl).
Defined.

(** ** [main] of the one-face script *)

(** X11.  [main] of the one-face script does nothing when the CSV file is
    missing or cannot be loaded; on a non-empty list of records it
    processes every record and returns; on an empty list it processes
    nothing and then raises the division by zero of the summary. *)
Theorem X11_main_and_the_empty_record_list :
  ∀ cfg env load w,
    (CSV_PATH cfg ∉ fs w → FlatMain.main cfg env load w = (w, Ok tt)) ∧
    (∀ e, CSV_PATH cfg ∈ fs w → load w = Raise e →
          FlatMain.main cfg env load w = (w, Ok tt)) ∧
    (CSV_PATH cfg ∈ fs w → load w = Ok [] →
     FlatMain.main cfg env load w = (w, Raise "division by zero")) ∧
    (∀ data, CSV_PATH cfg ∈ fs w → load w = Ok data → data ≠ [] →
             ∃ w' t,
               FlatMain.main cfg env load w = (w', Ok tt) ∧
               Flat.process_all cfg env data
                 (Flat.init (Z.of_nat (length data)) (time_time env w)) w = (w', Ok t) ∧
               Flat.current_item t = Z.of_nat (length data)).
Proof.
  intros cfg env load w. unfold FlatMain.main, bind, os_path_exists, ask, ret, raise.
  split; [|split; [|split]].
  - intros Hno. rewrite bool_decide_eq_false_2 by exact Hno. reflexivity.
  - intros e Hcsv Hload. rewrite bool_decide_eq_true_2 by exact Hcsv. cbn [negb].
    rewrite Hload. reflexivity.
  - intros Hcsv Hload. rewrite bool_decide_eq_true_2 by exact Hcsv. cbn [negb].
    rewrite Hload. reflexivity.
  - intros data Hcsv Hload Hne. rewrite bool_decide_eq_true_2 by exact Hcsv. cbn [negb].
    rewrite Hload.
    destruct (flat_process_all_effect cfg env data
                (Flat.init (Z.of_nat (length data)) (time_time env w)) w)
      as (w' & t & lines & evs & Hrun & Hcur & _).
    { intros _. cbn. destruct data; [contradiction | cbn; lia]. }
    rewrite Hrun. exists w', t.
    destruct data as [|r data]; [contradiction|].
    split; [reflexivity|]. split; [reflexivity | exact Hcur].
Qed.

(** X11 at a CSV file whose rows all lack an identifier. *)
Lemma X11_witness :
  CSV_PATH (config PRODUCTION) ∈ fs csv_world ∧
  FlatMain.main (config PRODUCTION) scenario_env (fun _ => Ok []) csv_world
  = (csv_world, Raise "division by zero").
Proof.
  assert (H : CSV_PATH (config PRODUCTION) ∈ fs csv_world)
    by (unfold csv_world; cbn [fs]; apply elem_of_singleton; reflexivity).
  split; [exact H|].
  exact (proj1 (proj2 (proj2 (X11_main_and_the_empty_record_list (config PRODUCTION)
                                scenario_env (fun _ => Ok []) csv_world)))
           H eq_refl).
Defined.

(** * Properties of the setup script *)

(** ** Running commands *)

Lemma subprocess_check_call_spec host cmd m :
  Setup.subprocess_check_call host cmd m
  = (ran cmd m, check_call_result (Setup.spawn host cmd m)).
Proof.
  unfold Setup.subprocess_check_call, Setup.bind, Setup.subprocess_run, ran,
    check_call_result.
  destruct (Setup.spawn host cmd m) as [returncode| | |msg]; try reflexivity.
  destruct (returncode =? 0)%Z; reflexivity.
Qed.

(** One guarded [check_call]: [try: check_call(cmd); True] with an
    [except] clause that gives [False]. *)
Lemma guarded_check_call_spec host cmd caught m :
  Setup.try_except
    (Setup.bind (Setup.subprocess_check_call host cmd) (fun _ => Setup.ret true))
    caught (fun _ => Setup.ret false) m
  = (ran cmd m,
     match check_call_result (Setup.spawn host cmd m) with
     | Setup.Ok _ => Setup.Ok true
     | Setup.Raise e => if caught e then Setup.Ok false else Setup.Raise e
     end).
Proof.
  unfold Setup.try_except, Setup.bind. rewrite subprocess_check_call_spec.
  destruct (check_call_result _) as [[]|e]; [reflexivity|].
  destruct (caught e); reflexivity.
Qed.

(** ** Machines after a sequence of commands *)

Lemma ran_all_runs cmds :
  ∀ m, Setup.runs (ran_all cmds m) = Setup.runs m ++ cmds.
Proof.
  induction cmds as [|cmd cmds IH]; intros m; cbn [ran_all foldl].
  - rewrite app_nil_r. reflexivity.
  - change (foldl (fun m cmd => ran cmd m) (ran cmd m) cmds) with (ran_all cmds (ran cmd m)).
    rewrite IH. cbn [ran Setup.runs]. rewrite <- app_assoc. reflexivity.
Qed.

Lemma ran_all_files cmds :
  ∀ m, Setup.files (ran_all cmds m) = Setup.files m ∧
       Setup.PATH (ran_all cmds m) = Setup.PATH m.
Proof.
  induction cmds as [|cmd cmds IH]; intros m; cbn [ran_all foldl]; [split; reflexivity|].
  change (foldl (fun m cmd => ran cmd m) (ran cmd m) cmds) with (ran_all cmds (ran cmd m)).
  destruct (IH (ran cmd m)) as [-> ->]. split; reflexivity.
Qed.

Lemma guarded_check_call_result host cmd caught m :
  Setup.try_except
    (Setup.bind (Setup.subprocess_check_call host cmd) (fun _ => Setup.ret true))
    caught (fun _ => Setup.ret false) m
  = (ran cmd m, guarded_result caught (Setup.spawn host cmd m)).
Proof. apply guarded_check_call_spec. Qed.

Lemma guarded_result_true caught o :
  guarded_result caught o = Setup.Ok true ↔ o = Setup.Exited 0.
Proof.
  unfold guarded_result, check_call_result.
  destruct o as [returncode| | |msg].
  - destruct (Z.eqb_spec returncode 0) as [->|Hcode].
    + split; reflexivity.
    + destruct (caught _); split; try discriminate; intros [= ?]; contradiction.
  - destruct (caught _); split; discriminate.
  - destruct (caught _); split; discriminate.
  - destruct (caught _); split; discriminate.
Qed.

(** ** [install_pip_packages] *)

Lemma install_each_effect host :
  ∀ todo m,
    ∃ m' r k,
      Setup.install_each host todo m = (m', r) ∧
      k ≤ length todo ∧
      Setup.runs m' = Setup.runs m ++ (Setup.pip_install host <$> take k todo) ∧
      (r = Setup.Ok true → k = length todo).
Proof.
  induction todo as [|package rest IH]; intros m.
  - exists m, (Setup.Ok true), 0. cbn. rewrite app_nil_r.
    repeat split; try done; try lia.
  - cbn [Setup.install_each]. unfold Setup.bind at 1.
    rewrite guarded_check_call_spec.
    destruct (Setup.spawn host (Setup.pip_install host package) m)
      as [returncode| | |msg] eqn:Hspawn; cbn [check_call_result].
    + destruct (Z.eqb_spec returncode 0) as [->|Hcode].
      * destruct (IH (ran (Setup.pip_install host package) m))
          as (m' & r & k & -> & Hk & Hruns & Hall).
        exists m', r, (S k). split; [reflexivity|]. cbn [length firstn fmap list_fmap].
        rewrite Hruns. cbn [ran Setup.runs]. rewrite <- app_assoc.
        repeat split; try done; try lia.
        intros Hr. rewrite (Hall Hr). reflexivity.
      * exists (ran (Setup.pip_install host package) m), (Setup.Ok false), 1.
        cbn. split; [reflexivity|]. repeat split; try done; try lia.
    + eexists _, _, 1. cbn. split; [reflexivity|]. repeat split; try done; try lia.
    + eexists _, _, 1. cbn. split; [reflexivity|]. repeat split; try done; try lia.
    + eexists _, _, 1. cbn. split; [reflexivity|]. repeat split; try done; try lia.
Qed.

(** The loop of [install_pip_packages] on a non-empty list: the commands
    run, the machine each of them ran on, and the result. *)
Lemma install_each_trace host :
  ∀ rest package m,
    let cmds := Setup.pip_install host <$> (package :: rest) in
    ∃ k cmd,
      1 ≤ k ≤ length cmds ∧
      Setup.install_each host (package :: rest) m
      = (ran_all (take k cmds) m,
         guarded_result Setup.is_CalledProcessError
           (Setup.spawn host cmd (ran_all (take (k - 1) cmds) m))) ∧
      (∀ i c, i < k - 1 → cmds !! i = Some c →
              Setup.spawn host c (ran_all (take i cmds) m) = Setup.Exited 0) ∧
      cmds !! (k - 1) = Some cmd ∧
      (Setup.spawn host cmd (ran_all (take (k - 1) cmds) m) = Setup.Exited 0 →
       k = length cmds).
Proof.
  induction rest as [|next rest IH]; intros package m cmds; subst cmds.
  - exists 1, (Setup.pip_install host package).
    split; [cbn; lia|]. split; [|split; [|split]].
    + cbn [Setup.install_each]. unfold Setup.bind at 1.
      rewrite guarded_check_call_result.
      destruct (guarded_result _ _) as [[|]|e]; reflexivity.
    + intros i c Hi. cbn in Hi. lia.
    + reflexivity.
    + reflexivity.
  - set (cmd := Setup.pip_install host package).
    destruct (guarded_result Setup.is_CalledProcessError (Setup.spawn host cmd m))
      as [[|]|e] eqn:Hfirst.
    + apply guarded_result_true in Hfirst as Hzero.
      destruct (IH next (ran cmd m)) as (k & last & Hk & Hrun & Hbefore & Hlast & Hend).
      destruct k as [|k]; [lia|].
      cbn [Nat.sub] in Hrun, Hbefore, Hlast, Hend. rewrite Nat.sub_0_r in *.
      exists (S (S k)), last.
      split; [cbn [length fmap list_fmap] in *; lia|]. split; [|split; [|split]].
      * cbn [Setup.install_each]. unfold Setup.bind at 1.
        rewrite guarded_check_call_result. fold cmd. rewrite Hfirst.
        exact Hrun.
      * intros [|i] c Hi Hc.
        -- injection Hc as <-. exact Hzero.
        -- apply (Hbefore i c); [cbn in Hi; lia | exact Hc].
      * exact Hlast.
      * intros Hz. specialize (Hend Hz). cbn [length fmap list_fmap] in *. lia.
    + exists 1, cmd. split; [cbn; lia|]. split; [|split; [|split]].
      * cbn [Setup.install_each]. unfold Setup.bind at 1.
        rewrite guarded_check_call_result. fold cmd. rewrite Hfirst.
        cbn. rewrite Hfirst. reflexivity.
      * intros i c Hi. cbn in Hi. lia.
      * reflexivity.
      * cbn. intros Hz. apply (guarded_result_true Setup.is_CalledProcessError) in Hz.
        rewrite Hz in Hfirst. discriminate Hfirst.
    + exists 1, cmd. split; [cbn; lia|]. split; [|split; [|split]].
      * cbn [Setup.install_each]. unfold Setup.bind at 1.
        rewrite guarded_check_call_result. fold cmd. rewrite Hfirst.
        cbn. rewrite Hfirst. reflexivity.
      * intros i c Hi. cbn in Hi. lia.
      * reflexivity.
      * cbn. intros Hz. apply (guarded_result_true Setup.is_CalledProcessError) in Hz.
        rewrite Hz in Hfirst. discriminate Hfirst.
Qed.

(** X12.  [install_pip_packages] runs [pip install] for the packages in
    the order of its list and stops at the first command that does not end
    with code 0.  The commands run are those of the first [k] packages,
    each on the machine that the commands before it left.  Every command
    before the last one run ended with code 0.  The last one run decides
    the result: [True] when it ended with code 0, and then all seven were
    run; [False] when it ended with another code; its exception when it
    could not be run.  Neither the working directory nor [PATH]
    changes. *)
Theorem X12_install_pip_packages_stops_at_first_failure :
  ∀ host m,
    let cmds := Setup.pip_install host <$> Setup.packages in
    ∃ k r cmd,
      1 ≤ k ≤ 7 ∧
      Setup.install_pip_packages host m = (ran_all (take k cmds) m, r) ∧
      Setup.runs (ran_all (take k cmds) m) = Setup.runs m ++ take k cmds ∧
      Setup.files (ran_all (take k cmds) m) = Setup.files m ∧
      Setup.PATH (ran_all (take k cmds) m) = Setup.PATH m ∧
      (∀ i c, i < k - 1 → cmds !! i = Some c →
              Setup.spawn host c (ran_all (take i cmds) m) = Setup.Exited 0) ∧
      cmds !! (k - 1) = Some cmd ∧
      let last := Setup.spawn host cmd (ran_all (take (k - 1) cmds) m) in
      (r = Setup.Ok true ↔ last = Setup.Exited 0) ∧
      (r = Setup.Ok true → k = 7) ∧
      (r = Setup.Ok false ↔ ∃ returncode, returncode ≠ 0%Z ∧ last = Setup.Exited returncode) ∧
      (∀ e, r = Setup.Raise e ↔
            check_call_result last = Setup.Raise e ∧
            Setup.is_CalledProcessError e = false).
Proof.
  intros host m cmds.
  destruct (install_each_trace host (tail Setup.packages) (hd EmptyString Setup.packages) m)
    as (k & cmd & Hk & Hrun & Hbefore & Hlast & Hend).
  change (Setup.pip_install host <$> hd EmptyString Setup.packages :: tail Setup.packages)
    with cmds in *.
  change (Setup.install_each host (hd EmptyString Setup.packages :: tail Setup.packages))
    with (Setup.install_pip_packages host) in Hrun.
  change (length cmds) with 7 in *.
  exists k, (guarded_result Setup.is_CalledProcessError
               (Setup.spawn host cmd (ran_all (take (k - 1) cmds) m))), cmd.
  split; [exact Hk|]. split; [exact Hrun|].
  split; [apply ran_all_runs|].
  split; [apply ran_all_files|]. split; [apply ran_all_files|].
  split; [exact Hbefore|]. split; [exact Hlast|].
  cbv zeta.
  set (last := Setup.spawn host cmd (ran_all (take (k - 1) cmds) m)) in *.
  split; [apply guarded_result_true|].
  split; [intros Hr; apply guarded_result_true in Hr; exact (Hend Hr)|].
  unfold guarded_result, check_call_result.
  destruct last as [returncode| | |msg]; cbn [Setup.is_CalledProcessError].
  - destruct (Z.eqb_spec returncode 0) as [->|Hcode]; cbn [Setup.is_CalledProcessError].
    + split.
      * split; [discriminate|]. intros (rc & Hrc & [= <-]). contradiction.
      * intros e. split; [discriminate | intros [[=] _]].
    + split.
      * split; [intros _; exists returncode; split; [exact Hcode | reflexivity] | reflexivity].
      * intros e. split; [discriminate|]. intros [[= <-] Hc]. discriminate Hc.
  - split.
    + split; [discriminate | intros (rc & _ & [=])].
    + intros e. split; [intros [= <-]; split; reflexivity | intros [[= <-] _]; reflexivity].
  - split.
    + split; [discriminate | intros (rc & _ & [=])].
    + intros e. split; [intros [= <-]; split; reflexivity | intros [[= <-] _]; reflexivity].
  - split.
    + split; [discriminate | intros (rc & _ & [=])].
    + intros e. split; [intros [= <-]; split; reflexivity | intros [[= <-] _]; reflexivity].
Qed.

(** ** [install_ffmpeg_linux] *)

(** The loop of [install_ffmpeg_linux] on a non-empty list: the commands
    run, the machine each of them ran on, and the result. *)
Lemma try_managers_trace host :
  ∀ rest manager m,
    let cmds := Setup.manager_command <$> (manager :: rest) in
    ∃ k cmd,
      1 ≤ k ≤ length cmds ∧
      Setup.try_managers host (manager :: rest) m
      = (ran_all (take k cmds) m,
         guarded_result Setup.is_CalledProcessError_or_TimeoutExpired
           (Setup.spawn host cmd (ran_all (take (k - 1) cmds) m))) ∧
      (∀ i c, i < k - 1 → cmds !! i = Some c →
              guarded_result Setup.is_CalledProcessError_or_TimeoutExpired
                (Setup.spawn host c (ran_all (take i cmds) m)) = Setup.Ok false) ∧
      cmds !! (k - 1) = Some cmd ∧
      (guarded_result Setup.is_CalledProcessError_or_TimeoutExpired
         (Setup.spawn host cmd (ran_all (take (k - 1) cmds) m)) = Setup.Ok false →
       k = length cmds).
Proof.
  induction rest as [|next rest IH]; intros manager m cmds; subst cmds.
  - exists 1, (Setup.manager_command manager).
    split; [cbn; lia|]. split; [|split; [|split]].
    + cbn [Setup.try_managers]. unfold Setup.bind at 1.
      rewrite guarded_check_call_result.
      destruct (guarded_result _ _) as [[|]|e]; reflexivity.
    + intros i c Hi. cbn in Hi. lia.
    + reflexivity.
    + reflexivity.
  - set (cmd := Setup.manager_command manager).
    destruct (guarded_result Setup.is_CalledProcessError_or_TimeoutExpired
                (Setup.spawn host cmd m)) as [[|]|e] eqn:Hfirst.
    + exists 1, cmd. split; [cbn; lia|]. split; [|split; [|split]].
      * cbn [Setup.try_managers]. unfold Setup.bind at 1.
        rewrite guarded_check_call_result. fold cmd. rewrite Hfirst.
        cbn. rewrite Hfirst. reflexivity.
      * intros i c Hi. cbn in Hi. lia.
      * reflexivity.
      * cbn. rewrite Hfirst. discriminate.
    + destruct (IH next (ran cmd m)) as (k & last & Hk & Hrun & Hbefore & Hlast & Hend).
      destruct k as [|k]; [lia|].
      cbn [Nat.sub] in Hrun, Hbefore, Hlast, Hend. rewrite Nat.sub_0_r in *.
      exists (S (S k)), last.
      split; [cbn [length fmap list_fmap] in *; lia|]. split; [|split; [|split]].
      * cbn [Setup.try_managers]. unfold Setup.bind at 1.
        rewrite guarded_check_call_result. fold cmd. rewrite Hfirst.
        exact Hrun.
      * intros [|i] c Hi Hc.
        -- injection Hc as <-. exact Hfirst.
        -- apply (Hbefore i c); [cbn in Hi; lia | exact Hc].
      * exact Hlast.
      * intros Hz. specialize (Hend Hz). cbn [length fmap list_fmap] in *. lia.
    + exists 1, cmd. split; [cbn; lia|]. split; [|split; [|split]].
      * cbn [Setup.try_managers]. unfold Setup.bind at 1.
        rewrite guarded_check_call_result. fold cmd. rewrite Hfirst.
        cbn. rewrite Hfirst. reflexivity.
      * intros i c Hi. cbn in Hi. lia.
      * reflexivity.
      * cbn. rewrite Hfirst. discriminate.
Qed.

Lemma guarded_result_false caught o :
  guarded_result caught o = Setup.Ok false ↔
  ∃ e, check_call_result o = Setup.Raise e ∧ caught e = true.
Proof.
  unfold guarded_result. destruct (check_call_result o) as [[]|e].
  - split; [discriminate | intros (e & [=] & _)].
  - destruct (caught e) eqn:Hcaught.
    + split; [intros _; exists e; split; [reflexivity | exact Hcaught] | reflexivity].
    + split; [discriminate|]. intros (e' & [= <-] & Hc). congruence.
Qed.

(** X13.  [install_ffmpeg_linux] never raises.  It runs the commands of
    its package managers in list order ([bash -c] of the [apt-get] line,
    then [yum], [dnf], [pacman]): those of the first [k] managers, each on
    the machine that the commands before it left.  Every command before
    the last one run raised [CalledProcessError] or [TimeoutExpired].  The
    result is [True] exactly when the last command run ended with code 0.
    When the result is [False] before the fourth manager, the last command
    run raised something other than these two (the program was not found,
    or another error): such an exception ends the search. *)
Theorem X13_install_ffmpeg_linux_search :
  ∀ host m,
    let cmds := Setup.manager_command <$> Setup.package_managers in
    ∃ k b cmd,
      1 ≤ k ≤ 4 ∧
      Setup.install_ffmpeg_linux host m = (ran_all (take k cmds) m, Setup.Ok b) ∧
      Setup.runs (ran_all (take k cmds) m) = Setup.runs m ++ take k cmds ∧
      Setup.files (ran_all (take k cmds) m) = Setup.files m ∧
      (∀ i c, i < k - 1 → cmds !! i = Some c →
              ∃ e, check_call_result (Setup.spawn host c (ran_all (take i cmds) m))
                   = Setup.Raise e ∧
                   Setup.is_CalledProcessError_or_TimeoutExpired e = true) ∧
      cmds !! (k - 1) = Some cmd ∧
      let last := Setup.spawn host cmd (ran_all (take (k - 1) cmds) m) in
      (b = true ↔ last = Setup.Exited 0) ∧
      (b = false → k < 4 →
       ∃ e, check_call_result last = Setup.Raise e ∧
            Setup.is_CalledProcessError_or_TimeoutExpired e = false).
Proof.
  intros host m cmds.
  destruct (try_managers_trace host (tail Setup.package_managers)
              (hd [] Setup.package_managers) m)
    as (k & cmd & Hk & Hrun & Hbefore & Hlast & Hend).
  change (Setup.manager_command <$>
            hd [] Setup.package_managers :: tail Setup.package_managers)
    with cmds in *.
  change (Setup.try_managers host
            (hd [] Setup.package_managers :: tail Setup.package_managers))
    with (Setup.try_managers host Setup.package_managers) in Hrun.
  change (length cmds) with 4 in *.
  set (last := Setup.spawn host cmd (ran_all (take (k - 1) cmds) m)) in *.
  set (r := guarded_result Setup.is_CalledProcessError_or_TimeoutExpired last) in *.
  exists k, (match r with Setup.Ok b => b | Setup.Raise _ => false end), cmd.
  split; [exact Hk|]. split.
  { unfold Setup.install_ffmpeg_linux, Setup.try_except. rewrite Hrun.
    destruct r as [b|e]; reflexivity. }
  split; [apply ran_all_runs|]. split; [apply ran_all_files|].
  split.
  { intros i c Hi Hc. apply guarded_result_false, (Hbefore i c Hi Hc). }
  split; [exact Hlast|]. cbv zeta.
  change (Setup.spawn host cmd (ran_all (take (k - 1) cmds) m)) with last.
  pose proof (guarded_result_true Setup.is_CalledProcessError_or_TimeoutExpired last)
    as Htrue.
  fold r in Htrue.
  split.
  - destruct Htrue as [Hto Hfrom]. split.
    + intros Hb. apply Hto. destruct r as [[|]|e]; [reflexivity | discriminate Hb..].
    + intros Hz. rewrite (Hfrom Hz). reflexivity.
  - intros Hb Hlt.
    assert (Hr : r ≠ Setup.Ok false) by (intros Hr; specialize (Hend Hr); lia).
    assert (Hr' : r ≠ Setup.Ok true) by (intros Hr'; rewrite Hr' in Hb; discriminate Hb).
    unfold r, guarded_result in Hr, Hr'.
    destruct (check_call_result last) as [[]|e]; [contradiction|].
    exists e. split; [reflexivity|].
    destruct (Setup.is_CalledProcessError_or_TimeoutExpired e); [contradiction | reflexivity].
Qed.

(** X14.  When the [apt-get] line fails and [yum] is not installed,
    [install_ffmpeg_linux] gives up: it returns [False] after these two
    commands, and [dnf] and [pacman] are never run. *)
Theorem X14_missing_yum_ends_the_search :
  ∀ host m returncode,
    let apt := ["bash"; "-c"; "apt-get update && apt-get install -y ffmpeg"] in
    let yum := ["yum"; "install"; "-y"; "ffmpeg"] in
    Setup.spawn host apt m = Setup.Exited returncode →
    returncode ≠ 0%Z →
    Setup.spawn host yum (ran apt m) = Setup.NotFound →
    Setup.install_ffmpeg_linux host m = (ran yum (ran apt m), Setup.Ok false).
Proof.
  intros host m returncode apt yum Hapt Hcode Hyum.
  unfold Setup.install_ffmpeg_linux, Setup.try_except, Setup.package_managers.
  cbn [Setup.try_managers]. unfold Setup.bind at 1.
  rewrite guarded_check_call_spec.
  change (Setup.manager_command
            ["apt-get"; "update"; "&&"; "apt-get"; "install"; "-y"; "ffmpeg"]) with apt.
  rewrite Hapt. cbn [check_call_result].
  destruct (Z.eqb_spec returncode 0) as [|_]; [contradiction|].
  cbn [Setup.is_CalledProcessError_or_TimeoutExpired].
  unfold Setup.bind at 1. rewrite guarded_check_call_spec.
  change (Setup.manager_command ["yum"; "install"; "-y"; "ffmpeg"]) with yum.
  rewrite Hyum. reflexivity.
Qed.

(** X14 on a host where, of the four managers, only [pacman] exists. *)
Lemma X14_witness :
  Setup.spawn arch_host ["pacman"; "-S"; "--noconfirm"; "ffmpeg"] empty_machine
  = Setup.Exited 0 ∧
  Setup.install_ffmpeg_linux arch_host empty_machine
  = (ran ["yum"; "install"; "-y"; "ffmpeg"]
       (ran ["bash"; "-c"; "apt-get update && apt-get install -y ffmpeg"] empty_machine),
     Setup.Ok false).
Proof.
  split; [reflexivity|].
  exact (X14_missing_yum_ends_the_search arch_host empty_machine 127%Z
           eq_refl ltac:(discriminate) eq_refl).
Defined.

(** ** [install_ffmpeg_windows] *)

Lemma foldr_insert_is_Some (names : list string) (fm : gmap string (list string)) key :
  is_Some (fm !! key) →
  is_Some (foldr (fun name acc => <[ name := [] ]> acc) fm names !! key).
Proof.
  intros H. induction names as [|name names IH]; [exact H|].
  cbn [foldr]. destruct (decide (name = key)) as [->|Hne].
  - rewrite lookup_insert_eq. eauto.
  - rewrite lookup_insert_ne by exact Hne. exact IH.
Qed.

Lemma manual_download_keeps_archive host m m' :
  Setup.manual_download host m = (m', Setup.Ok true) →
  is_Some (Setup.files m' !! Setup.zip_path).
Proof.
  unfold Setup.manual_download.
  unfold Setup.bind at 1. unfold Setup.urlretrieve.
  destruct (Setup.urlretrieve_error host _ _ m) as [e|]; [discriminate|].
  unfold Setup.bind at 1. unfold Setup.zip_extractall.
  destruct (Setup.extractall host _ _) as [e|names]; [discriminate|].
  unfold Setup.bind at 1. unfold Setup.find_extracted_dir.
  destruct (List.find _ _) as [dir|].
  - unfold Setup.bind at 1. unfold Setup.bind at 1. unfold Setup.prepend_to_PATH.
    unfold Setup.try_except, Setup.bind at 1, Setup.subprocess_run.
    destruct (Setup.spawn host _ _) as [returncode| | |msg]; cbn;
      try discriminate.
    destruct (returncode =? 0)%Z; cbn.
    + intros [= <-]. cbn. apply foldr_insert_is_Some.
      rewrite lookup_insert_eq. eauto.
    + destruct (bool_decide _); cbn; discriminate.
    + destruct (bool_decide _); cbn; discriminate.
  - cbn. destruct (bool_decide _); cbn; discriminate.
Qed.

(** X15.  [install_ffmpeg_windows] never raises.  When [winget] cannot be
    started (it is not found, or starting it fails otherwise), the function
    returns [False] at once: nothing is downloaded, and [winget] is the
    only command run.  When it returns [True] after the manual download,
    the archive [ffmpeg.zip] is still in the working directory: the archive
    is removed only on the path that returns [False]. *)
Theorem X15_install_ffmpeg_windows :
  ∀ host m,
    let winget := ["winget"; "install"; "FFmpeg"] in
    (∃ m' b, Setup.install_ffmpeg_windows host m = (m', Setup.Ok b)) ∧
    (Setup.spawn host winget m = Setup.NotFound ∨
     (∃ msg, Setup.spawn host winget m = Setup.Failed msg) →
     Setup.install_ffmpeg_windows host m = (ran winget m, Setup.Ok false)) ∧
    (∀ m',
       Setup.install_ffmpeg_windows host m = (m', Setup.Ok true) →
       (Setup.spawn host winget m = Setup.Exited 0 ∧ m' = ran winget m) ∨
       is_Some (Setup.files m' !! Setup.zip_path)).
Proof.
  intros host m winget. split; [|split].
  - unfold Setup.install_ffmpeg_windows, Setup.try_except.
    destruct (Setup.install_ffmpeg_windows_body host m) as [m1 [b|e]]; cbn; eauto.
  - intros Hspawn.
    unfold Setup.install_ffmpeg_windows, Setup.try_except at 1,
      Setup.install_ffmpeg_windows_body.
    unfold Setup.bind at 1. rewrite guarded_check_call_spec. fold winget.
    destruct Hspawn as [-> | [msg ->]]; reflexivity.
  - intros m'.
    unfold Setup.install_ffmpeg_windows, Setup.try_except at 1,
      Setup.install_ffmpeg_windows_body.
    unfold Setup.bind at 1. rewrite guarded_check_call_spec. fold winget.
    assert (Hmanual :
              (let (m2, r) := Setup.manual_download host (ran winget m) in
               match r with
               | Setup.Ok a => (m2, Setup.Ok a)
               | Setup.Raise e =>
                   if Setup.is_Exception e then Setup.ret false m2
                   else (m2, Setup.Raise e)
               end) = (m', Setup.Ok true) →
              is_Some (Setup.files m' !! Setup.zip_path)).
    { destruct (Setup.manual_download host (ran winget m)) as [m2 [b|e]] eqn:Hrun;
        cbn; [|discriminate].
      intros [= <- ->]. apply (manual_download_keeps_archive host _ _ Hrun). }
    destruct (Setup.spawn host winget m) as [returncode| | |msg] eqn:Hspawn;
      cbn [check_call_result].
    + destruct (Z.eqb_spec returncode 0) as [->|Hcode].
      * cbn. intros [= <-]. left. split; reflexivity.
      * cbn [Setup.is_CalledProcessError_or_TimeoutExpired]. intros H. right.
        apply Hmanual, H.
    + cbn [Setup.is_CalledProcessError_or_TimeoutExpired]. intros H. right.
      apply Hmanual, H.
    + cbn. discriminate.
    + cbn. discriminate.
Qed.

(** X15 on a Windows host without [winget]. *)
Lemma X15_witness :
  Setup.spawn no_winget_host ["winget"; "install"; "FFmpeg"] empty_machine
  = Setup.NotFound ∧
  Setup.install_ffmpeg_windows no_winget_host empty_machine
  = (ran ["winget"; "install"; "FFmpeg"] empty_machine, Setup.Ok false).
Proof.
  split; [reflexivity|].
  exact (proj1 (proj2 (X15_install_ffmpeg_windows no_winget_host empty_machine))
           (or_introl eq_refl)).
Defined.

(** ** [create_test_csv] *)

(** X16.  [create_test_csv] never raises, runs no command and changes no
    file other than [avspeech_test_100.csv].  When that file exists it is
    left as it is and the result is [True].  When it does not exist and
    [avspeech_test.csv] does not either, nothing changes and the result is
    [False].  Otherwise the result is [True] with the new file holding the
    first 100 rows of [avspeech_test.csv] (all of them when there are
    fewer), or [False] with nothing changed when reading raises. *)
Theorem X16_create_test_csv :
  ∀ host m,
    let test := "avspeech_test_100.csv" in
    let main := "avspeech_test.csv" in
    ∃ m' b,
      Setup.create_test_csv host m = (m', Setup.Ok b) ∧
      Setup.runs m' = Setup.runs m ∧
      Setup.PATH m' = Setup.PATH m ∧
      (∀ p, p ≠ test → Setup.files m' !! p = Setup.files m !! p) ∧
      (is_Some (Setup.files m !! test) → m' = m ∧ b = true) ∧
      (Setup.files m !! test = None → Setup.files m !! main = None →
       m' = m ∧ b = false) ∧
      (∀ rows,
         Setup.files m !! test = None → Setup.files m !! main = Some rows →
         (b = true ∧ Setup.files m' !! test = Some (take 100 rows) ∧
          length (take 100 rows) = Nat.min 100 (length rows)) ∨
         (b = false ∧ m' = m)).
Proof.
  intros host m test main.
  unfold Setup.create_test_csv, Setup.bind, Setup.os_path_exists, Setup.try_except,
    Setup.ret.
  fold test. fold main.
  assert (Hnone : ∀ P : Prop, is_Some (None : option (list string)) → P)
    by (intros P [x Hx]; discriminate Hx).
  destruct (Setup.files m !! test) as [old|] eqn:Htest.
  - rewrite bool_decide_eq_true_2 by eauto.
    exists m, true. split; [reflexivity|]. split; [reflexivity|]. split; [reflexivity|].
    split; [reflexivity|]. split; [intros _; split; reflexivity|].
    split; [discriminate|]. intros rows Hrows. discriminate Hrows.
  - rewrite bool_decide_eq_false_2 by (intros H; exact (Hnone _ H)).
    destruct (Setup.files m !! main) as [rows|] eqn:Hmain.
    + rewrite bool_decide_eq_true_2 by eauto. cbn [negb].
      destruct (Setup.read_csv_error host main m) as [e|].
      * exists m, false. cbn.
        split; [reflexivity|]. split; [reflexivity|]. split; [reflexivity|].
        split; [reflexivity|]. split; [apply Hnone|].
        split; [discriminate|]. intros rows' _ _. right. split; reflexivity.
      * eexists _, true. split; [reflexivity|]. cbn. rewrite Hmain. cbn [default].
        split; [reflexivity|]. split; [reflexivity|]. split.
        { intros p Hp. rewrite lookup_insert_ne by (intros ->; contradiction).
          reflexivity. }
        split; [apply Hnone|]. split; [discriminate|].
        intros rows' _ [= <-]. left. split; [reflexivity|].
        rewrite lookup_insert_eq, length_take. split; reflexivity.
    + rewrite bool_decide_eq_false_2 by (intros H; exact (Hnone _ H)). cbn [negb].
      exists m, false.
      split; [reflexivity|]. split; [reflexivity|]. split; [reflexivity|].
      split; [reflexivity|]. split; [apply Hnone|].
      split; [intros _ _; split; reflexivity|]. intros rows _ Hrows. discriminate Hrows.
Qed.

(** ** The commands run by the setup script *)

Lemma grows_ret {A} (a : A) : grows (Setup.ret a).
Proof. intros m. exists []. rewrite app_nil_r. reflexivity. Qed.

Lemma grows_raise {A} e : grows (@Setup.raise A e).
Proof. intros m. exists []. rewrite app_nil_r. reflexivity. Qed.

Lemma grows_bind {A B} (c : Setup.Py A) (k : A → Setup.Py B) :
  grows c → (∀ a, grows (k a)) → grows (Setup.bind c k).
Proof.
  intros Hc Hk m. unfold Setup.bind.
  destruct (Hc m) as [rest1 H1]. destruct (c m) as [m1 [a|e]]; cbn [fst] in *.
  - destruct (Hk a m1) as [rest2 H2]. exists (rest1 ++ rest2).
    rewrite H2, H1, app_assoc. reflexivity.
  - exists rest1. exact H1.
Qed.

Lemma grows_try_except {A} (c : Setup.Py A) caught h :
  grows c → (∀ e, grows (h e)) → grows (Setup.try_except c caught h).
Proof.
  intros Hc Hh m. unfold Setup.try_except.
  destruct (Hc m) as [rest1 H1]. destruct (c m) as [m1 [a|e]]; cbn [fst] in *.
  - exists rest1. exact H1.
  - destruct (caught e); [|exists rest1; exact H1].
    destruct (Hh e m1) as [rest2 H2]. exists (rest1 ++ rest2).
    rewrite H2, H1, app_assoc. reflexivity.
Qed.

Lemma grows_subprocess_run host cmd : grows (Setup.subprocess_run host cmd).
Proof.
  intros m. exists [cmd]. unfold Setup.subprocess_run.
  destruct (Setup.spawn host cmd m); reflexivity.
Qed.

Lemma grows_same_runs {A} (c : Setup.Py A) :
  (∀ m, Setup.runs (fst (c m)) = Setup.runs m) → grows c.
Proof. intros H m. exists []. rewrite app_nil_r. apply H. Qed.

Lemma grows_urlretrieve host url path : grows (Setup.urlretrieve host url path).
Proof.
  apply grows_same_runs. intros m. unfold Setup.urlretrieve.
  destruct (Setup.urlretrieve_error host url path m); reflexivity.
Qed.

Lemma grows_zip_extractall host path : grows (Setup.zip_extractall host path).
Proof.
  apply grows_same_runs. intros m. unfold Setup.zip_extractall.
  destruct (Setup.extractall host path m); reflexivity.
Qed.

Create HintDb grows.
#[local] Hint Resolve grows_ret grows_raise grows_subprocess_run grows_urlretrieve
  grows_zip_extractall : grows.

Ltac grows_step :=
  match goal with
  | |- grows (Setup.bind _ _) => apply grows_bind; [|intros ?]
  | |- grows (Setup.try_except _ _ _) => apply grows_try_except; [|intros ?]
  | |- grows (if ?b then _ else _) => destruct b
  | |- grows (match ?x with Some _ => _ | None => _ end) => destruct x
  | |- grows _ => solve [auto with grows]
  | |- grows _ => solve [apply grows_same_runs; intros ?; reflexivity]
  end.

Lemma grows_subprocess_check_call host cmd :
  grows (Setup.subprocess_check_call host cmd).
Proof. unfold Setup.subprocess_check_call. repeat grows_step. Qed.

#[local] Hint Resolve grows_subprocess_check_call : grows.

Lemma grows_install_each host todo : grows (Setup.install_each host todo).
Proof.
  induction todo as [|package rest IH]; cbn [Setup.install_each];
    repeat grows_step; exact IH.
Qed.

Lemma grows_try_managers host todo : grows (Setup.try_managers host todo).
Proof.
  induction todo as [|manager rest IH]; cbn [Setup.try_managers];
    repeat grows_step; exact IH.
Qed.

Lemma grows_install_ffmpeg host : grows (Setup.install_ffmpeg host).
Proof.
  unfold Setup.install_ffmpeg. repeat grows_step.
  - unfold Setup.install_ffmpeg_windows, Setup.install_ffmpeg_windows_body,
      Setup.manual_download. repeat grows_step.
  - unfold Setup.install_ffmpeg_linux. grows_step; [|grows_step].
    apply grows_try_managers.
  - unfold Setup.install_ffmpeg_macos. repeat grows_step.
Qed.

Lemma check_ffmpeg_runs host m :
  ∃ rest,
    Setup.runs (fst (Setup.check_ffmpeg host m))
    = Setup.runs m ++ ffmpeg_version :: rest.
Proof.
  unfold Setup.check_ffmpeg. unfold Setup.bind at 1.
  unfold Setup.try_except, Setup.bind, Setup.subprocess_run.
  fold ffmpeg_version.
  pose proof (grows_install_ffmpeg host
                (Setup.mkMachine (Setup.files m) (Setup.PATH m)
                   (Setup.runs m ++ [ffmpeg_version]))) as [rest Hrest].
  cbn [Setup.runs] in Hrest. rewrite <- app_assoc in Hrest.
  destruct (Setup.spawn host ffmpeg_version m) as [returncode| | |msg]; cbn.
  - destruct (returncode =? 0)%Z; cbn; [exists []; reflexivity | eauto].
  - eauto.
  - eauto.
  - exists []. reflexivity.
Qed.

(** ** [main] of the setup script *)

Lemma create_test_csv_quiet host m :
  ∃ m' b,
    Setup.create_test_csv host m = (m', Setup.Ok b) ∧ Setup.runs m' = Setup.runs m.
Proof.
  unfold Setup.create_test_csv, Setup.bind, Setup.os_path_exists, Setup.try_except,
    Setup.ret.
  destruct (bool_decide _); [eauto|].
  destruct (bool_decide _); cbn [negb]; [|eauto].
  destruct (Setup.read_csv_error host _ m); cbn; eauto.
Qed.

Lemma verify_environment_true host m m' :
  Setup.verify_environment host m = (m', Setup.Ok true) →
  Setup.spawn host ffmpeg_version m = Setup.Exited 0 ∧ m' = ran ffmpeg_version m.
Proof.
  unfold Setup.verify_environment. unfold Setup.bind at 1. unfold Setup.try_except at 1.
  destruct (Setup.import_error host m) as [e|].
  - destruct (Setup.is_ImportError e); cbn; discriminate.
  - cbn [negb]. unfold Setup.try_except, Setup.bind, Setup.subprocess_run.
    fold ffmpeg_version.
    destruct (Setup.spawn host ffmpeg_version m) as [returncode| | |msg]; cbn;
      try discriminate.
    destruct (Z.eqb_spec returncode 0) as [->|]; cbn; [|discriminate].
    intros [= <-]. split; reflexivity.
Qed.

(** X17.  [main] of the setup script returns [False] without running any
    command or touching any file when the interpreter is older than Python
    3.8.  When it returns [True], the interpreter is 3.8 or newer and the
    commands run are, in this order: [pip install] for each of the seven
    packages, then [ffmpeg -version] and what [check_ffmpeg] ran after it,
    then the [ffmpeg -version] of [verify_environment], which ended with
    code 0.  The result of [create_test_csv] plays no part. *)
Theorem X17_setup_main :
  ∀ host m,
    (Setup.check_python_version host = true ↔
     let '(major, minor, _) := Setup.version_info host in
     (3 < major ∨ major = 3 ∧ 8 ≤ minor)%Z) ∧
    (Setup.check_python_version host = false →
     Setup.main host m = (m, Setup.Ok false)) ∧
    (∀ m',
       Setup.main host m = (m', Setup.Ok true) →
       Setup.check_python_version host = true ∧
       ∃ rest m3,
         Setup.runs m'
         = Setup.runs m ++ (Setup.pip_install host <$> Setup.packages)
           ++ ffmpeg_version :: rest ++ [ffmpeg_version] ∧
         m' = ran ffmpeg_version m3 ∧
         Setup.spawn host ffmpeg_version m3 = Setup.Exited 0).
Proof.
  intros host m. split; [|split].
  - unfold Setup.check_python_version.
    destruct (Setup.version_info host) as [[major minor] micro].
    destruct (Z.ltb_spec major 3); cbn [orb].
    + split; [discriminate | lia].
    + destruct (Z.eqb_spec major 3); cbn [andb].
      * destruct (Z.ltb_spec minor 8); split; try discriminate; try reflexivity; lia.
      * split; [lia | reflexivity].
  - intros Hold. unfold Setup.main. rewrite Hold. reflexivity.
  - intros m'. unfold Setup.main.
    destruct (Setup.check_python_version host); cbn [negb]; [|discriminate].
    unfold Setup.bind at 1.
    destruct (install_each_effect host Setup.packages m)
      as (m1 & r1 & k & Hrun1 & _ & Hruns1 & Hall).
    unfold Setup.install_pip_packages. rewrite Hrun1.
    destruct r1 as [[|]|e]; cbn [negb]; try discriminate.
    rewrite (Hall eq_refl) in Hruns1. cbn [length Setup.packages] in Hruns1.
    change (take 7 Setup.packages) with Setup.packages in Hruns1.
    unfold Setup.bind at 1.
    destruct (check_ffmpeg_runs host m1) as [rest2 Hruns2].
    destruct (Setup.check_ffmpeg host m1) as [m2 [[|]|e]]; cbn [negb fst] in *;
      try discriminate.
    unfold Setup.bind at 1.
    destruct (create_test_csv_quiet host m2) as (m3 & b3 & Hrun3 & Hruns3).
    rewrite Hrun3. unfold Setup.bind at 1.
    destruct (Setup.verify_environment host m3) as [m4 [[|]|e]] eqn:Hrun4; cbn [negb];
      try discriminate.
    intros [= <-]. split; [reflexivity|].
    apply verify_environment_true in Hrun4 as [Hspawn ->].
    exists rest2, m3. split; [|split; [reflexivity | exact Hspawn]].
    cbn [ran Setup.runs]. rewrite Hruns3, Hruns2, Hruns1, <- !app_assoc. reflexivity.
Qed.

(** X16 at a working directory that holds a main CSV file of 150 rows. *)
Lemma X16_witness :
  Setup.files main_csv_machine !! "avspeech_test_100.csv" = None ∧
  Setup.files main_csv_machine !! "avspeech_test.csv" = Some (repeat "id,0,1" 150) ∧
  snd (Setup.create_test_csv ready_host main_csv_machine) = Setup.Ok true ∧
  Setup.files (fst (Setup.create_test_csv ready_host main_csv_machine))
    !! "avspeech_test_100.csv" = Some (repeat "id,0,1" 100).
Proof.
  assert (Htest : Setup.files main_csv_machine !! "avspeech_test_100.csv" = None)
    by (vm_compute; reflexivity).
  assert (Hmain : Setup.files main_csv_machine !! "avspeech_test.csv"
                  = Some (repeat "id,0,1" 150)) by (vm_compute; reflexivity).
  split; [exact Htest|]. split; [exact Hmain|].
  destruct (X16_create_test_csv ready_host main_csv_machine)
    as (m' & b & Hrun & _ & _ & _ & _ & _ & Hrows).
  rewrite Hrun. cbn [fst snd].
  destruct (Hrows _ Htest Hmain) as [(-> & Hfile & _) | (-> & ->)].
  - split; [reflexivity | exact Hfile].
  - exfalso. vm_compute in Hrun. discriminate Hrun.
Defined.

(** X17 on a host where everything works, and on one with Python 3.7. *)
Lemma X17_witness :
  snd (Setup.main ready_host empty_machine) = Setup.Ok true ∧
  Setup.check_python_version ready_host = true ∧
  Setup.main old_python_host empty_machine = (empty_machine, Setup.Ok false).
Proof.
  destruct (X17_setup_main ready_host empty_machine) as (_ & _ & Htrue).
  destruct (X17_setup_main old_python_host empty_machine) as (_ & Hold & _).
  split; [vm_compute; reflexivity|].
  split; [|exact (Hold eq_refl)].
  apply (Htrue (fst (Setup.main ready_host empty_machine))).
  vm_compute. reflexivity.
Defined.

(** * Further properties of the scripts: the scan of the frames *)

Lemma find_existsb {A} (p : A → bool) (l : list A) :
  existsb p l = match List.find p l with Some _ => true | None => false end.
Proof. induction l as [|a l IH]; cbn; [reflexivity|]. destruct (p a); auto. Qed.

Lemma sampled_numbers_cons frame_count n :
  sampled_numbers frame_count (S n)
  = if (S frame_count mod 30 =? 0)
    then S frame_count :: sampled_numbers (S frame_count) n
    else sampled_numbers (S frame_count) n.
Proof. reflexivity. Qed.

Lemma flat_while_frames_detections face_path :
  ∀ frames frame_count w,
    ∃ evs,
      trace (fst (Flat.while_frames face_path frames frame_count false w))
      = trace w ++ evs ∧
      detections evs
      = take (scanned (sampled frame_count frames))
          (sampled_numbers frame_count (length frames)).
Proof.
  induction frames as [|frame rest IH]; intros frame_count w.
  - exists []. rewrite app_nil_r. split; reflexivity.
  - rewrite flat_while_frames_cons, sampled_cons. cbn [length].
    rewrite sampled_numbers_cons.
    destruct (S frame_count mod 30 =? 0) eqn:E; cbn [negb]; [|apply IH].
    unfold bind at 1. unfold detectMultiScale, bind, act, ret.
    rewrite flat_for_faces_effect. cbn [scanned]. rewrite find_existsb.
    destruct (List.find big_enough frame) as [r|].
    + destruct (cv2_imwrite_effect face_path r (emit (EvDetect (S frame_count)) w))
        as (w2 & -> & Htr & _).
      cbn [fst]. rewrite flat_while_frames_found. cbn [fst].
      exists [EvDetect (S frame_count); EvImwrite face_path r.1.2 r.2].
      rewrite Htr. cbn [emit trace]. rewrite <- app_assoc. split; reflexivity.
    + destruct (IH (S frame_count) (emit (EvDetect (S frame_count)) w))
        as (evs & Htr & Hdet).
      exists (EvDetect (S frame_count) :: evs).
      rewrite Htr. cbn [emit trace]. rewrite <- app_assoc. split; [reflexivity|].
      cbn [detections firstn]. rewrite Hdet. reflexivity.
Qed.

Lemma sampled_numbers_closed_form :
  ∀ n frame_count,
    sampled_numbers frame_count n
    = (fun i => 30 * i)
      <$> seq (frame_count / 30 + 1) ((frame_count + n) / 30 - frame_count / 30).
Proof.
  induction n as [|n IH]; intros frame_count.
  - rewrite Nat.add_0_r, Nat.sub_diag. reflexivity.
  - rewrite sampled_numbers_cons, IH.
    replace (frame_count + S n) with (S frame_count + n) by lia.
    pose proof (Nat.div_mod_eq (S frame_count) 30) as E1.
    pose proof (Nat.div_mod_eq frame_count 30) as E2.
    pose proof (Nat.mod_upper_bound (S frame_count) 30 ltac:(lia)) as B1.
    pose proof (Nat.mod_upper_bound frame_count 30 ltac:(lia)) as B2.
    destruct (Nat.eqb_spec (S frame_count mod 30) 0) as [Hmod|Hmod].
    + assert (Hq : S frame_count / 30 = frame_count / 30 + 1) by lia.
      assert (Hle : S frame_count / 30 ≤ (S frame_count + n) / 30)
        by (apply Nat.Div0.div_le_mono; lia).
      replace ((S frame_count + n) / 30 - frame_count / 30)
        with (S ((S frame_count + n) / 30 - S frame_count / 30)) by lia.
      cbn [seq fmap list_fmap]. rewrite <- Hq. f_equal; [lia|].
      replace (S (S frame_count / 30)) with (S frame_count / 30 + 1) by lia.
      reflexivity.
    + assert (Hq : S frame_count / 30 = frame_count / 30) by lia.
      rewrite Hq. reflexivity.
Qed.

(** X18.  In the one-face script the detector runs on the sampled frames
    in order and on no frame after the first sampled frame that shows a
    face of at least 50 by 50: on a video of [n] frames the frames handed
    to the detector are the first [scanned] of the frames numbered 30, 60,
    ..., [30 * (n / 30)], and none when the capture raises or is not
    opened. *)
Theorem X18_single_face_scan_stops_at_first_face :
  ∀ env video_path face_path youtube_id w,
    ∃ evs,
      trace (fst (Flat.extract_faces env video_path face_path youtube_id w))
      = trace w ++ evs ∧
      detections evs
      = match cv2_VideoCapture env video_path w with
        | CapOpened frames =>
            take (scanned (sampled 0 frames))
                 ((fun i => 30 * i) <$> seq 1 (length frames / 30))
        | _ => []
        end.
Proof.
  intros env video_path face_path youtube_id w.
  unfold Flat.extract_faces, try_except.
  destruct (cv2_VideoCapture env video_path w) as [msg| |frames].
  - exists []. rewrite app_nil_r. split; reflexivity.
  - exists []. rewrite app_nil_r. split; reflexivity.
  - destruct (flat_while_frames_detections face_path frames 0 w) as (evs & Htr & Hdet).
    destruct (flat_while_frames_effect face_path frames 0 w) as (w' & b & evs' & Hrun & _).
    rewrite Hrun in Htr |- *. exists evs. split; [exact Htr|].
    rewrite Hdet, sampled_numbers_closed_form.
    change (0 / 30) with 0. cbn [Nat.add]. rewrite Nat.sub_0_r. reflexivity.
Qed.

(** * Further properties of the scripts: the failure log of the ten-face script *)

(** X19.  [process_video] of the ten-face script appends at most one line
    to the failure log, [youtube_id,Download failed,details] or
    [youtube_id,Processing failed,details], and none when it returns
    [True].  It raises exactly when [os.makedirs] does, with the exception
    of that call and without a line in the log.  A record whose audio
    extraction or face extraction returns [False] gets no line. *)
Theorem X19_nested_failure_log_lines :
  ∀ cfg env youtube_id start_time end_time w,
    let args := (youtube_id, start_time, end_time) in
    let video := Nested.video_path cfg youtube_id in
    let audio := Nested.audio_path cfg youtube_id in
    let faces := Nested.face_dir cfg youtube_id in
    let w0 := create faces w in
    (∃ w' r lines,
       Nested.process_video cfg env args w = (w', r) ∧
       log w' = log w ++ lines ∧
       (r = Ok true → lines = []) ∧
       (∀ e, r = Raise e ↔ os_makedirs_error env faces w = Some e) ∧
       (∀ e, r = Raise e → lines = []) ∧
       (lines = [] ∨
        ∃ e, lines = [failure_line youtube_id "Download failed" e] ∨
             lines = [failure_line youtube_id "Processing failed" e])) ∧
    (∀ w1 w2,
       os_makedirs_error env faces w = None →
       download_video cfg env youtube_id video 0 w0 = (w1, Ok true) →
       Nested.extract_audio env video audio w1 = (w2, Ok false) →
       Nested.process_video cfg env args w = (w2, Ok false) ∧ log w2 = log w) ∧
    (∀ w1 w2 w3,
       os_makedirs_error env faces w = None →
       download_video cfg env youtube_id video 0 w0 = (w1, Ok true) →
       Nested.extract_audio env video audio w1 = (w2, Ok true) →
       Nested.extract_faces env video faces youtube_id w2 = (w3, Ok false) →
       Nested.process_video cfg env args w = (w3, Ok false) ∧ log w3 = log w).
Proof.
  intros cfg env youtube_id start_time end_time w args video audio faces w0.
  assert (Hunfold :
            os_makedirs_error env faces w = None →
            Nested.process_video cfg env args w
            = try_except (Nested.process_video_body cfg env youtube_id)
                (fun e => log_failure youtube_id "Processing failed" e ;; ret false)%py w0).
  { intros Hdir. unfold args. rewrite nested_process_video_makedirs.
    fold faces. rewrite Hdir. reflexivity. }
  destruct (download_video_effect cfg env youtube_id video (MAX_RETRIES cfg) 0 w0
              ltac:(lia))
    as (w1 & b1 & evs1 & lines1 & Hrun1 & _ & Hlog1 & _ & _ & _ & _ & Hb1 & Hl1).
  change (log w0) with (log w) in Hlog1.
  split; [|split].
  - destruct (os_makedirs_error env faces w) as [e0|] eqn:Hdir.
    { exists w, (Raise e0), []. unfold args.
      rewrite nested_process_video_makedirs. fold faces. rewrite Hdir.
      rewrite app_nil_r. split; [reflexivity|]. split; [reflexivity|].
      split; [reflexivity|]. split; [intros e; split; congruence|].
      split; [reflexivity | left; reflexivity]. }
    rewrite (Hunfold eq_refl). unfold try_except, Nested.process_video_body.
    unfold bind at 1. fold video. rewrite Hrun1.
    assert (Hnever : ∀ (b : bool) e, Ok b = @Raise bool e ↔ @None string = Some e)
      by (intros b e; split; discriminate).
    destruct b1; cbn [negb].
    2:{ exists w1, (Ok false), lines1. split; [reflexivity|]. split; [exact Hlog1|].
        split; [discriminate|]. split; [apply Hnever|]. split; [discriminate|].
        destruct Hl1 as [->|[e ->]]; [left; reflexivity | right; exists e; left; reflexivity]. }
    destruct (Hb1 eq_refl) as [-> _]. rewrite app_nil_r in Hlog1.
    unfold bind at 1. fold audio.
    destruct (nested_extract_audio_effect env video audio w1)
      as (w2 & b2 & -> & Hlog2 & _).
    destruct b2; cbn [negb].
    2:{ exists w2, (Ok false), []. rewrite app_nil_r, Hlog2.
        split; [reflexivity|]. split; [exact Hlog1|]. split; [reflexivity|].
        split; [apply Hnever|]. split; [reflexivity | left; reflexivity]. }
    unfold bind at 1. fold faces.
    destruct (nested_extract_faces_effect env video faces youtube_id w2)
      as (w3 & b3 & evs3 & -> & _ & Hlog3 & _).
    assert (Hlog : log w3 = log w) by (rewrite Hlog3, Hlog2; exact Hlog1).
    destruct b3; cbn [negb].
    2:{ exists w3, (Ok false), []. rewrite app_nil_r.
        split; [reflexivity|]. split; [exact Hlog|]. split; [reflexivity|].
        split; [apply Hnever|]. split; [reflexivity | left; reflexivity]. }
    unfold bind at 1. unfold os_path_exists, ask.
    destruct (bool_decide _).
    + unfold bind at 1.
      destruct (os_remove_effect env video w3) as [[e ->] | ->].
      * eexists _, (Ok false), [_]. split; [reflexivity|]. cbn. rewrite Hlog.
        split; [reflexivity|]. split; [discriminate|]. split; [apply Hnever|].
        split; [discriminate|].
        right. exists e. right. reflexivity.
      * eexists _, (Ok true), []. split; [reflexivity|]. cbn. rewrite Hlog, app_nil_r.
        split; [reflexivity|]. split; [reflexivity|]. split; [apply Hnever|].
        split; [reflexivity | left; reflexivity].
    + exists w3, (Ok true), []. rewrite app_nil_r.
      split; [reflexivity|]. split; [exact Hlog|]. split; [reflexivity|].
      split; [apply Hnever|]. split; [reflexivity | left; reflexivity].
  - intros w1' w2 Hdir Hdl Hau.
    rewrite Hdl in Hrun1. injection Hrun1 as <- <-.
    destruct (Hb1 eq_refl) as [-> _]. rewrite app_nil_r in Hlog1.
    split.
    + rewrite (Hunfold Hdir). unfold try_except, Nested.process_video_body.
      unfold bind at 1. fold video. rewrite Hdl. cbn [negb].
      unfold bind at 1. fold audio. rewrite Hau. reflexivity.
    + destruct (nested_extract_audio_effect env video audio w1')
        as (w2' & b & Hau' & Hlog2 & _).
      rewrite Hau in Hau'. injection Hau' as <- _. rewrite Hlog2. exact Hlog1.
  - intros w1' w2 w3 Hdir Hdl Hau Hfa.
    rewrite Hdl in Hrun1. injection Hrun1 as <- <-.
    destruct (Hb1 eq_refl) as [-> _]. rewrite app_nil_r in Hlog1.
    split.
    + rewrite (Hunfold Hdir). unfold try_except, Nested.process_video_body.
      unfold bind at 1. fold video. rewrite Hdl. cbn [negb].
      unfold bind at 1. fold audio. rewrite Hau. cbn [negb].
      unfold bind at 1. fold faces. rewrite Hfa. reflexivity.
    + destruct (nested_extract_audio_effect env video audio w1')
        as (w2' & b & Hau' & Hlog2 & _).
      rewrite Hau in Hau'. injection Hau' as <- _.
      destruct (nested_extract_faces_effect env video faces youtube_id w2)
        as (w3' & b3 & evs3 & Hfa' & _ & Hlog3 & _).
      rewrite Hfa in Hfa'. injection Hfa' as <- _.
      rewrite Hlog3, Hlog2. exact Hlog1.
Qed.

(** X19 at the record [noface] of the scenario, and at the record of 300
    characters whose directory cannot be made. *)
Lemma X19_witness :
  (snd (Nested.process_video (config PRODUCTION) scenario_env
          ("noface", 10%float, 15%float) empty_world) = Ok false ∧
   log (fst (Nested.process_video (config PRODUCTION) scenario_env
               ("noface", 10%float, 15%float) empty_world)) = []) ∧
  ∃ w' r lines,
    Nested.process_video (config PRODUCTION) name_limit_env
      (long_id, 0%float, 0%float) empty_world = (w', r) ∧
    r = Raise "[Errno 36] File name too long" ∧ lines = [] ∧
    log w' = log empty_world ++ lines.
Proof.
  split.
  - pose (w0 := create (Nested.face_dir (config PRODUCTION) "noface") empty_world).
    pose (w1 := fst (download_video (config PRODUCTION) scenario_env "noface"
                       (Nested.video_path (config PRODUCTION) "noface") 0 w0)).
    pose (w2 := fst (Nested.extract_audio scenario_env
                       (Nested.video_path (config PRODUCTION) "noface")
                       (Nested.audio_path (config PRODUCTION) "noface") w1)).
    pose (w3 := fst (Nested.extract_faces scenario_env
                       (Nested.video_path (config PRODUCTION) "noface")
                       (Nested.face_dir (config PRODUCTION) "noface") "noface" w2)).
    destruct (proj2 (proj2 (X19_nested_failure_log_lines (config PRODUCTION) scenario_env
                              "noface" 10%float 15%float empty_world)) w1 w2 w3)
      as (Hrun & Hlog).
    + reflexivity.
    + vm_compute. reflexivity.
    + vm_compute. reflexivity.
    + vm_compute. reflexivity.
    + rewrite Hrun. exact (conj eq_refl Hlog).
  - destruct (proj1 (X19_nested_failure_log_lines (config PRODUCTION) name_limit_env
                       long_id 0%float 0%float empty_world))
      as (w' & r & lines & Hrun & Hlog & _ & Hraise & Hquiet & _).
    assert (Hr : r = Raise "[Errno 36] File name too long")
      by (apply Hraise; vm_compute; reflexivity).
    exists w', r, lines. split; [exact Hrun|]. split; [exact Hr|].
    split; [exact (Hquiet _ Hr) | exact Hlog].
Defined.
